(** * LioraWave backend ([backend/main.py]): a shallow embedding

    The development follows the layout of the Python module:
    - [Py]: the fragment of Python's built-ins the module relies on
      (exceptions, [str] methods and slicing, [round], true division);
    - [value] and [Value]: the objects [json.loads] builds, with [len],
      [min], item access and truthiness; [Json]: a decoder;
    - the pydantic models, one module each;
    - [AdvancedStoryAnalyzer], [ThreeDGenerator], [BusinessTracker];
    - the request handlers [analyze_story], [generate_scene] and
      [get_scene_viewer], and the states the server reaches when the event
      loop interleaves them ([Server]);
    - [Double]: the estimator in the arithmetic of IEEE 754 doubles.

    Modelling conventions.
    - In the pipeline a Python number is an exact rational ([Q]) and
      [round(x, 2)] is rounding to the nearest hundredth, ties to even.
      This is decimal arithmetic: it agrees with the program where the
      doubles involved are exact, and may differ from it by a cent where a
      product falls on or next to a tie; NaN, the infinities and
      [OverflowError] are outside of it.  The estimator, whose value the
      program reports, is therefore modelled a second time in binary64
      arithmetic ([Double]), and what is said of its figure is said there.
    - A Python [str] is a [string] whose characters are code points below 256.
    - A Python [dict] with string keys is a [gmap string _].
    - Code that may raise returns a [result]; [try ... except Exception]
      is a [match] on it.
    - What the outside world decides (the HTTP exchange with the language
      model, the fresh uuid, the wall clock) is an argument of the function
      that consumes it; [json.loads] is a parameter of the functions that
      call it, so that what is proved of them holds for every decoder.
    - Logging has no counterpart. *)

From Stdlib Require Import ZArith QArith Qround Qabs Qpower String Ascii List.
From Stdlib Require Import Lia Lqa SpecFloat.
From stdpp Require Import base strings gmap list.

#[local] Set Warnings "-register-all".
#[local] Open Scope string_scope.

(** ** Python built-ins *)

Module Py.

(** The exception classes that occur; all of them derive from [Exception]. *)
Inductive exn : Type :=
| HTTPException (status_code : Z) (detail : string)
| JSONDecodeError
| KeyError (key : string)
| TypeError
| AttributeError
| ValidationError
| ZeroDivisionError
| OverflowError
| RequestException.

Inductive result (A : Type) : Type :=
| Ok (a : A)
| Raise (e : exn).
Arguments Ok {A} a.
Arguments Raise {A} e.

#[export] Instance result_ret : MRet result := fun A a => Ok a.

#[export] Instance result_bind : MBind result := fun A B k r =>
match r with
| Ok a => k a
| Raise e => Raise e
end.

Definition succeeded {A} (r : result A) : option A :=
match r with
| Ok a => Some a
| Raise _ => None
end.

(** *** [str] *)

(** [str.isspace] on the code points below 256. *)
Definition isspace (c : ascii) : bool :=
let n := N_of_ascii c in
(((9 <=? n) && (n <=? 13)) || ((28 <=? n) && (n <=? 32))
 || (n =? 133) || (n =? 160))%N.

Fixpoint lstrip (s : string) : string :=
match s with
| EmptyString => EmptyString
| String c s' => if isspace c then lstrip s' else s
end.

Fixpoint rstrip (s : string) : string :=
match s with
| EmptyString => EmptyString
| String c s' =>
    match rstrip s' with
    | EmptyString => if isspace c then EmptyString else String c EmptyString
    | r => String c r
    end
end.

Definition strip (s : string) : string := rstrip (lstrip s).

Definition len (s : string) : Z := Z.of_nat (String.length s).

(** Resolution of one bound of a slice against a sequence of length [n]. *)
Definition slice_bound (n i : Z) : Z :=
let j := if (i <? 0)%Z then (i + n)%Z else i in
Z.max 0 (Z.min n j).

(** [s[lo:hi]]; an omitted bound is [None]. *)
Definition slice (s : string) (lo hi : option Z) : string :=
let n := len s in
let a := match lo with None => 0%Z | Some i => slice_bound n i end in
let b := match hi with None => n | Some i => slice_bound n i end in
substring (Z.to_nat a) (Z.to_nat (b - a)) s.

Fixpoint startswith (s p : string) : bool :=
match p, s with
| EmptyString, _ => true
| String a p', String b s' => Ascii.eqb a b && startswith s' p'
| String _ _, EmptyString => false
end.

Definition endswith (s p : string) : bool :=
let n := String.length s in
let m := String.length p in
(m <=? n)%nat && String.eqb (substring (n - m) m s) p.

(** [s.find(c)] and [s.rfind(c)] for a one-character needle: the lowest
  (highest) index of [c], or [-1]. *)
Fixpoint find_from (c : ascii) (s : string) (i : Z) : Z :=
match s with
| EmptyString => (-1)%Z
| String a s' => if Ascii.eqb a c then i else find_from c s' (i + 1)%Z
end.

Definition find (s : string) (c : ascii) : Z := find_from c s 0.

Fixpoint rfind_from (c : ascii) (s : string) (i : Z) : Z :=
match s with
| EmptyString => (-1)%Z
| String a s' =>
    let r := rfind_from c s' (i + 1)%Z in
    if (0 <=? r)%Z then r else if Ascii.eqb a c then i else (-1)%Z
end.

Definition rfind (s : string) (c : ascii) : Z := rfind_from c s 0.

(** *** [float] *)

(** Rounding to the nearest integer, ties to even. *)
Definition round_half_even (q : Q) : Z :=
let f := Qfloor q in
match (q - inject_Z f ?= 1 # 2)%Q with
| Lt => f
| Gt => (f + 1)%Z
| Eq => if Z.even f then f else (f + 1)%Z
end.

(** [round(x, 2)] in decimal arithmetic; [Double.round2] is the one on
    doubles. *)
Definition round2 (x : Q) : Q := Qmake (round_half_even (x * 100)) 100.

(** [a / b] on floats. *)
Definition truediv (a b : Q) : result Q :=
if Qeq_bool b 0 then Raise ZeroDivisionError else Ok (a / b)%Q.

End Py.

Export Py.

(** ** Python values and the JSON decoder *)

(** The objects that flow through the analysis pipeline are the ones
    [json.loads] builds: [None], booleans, numbers, strings, lists and
    dictionaries keyed by strings. *)
Inductive value : Type :=
| VNone
| VBool (b : bool)
| VNum (q : Q)
| VStr (s : string)
| VList (l : list value)
| VDict (d : gmap string value).

Module Value.

(** [len(v)] *)
Definition py_len (v : value) : result Z :=
match v with
| VStr s => Ok (len s)
| VList l => Ok (Z.of_nat (length l))
| VDict d => Ok (Z.of_nat (size d))
| _ => Raise TypeError
end.

(** [v] as an operand of [/] or [*]: [bool] is a subclass of [int]. *)
Definition number (v : value) : result Q :=
match v with
| VNum q => Ok q
| VBool b => Ok (if b then 1 else 0)%Q
| _ => Raise TypeError
end.

(** [min(bound, v)]: [v] when [v < bound], else [bound]. *)
Definition py_min (bound : Z) (v : value) : result value :=
x ← number v;
Ok (if Qle_bool (inject_Z bound) x then VNum (inject_Z bound) else v).

(** [v.get(key, default)] *)
Definition get (v : value) (key : string) (dflt : value) : result value :=
match v with
| VDict d => Ok (default dflt (d !! key))
| _ => Raise AttributeError
end.

(** [v[key]] for a string key *)
Definition getitem (v : value) (key : string) : result value :=
match v with
| VDict d =>
    match d !! key with
    | Some x => Ok x
    | None => Raise (KeyError key)
    end
| _ => Raise TypeError
end.

(** [v[key] = x] for a string key *)
Definition setitem (v : value) (key : string) (x : value) : result value :=
match v with
| VDict d => Ok (VDict (<[key := x]> d))
| _ => Raise TypeError
end.

(** [bool(v)] *)
Definition truthy (v : value) : bool :=
match v with
| VNone => false
| VBool b => b
| VNum q => negb (Qeq_bool q 0)
| VStr s => negb (String.eqb s EmptyString)
| VList l => negb (Nat.eqb (length l) 0)
| VDict d => negb (Nat.eqb (size d) 0)
end.

End Value.

(** A decoder for JSON text, used wherever the development needs a concrete
    [json.loads].  It follows the grammar of Python's [json] module in strict
    mode, with numbers read as exact rationals; the literals [NaN] and
    [Infinity] and code points from 256 on are rejected. *)
Module Json.

Definition quote : ascii := "034"%char.

Definition is_ws (c : ascii) : bool :=
Ascii.eqb c " " || Ascii.eqb c "009" || Ascii.eqb c "010" || Ascii.eqb c "013".

Fixpoint skip_ws (s : string) : string :=
match s with
| String c r => if is_ws c then skip_ws r else s
| EmptyString => EmptyString
end.

Definition digit (c : ascii) : option Z :=
let n := Z.of_N (N_of_ascii c) in
if ((48 <=? n) && (n <=? 57))%Z then Some (n - 48)%Z else None.

Definition hexdigit (c : ascii) : option Z :=
let n := Z.of_N (N_of_ascii c) in
if ((48 <=? n) && (n <=? 57))%Z then Some (n - 48)%Z
else if ((65 <=? n) && (n <=? 70))%Z then Some (n - 55)%Z
else if ((97 <=? n) && (n <=? 102))%Z then Some (n - 87)%Z
else None.

(** A maximal run of decimal digits: its value after [acc], the number of
  digits read, and the rest of the text. *)
Fixpoint digits (s : string) (acc : Z) (k : nat) : Z * nat * string :=
match s with
| String c r =>
    match digit c with
    | Some d => digits r (10 * acc + d)%Z (S k)
    | None => (acc, k, s)
    end
| EmptyString => (acc, k, s)
end.

Definition parse_int (s : string) : option (Z * string) :=
match s with
| String "0" r => Some (0%Z, r)
| _ =>
    match digits s 0 0 with
    | (_, O, _) => None
    | (n, _, r) => Some (n, r)
    end
end.

Definition parse_frac (s : string) : Z * nat * string :=
match s with
| String "." r =>
    match digits r 0 0 with
    | (_, O, _) => (0%Z, O, s)
    | res => res
    end
| _ => (0%Z, O, s)
end.

Definition parse_exp (s : string) : Z * string :=
match s with
| String c r =>
    if Ascii.eqb c "e" || Ascii.eqb c "E" then
      let '(sign, r1) :=
        match r with
        | String "-" r' => ((-1)%Z, r')
        | String "+" r' => (1%Z, r')
        | _ => (1%Z, r)
        end in
      match digits r1 0 0 with
      | (_, O, _) => (0%Z, s)
      | (e, _, r2) => ((sign * e)%Z, r2)
      end
    else (0%Z, s)
| EmptyString => (0%Z, s)
end.

Definition parse_number (s : string) : option (Q * string) :=
let '(sign, s1) :=
  match s with
  | String "-" r => ((-1)%Z, r)
  | _ => (1%Z, s)
  end in
match parse_int s1 with
| None => None
| Some (n, s2) =>
    let '(f, k, s3) := parse_frac s2 in
    let '(e, s4) := parse_exp s3 in
    let scale := (10 ^ Z.of_nat k)%Z in
    let mantissa := (inject_Z (sign * (n * scale + f)) / inject_Z scale)%Q in
    Some (Qred (mantissa * Qpower 10 e), s4)
end.

Definition unescape (c : ascii) : option ascii :=
if Ascii.eqb c quote then Some quote
else if Ascii.eqb c "\" then Some "\"%char
else if Ascii.eqb c "/" then Some "/"%char
else if Ascii.eqb c "b" then Some "008"%char
else if Ascii.eqb c "f" then Some "012"%char
else if Ascii.eqb c "n" then Some "010"%char
else if Ascii.eqb c "r" then Some "013"%char
else if Ascii.eqb c "t" then Some "009"%char
else None.

Definition hex4 (a b c d : ascii) : option ascii :=
match hexdigit a, hexdigit b, hexdigit c, hexdigit d with
| Some x, Some y, Some z, Some w =>
    let n := (((x * 16 + y) * 16 + z) * 16 + w)%Z in
    if (n <? 256)%Z then Some (ascii_of_N (Z.to_N n)) else None
| _, _, _, _ => None
end.

(** The text after an opening quote, up to the closing one. *)
Fixpoint parse_string (s : string) : option (string * string) :=
match s with
| EmptyString => None
| String c r =>
    if Ascii.eqb c quote then Some (EmptyString, r)
    else if Ascii.eqb c "\" then
      match r with
      | String "u" (String h1 (String h2 (String h3 (String h4 r')))) =>
          match hex4 h1 h2 h3 h4, parse_string r' with
          | Some ch, Some (t, rest) => Some (String ch t, rest)
          | _, _ => None
          end
      | String e r' =>
          match unescape e, parse_string r' with
          | Some ch, Some (t, rest) => Some (String ch t, rest)
          | _, _ => None
          end
      | EmptyString => None
      end
    else if (N_of_ascii c <? 32)%N then None
    else
      match parse_string r with
      | Some (t, rest) => Some (String c t, rest)
      | None => None
      end
end.

Section Containers.
Variable parse_value : string -> option (value * string).

(** The elements of an array, from its first element to the closing
  bracket. *)
Fixpoint parse_elements (n : nat) (s : string) : option (list value * string) :=
match n with
| O => None
| S n' =>
    match parse_value s with
    | None => None
    | Some (v, r) =>
        match skip_ws r with
        | String "," r' =>
            match parse_elements n' (skip_ws r') with
            | Some (vs, rest) => Some (v :: vs, rest)
            | None => None
            end
        | String "]" r' => Some ([v], r')
        | _ => None
        end
    end
end.

(** The members of an object, from the quote of its first key to the
  closing brace; a repeated key keeps its last value. *)
Fixpoint parse_members (n : nat) (s : string) (acc : gmap string value)
: option (gmap string value * string) :=
match n with
| O => None
| S n' =>
    match s with
    | String c r =>
        if Ascii.eqb c quote then
          match parse_string r with
          | None => None
          | Some (key, r1) =>
              match skip_ws r1 with
              | String ":" r2 =>
                  match parse_value (skip_ws r2) with
                  | None => None
                  | Some (v, r3) =>
                      let acc' := <[key := v]> acc in
                      match skip_ws r3 with
                      | String "," r4 => parse_members n' (skip_ws r4) acc'
                      | String "}" r4 => Some (acc', r4)
                      | _ => None
                      end
                  end
              | _ => None
              end
          end
        else None
    | EmptyString => None
    end
end.
End Containers.

Fixpoint parse_value (fuel : nat) (s : string) : option (value * string) :=
match fuel with
| O => None
| S fuel' =>
    match s with
    | String "n" (String "u" (String "l" (String "l" r))) => Some (VNone, r)
    | String "t" (String "r" (String "u" (String "e" r))) => Some (VBool true, r)
    | String "f" (String "a" (String "l" (String "s" (String "e" r)))) =>
        Some (VBool false, r)
    | String "[" r =>
        match skip_ws r with
        | String "]" r' => Some (VList [], r')
        | r' =>
            match parse_elements (parse_value fuel') (String.length r') r' with
            | Some (vs, rest) => Some (VList vs, rest)
            | None => None
            end
        end
    | String "{" r =>
        match skip_ws r with
        | String "}" r' => Some (VDict ∅, r')
        | r' =>
            match parse_members (parse_value fuel') (String.length r') r' ∅ with
            | Some (d, rest) => Some (VDict d, rest)
            | None => None
            end
        end
    | String c r =>
        if Ascii.eqb c quote then
          match parse_string r with
          | Some (t, rest) => Some (VStr t, rest)
          | None => None
          end
        else
          match parse_number s with
          | Some (q, rest) => Some (VNum q, rest)
          | None => None
          end
    | EmptyString => None
    end
end.

(** [json.loads(s)] *)
Definition loads (s : string) : result value :=
match parse_value (S (String.length s)) (skip_ws s) with
| Some (v, rest) =>
    match skip_ws rest with
    | EmptyString => Ok v
    | String _ _ => Raise JSONDecodeError
    end
| None => Raise JSONDecodeError
end.

(** Writing JSON text in examples: a quoted string. *)
Definition q (s : string) : string := String quote s ++ String quote EmptyString.

End Json.

(** ** The pydantic models *)

(** Each model is a record in a module of its name, so that fields keep the
    names they have in the source. *)

Module StoryRequest.
Record t : Type := mk { text : string; industry : string; style : string }.
End StoryRequest.

Module SceneElement.
Record t : Type := mk {
  type : string;
  name : string;
  description : string;
  position : gmap string Q;
  scale : gmap string Q }.
End SceneElement.

Module StoryAnalysis.
Record t : Type := mk {
  characters : list string;
  setting : string;
  objects : list string;
  mood : string;
  actions : list string;
  complexity_score : Q;
  estimated_render_cost : Q }.

(** Validation of one keyword argument against its annotation, as pydantic 2
    does it: [str] takes strings, [List[str]] lists of strings, [float]
    numbers (a [bool] is an [int]).  The conversion of text that spells a
    number is left out: the two [float] fields are written by the analyzer
    or by the canned analysis, as numbers. *)
Definition field (d : gmap string value) (key : string) : result value :=
  match d !! key with
  | Some v => Ok v
  | None => Raise ValidationError
  end.

Definition as_str (v : value) : result string :=
  match v with
  | VStr s => Ok s
  | _ => Raise ValidationError
  end.

Definition as_str_list (v : value) : result (list string) :=
  match v with
  | VList l => mapM as_str l
  | _ => Raise ValidationError
  end.

Definition as_float (v : value) : result Q :=
  match v with
  | VNum x => Ok x
  | VBool b => Ok (if b then 1 else 0)%Q
  | _ => Raise ValidationError
  end.

(** The constructor called with the entries of [data] as keyword
    arguments; keys that are not fields are ignored. *)
Definition new (data : value) : result t :=
  match data with
  | VDict d =>
      characters ← field d "characters" ≫= as_str_list;
      setting ← field d "setting" ≫= as_str;
      objects ← field d "objects" ≫= as_str_list;
      mood ← field d "mood" ≫= as_str;
      actions ← field d "actions" ≫= as_str_list;
      complexity_score ← field d "complexity_score" ≫= as_float;
      estimated_render_cost ← field d "estimated_render_cost" ≫= as_float;
      Ok (mk characters setting objects mood actions
            complexity_score estimated_render_cost)
  | _ => Raise TypeError
  end.

(** [a.dict()] *)
Definition dict (a : t) : value :=
  VDict (<["characters" := VList (VStr <$> characters a)]>
        (<["setting" := VStr (setting a)]>
        (<["objects" := VList (VStr <$> objects a)]>
        (<["mood" := VStr (mood a)]>
        (<["actions" := VList (VStr <$> actions a)]>
        (<["complexity_score" := VNum (complexity_score a)]>
        (<["estimated_render_cost" := VNum (estimated_render_cost a)]> ∅))))))).
End StoryAnalysis.

Module SceneComposition.
Record t : Type := mk {
  scene_id : string;
  elements : list SceneElement.t;
  camera_angles : list (gmap string value);
  lighting : gmap string value }.
End SceneComposition.

Module ThreeDGenerationRequest.
Record t : Type := mk {
  analysis : StoryAnalysis.t;
  style : string;
  quality : string }.
End ThreeDGenerationRequest.

Module ThreeDGenerationResponse.
Record t : Type := mk {
  success : bool;
  scene_id : string;
  model_urls : list string;
  preview_image : string;
  interactive_viewer : string;
  format : string;
  poly_count : Z;
  generation_time : Q;
  estimated_cost : Q }.
End ThreeDGenerationResponse.

Module BusinessMetrics.
Record t : Type := mk {
  total_scenes_generated : Z;
  api_usage : gmap string Z;
  cost_savings : gmap string Q }.
End BusinessMetrics.

Module AnalysisResponse.
Record t : Type := mk {
  success : bool;
  analysis : StoryAnalysis.t;
  engine : string;
  industry : string;
  cost_savings : Q }.
End AnalysisResponse.

(** What [requests.post] hands back: the status line and the outcome of
    [response.json()]. *)
Module Response.
Record t : Type := mk { status_code : Z; json : result value }.
End Response.

(** ** [class AdvancedStoryAnalyzer] *)

Module AdvancedStoryAnalyzer.

Definition base_costs : gmap string Z :=
  {[ "gaming" := 5000%Z; "education" := 3000%Z;
     "architecture" := 8000%Z; "ecommerce" := 2000%Z ]}.

Definition _calculate_cost_estimate (analysis : value) (industry : string)
  : result Q :=
  complexity ← Value.get analysis "complexity_score" (VNum 5);
  character_count ← Value.get analysis "characters" (VList []) ≫= Value.py_len;
  object_count ← Value.get analysis "objects" (VList []) ≫= Value.py_len;
  let base_cost := default 3000%Z (base_costs !! industry) in
  c ← Value.number complexity;
  let adjusted_cost :=
    (inject_Z base_cost * (c / 5)
     * (1 + inject_Z (character_count + object_count) * 0.1))%Q in
  let our_cost := (adjusted_cost * 0.2)%Q in
  Ok (round2 our_cost).

(** [l.extend(more)] on the list stored under a key. *)
Definition extend (more : list value) (v : value) : value :=
  match v with
  | VList l => VList (l ++ more)%list
  | _ => v
  end.

Definition get_fallback_analysis (story_text industry : string) : value :=
  let analysis : gmap string value :=
    {[ "characters" := VList [VStr "knight"; VStr "dragon"];
       "setting" := VStr "ancient castle courtyard";
       "objects" := VList [VStr "sword"; VStr "treasure chest"; VStr "magic crystal"];
       "mood" := VStr "epic and dramatic";
       "actions" := VList [VStr "confronting"; VStr "guarding"; VStr "observing"];
       "complexity_score" := VNum 7.5;
       "estimated_render_cost" := VNum 1500.0 ]} in
  if String.eqb industry "education" then
    let analysis :=
      alter (extend [VStr "educational diagram"; VStr "information panel"])
        "objects" analysis in
    VDict (<["mood" := VStr "informative and clear"]> analysis)
  else if String.eqb industry "architecture" then
    let analysis := <["setting" := VStr "modern architectural space"]> analysis in
    VDict (<["objects" :=
               VList [VStr "building model"; VStr "blueprint"; VStr "scale figure"]]>
             analysis)
  else VDict analysis.

Section WithDecoder.
(** [json.loads] *)
Variable json_loads : string -> result value.

Definition _clean_json_response (response_text : string) : result string :=
  let json_str := strip response_text in
  let json_str :=
    if startswith json_str "```json" then slice json_str (Some 7%Z) None
    else json_str in
  let json_str :=
    if endswith json_str "```" then slice json_str None (Some (-3)%Z)
    else json_str in
  match json_loads json_str with
  | Ok _ => Ok json_str
  | Raise e =>
      let start := find json_str "{" in
      let end_ := (rfind json_str "}" + 1)%Z in
      if (0 <=? start)%Z && (start <? end_)%Z
      then Ok (slice json_str (Some start) (Some end_))
      else Raise e
  end.

(** The receiver of [.strip()] has to be a [str]. *)
Definition as_text (v : value) : result string :=
  match v with
  | VStr s => Ok s
  | _ => Raise AttributeError
  end.

(** [post] is the outcome of the [requests.post] call: it raised, or it
    returned a response.  The prompt only reaches the language model.
    The result is a dictionary or [None]. *)
Definition analyze_with_llama (post : result Response.t)
    (story_text industry : string) : value :=
  let attempt : result value :=
    response ← post;
    if (Response.status_code response =? 200)%Z then
      result ← Response.json response;
      raw ← Value.getitem result "response" ≫= as_text;
      json_str ← _clean_json_response raw;
      analysis ← json_loads json_str;
      cost ← _calculate_cost_estimate analysis industry;
      analysis ← Value.setitem analysis "estimated_render_cost" (VNum cost);
      score ← Value.get analysis "complexity_score" (VNum 5);
      capped ← Value.py_min 10 score;
      analysis ← Value.setitem analysis "complexity_score" capped;
      Ok analysis
    else Ok VNone in
  match attempt with
  | Ok analysis => analysis
  | Raise _ => VNone
  end.
End WithDecoder.

End AdvancedStoryAnalyzer.

(** ** [class ThreeDGenerator] *)

Module ThreeDGenerator.

Record t : Type := mk { scene_compositions : gmap string SceneComposition.t }.

Definition __init__ : t := mk ∅.

Definition xyz (x y z : Q) : gmap string Q :=
  {[ "x" := x; "y" := y; "z" := z ]}.

Definition char_positions : list (gmap string Q) :=
  [ xyz 0 0 0; xyz 3 0 2; xyz (-2) 0 1 ].

Definition character_element (i : nat) (character : string) : SceneElement.t :=
  SceneElement.mk "character" character ("Main character: " ++ character)
    (default (xyz 0 0 0) (char_positions !! i))
    (xyz 1 1 1).

Definition prop_element (i : nat) (obj : string) : SceneElement.t :=
  SceneElement.mk "prop" obj ("Interactive object: " ++ obj)
    (xyz (inject_Z (Z.of_nat i) * 1.5 - 3) 0
         (inject_Z (Z.of_nat i mod 2 * 2)))
    (xyz 0.5 0.5 0.5).

Definition vec (x y z : Q) : value := VDict (VNum <$> xyz x y z).

(** [uuid] is the text of the fresh [uuid.uuid4()]. *)
Definition generate_scene_composition (self : t) (uuid : string)
    (analysis : StoryAnalysis.t) : SceneComposition.t * t :=
  let scene_id := slice uuid None (Some 8%Z) in
  let elements :=
    imap character_element (take 3 (StoryAnalysis.characters analysis)) in
  let elements :=
    (elements
     ++ imap prop_element (take 5 (StoryAnalysis.objects analysis)))%list in
  let composition :=
    SceneComposition.mk scene_id elements
      [ {[ "position" := vec 0 (-5) 3; "target" := vec 0 0 0 ]};
        {[ "position" := vec 5 0 2; "target" := vec 0 0 0 ]} ]
      {[ "type" := VStr "three_point";
         "mood" := VStr (StoryAnalysis.mood analysis);
         "intensity" := VNum 1.0 ]} in
  (composition, mk (<[scene_id := composition]> (scene_compositions self))).

(** [elapsed] is the wall-clock time the mock generation took. *)
Definition generate_3d_assets (composition : SceneComposition.t)
    (style quality : string) (elapsed : Q) : ThreeDGenerationResponse.t :=
  let scene_id := SceneComposition.scene_id composition in
  let model_urls :=
    (fun element =>
       "/api/mock-model/" ++ scene_id ++ "/" ++ SceneElement.name element)
      <$> SceneComposition.elements composition in
  let n := Z.of_nat (length model_urls) in
  ThreeDGenerationResponse.mk true scene_id model_urls
    ("/api/mock-preview/" ++ scene_id)
    ("/scene-viewer/" ++ scene_id)
    "GLB"
    (n * 5000)%Z
    (round2 elapsed)
    (0.25 * inject_Z n)%Q.

End ThreeDGenerator.

(** ** [class BusinessTracker] *)

Module BusinessTracker.

Record t : Type := mk {
  scenes_generated : Z;
  api_calls : gmap string Z;
  total_cost_savings : Q }.

Definition __init__ : t :=
  mk 0 {[ "analyze" := 0%Z; "generate_3d" := 0%Z; "scene_view" := 0%Z ]} 0.0.

(** [d[key] += 1] *)
Definition increment (key : string) (d : gmap string Z) : result (gmap string Z) :=
  match d !! key with
  | Some n => Ok (<[key := (n + 1)%Z]> d)
  | None => Raise (KeyError key)
  end.

Definition track_analysis (self : t) (cost_savings : Q) : result t :=
  calls ← increment "analyze" (api_calls self);
  Ok (mk (scenes_generated self) calls (total_cost_savings self + cost_savings)).

Definition track_generation (self : t) : result t :=
  calls ← increment "generate_3d" (api_calls self);
  Ok (mk (scenes_generated self + 1) calls (total_cost_savings self)).


(** The counters [__init__] creates are present. *)
Definition wf (self : t) : Prop :=
  is_Some (api_calls self !! "analyze")
  ∧ is_Some (api_calls self !! "generate_3d").

End BusinessTracker.

(** ** The request handlers *)

Section Handlers.
Variable json_loads : string -> result value.

(** [POST /api/analyze].  The handler returns a response body or raises;
    the tracker is the module-level [tracker] before and after the call. *)
Definition analyze_story (tracker : BusinessTracker.t)
    (post : result Response.t) (request : StoryRequest.t)
  : result AnalysisResponse.t * BusinessTracker.t :=
  let industry := StoryRequest.industry request in
  let story_text := strip (StoryRequest.text request) in
  let attempt : result (AnalysisResponse.t * BusinessTracker.t) :=
    if String.eqb story_text EmptyString then
      Raise (HTTPException 400 "No story text provided")
    else
      let analysis_data :=
        AdvancedStoryAnalyzer.analyze_with_llama json_loads post
          story_text industry in
      let '(analysis_data, engine) :=
        if negb (Value.truthy analysis_data) then
          (AdvancedStoryAnalyzer.get_fallback_analysis story_text industry,
           "fallback")
        else (analysis_data, "llama_enhanced") in
      analysis ← StoryAnalysis.new analysis_data;
      tracker' ← BusinessTracker.track_analysis tracker
                   (StoryAnalysis.estimated_render_cost analysis);
      Ok (AnalysisResponse.mk true analysis engine industry
            (StoryAnalysis.estimated_render_cost analysis),
          tracker') in
  match attempt with
  | Ok (response, tracker') => (Ok response, tracker')
  | Raise _ =>
      let fallback_analysis :=
        AdvancedStoryAnalyzer.get_fallback_analysis story_text industry in
      (analysis ← StoryAnalysis.new fallback_analysis;
       Ok (AnalysisResponse.mk false analysis "fallback" industry
             (StoryAnalysis.estimated_render_cost analysis)),
       tracker)
  end.
End Handlers.

(** [str(e)] for the one exception [generate_scene] can see, a [KeyError]:
    the [repr] of the key. *)
Definition str_exn (e : exn) : string :=
  match e with
  | KeyError key => "'" ++ key ++ "'"
  | HTTPException _ detail => detail
  | _ => EmptyString
  end.

(** [POST /api/generate-scene]; [uuid] and [elapsed] as in [ThreeDGenerator]. *)
Definition generate_scene (generator : ThreeDGenerator.t)
    (tracker : BusinessTracker.t) (uuid : string) (elapsed : Q)
    (request : ThreeDGenerationRequest.t)
  : result ThreeDGenerationResponse.t * ThreeDGenerator.t * BusinessTracker.t :=
  let '(composition, generator') :=
    ThreeDGenerator.generate_scene_composition generator uuid
      (ThreeDGenerationRequest.analysis request) in
  let result :=
    ThreeDGenerator.generate_3d_assets composition
      (ThreeDGenerationRequest.style request)
      (ThreeDGenerationRequest.quality request) elapsed in
  match BusinessTracker.track_generation tracker with
  | Ok tracker' => (Ok result, generator', tracker')
  | Raise e => (Raise (HTTPException 500 (str_exn e)), generator', tracker)
  end.

(** ** The specification's wording of the two leaf components

    These definitions follow the specification document, not the source;
    the theorems below compare them with the code. *)

Module Spec.

(** [s] without the leading [p], when it starts with it. *)
Fixpoint strip_prefix (p s : string) : option string :=
  match p, s with
  | EmptyString, _ => Some s
  | String a p', String b s' =>
      if Ascii.eqb a b then strip_prefix p' s' else None
  | String _ _, EmptyString => None
  end.

(** [s] without the trailing [p], when it ends with it. *)
Fixpoint strip_suffix (p s : string) : option string :=
  if String.eqb s p then Some EmptyString
  else
    match s with
    | String c s' => String c <$> strip_suffix p s'
    | EmptyString => None
    end.

(** Removal of the leading fence with its language tag, then of the
    trailing fence, each when present. *)
Definition unfence (s : string) : string :=
  let s := default s (strip_prefix "```json" s) in
  default s (strip_suffix "```" s).

(** The part of [s] from its first [c] on. *)
Fixpoint from_first (c : ascii) (s : string) : option string :=
  match s with
  | EmptyString => None
  | String a s' => if Ascii.eqb a c then Some s else from_first c s'
  end.

(** The part of [s] up to its last [c], inclusive. *)
Fixpoint upto_last (c : ascii) (s : string) : option string :=
  match s with
  | EmptyString => None
  | String a s' =>
      match upto_last c s' with
      | Some r => Some (String a r)
      | None => if Ascii.eqb a c then Some (String a EmptyString) else None
      end
  end.

(** From the first opening brace to the last closing brace. *)
Definition braces (s : string) : option string :=
  from_first "{" s ≫= upto_last "}".

(** ResponseSanitizer: the text that decodes; [None] stands for
    [MalformedModelOutput]. *)
Definition sanitize (json_loads : string -> result value) (raw : string)
  : option string :=
  let s := unfence (strip raw) in
  match json_loads s with
  | Ok _ => Some s
  | Raise _ =>
      b ← braces s;
      match json_loads b with
      | Ok _ => Some b
      | Raise _ => None
      end
  end.

Definition base_cost (industry : string) : Q :=
  if String.eqb industry "gaming" then 5000
  else if String.eqb industry "education" then 3000
  else if String.eqb industry "architecture" then 8000
  else if String.eqb industry "ecommerce" then 2000
  else 3000.

(** CostEstimator, on the three quantities it reads off the analysis. *)
Definition estimate (industry : string) (complexityScore : Q)
    (characterCount objectCount : Z) : Q :=
  round2 (base_cost industry * (complexityScore / 5)
          * (1 + 0.1 * inject_Z (characterCount + objectCount)) * 0.2)%Q.

End Spec.

(** ** The cost estimate in binary64 arithmetic

    The estimator is where the program reports the outcome of float
    arithmetic to the cent.  It is modelled here a second time as CPython
    runs it: a [float] is an IEEE 754 double ([spec_float] with 53 bits of
    precision, with its infinities and NaN), an [int] is an integer of any
    size, and the two are kept apart. *)

Module Double.

Definition float : Type := spec_float.
Definition prec : Z := 53.
Definition emax : Z := 1024.

(** The operations of the processor: the exact result, rounded to the
    nearest double, ties to even. *)
Definition mul : float -> float -> float := SFmul prec emax.
Definition add : float -> float -> float := SFadd prec emax.
Definition div : float -> float -> float := SFdiv prec emax.

(** The double nearest to the integer [n], an infinity beyond the range. *)
Definition of_Z (n : Z) : float := binary_normalize prec emax n 0 false.

(** The integer [n] as it stands, with no rounding. *)
Definition raw (n : Z) : float :=
  match n with
  | Z0 => S754_zero false
  | Zpos m => S754_finite false m 0
  | Zneg m => S754_finite true m 0
  end.

(** The double nearest to [n / d]: what a decimal literal denotes and what
    [strtod] reads from a decimal numeral. *)
Definition ratio (n : Z) (d : positive) : float :=
  SFdiv prec emax (raw n) (raw (Zpos d)).

(** The rational a finite double stands for. *)
Definition to_Q (x : float) : Q :=
  match x with
  | S754_finite s m e =>
      let v :=
        match e with
        | Z0 => inject_Z (Zpos m)
        | Zpos p => inject_Z (Zpos m * 2 ^ Zpos p)
        | Zneg p => Qmake (Zpos m) (2 ^ p)
        end in
      if s then Qopp v else v
  | _ => 0%Q
  end.

(** [round(x, 2)] for a float: NaN and the infinities round to themselves;
    a finite [x] is written out with two decimals, correctly rounded from
    its exact value with ties to even, and the numeral is read back. *)
Definition round2 (x : float) : float :=
  match x with
  | S754_finite s _ _ =>
      match round_half_even (to_Q x * 100) with
      | Z0 => S754_zero s
      | n => ratio n 100
      end
  | _ => x
  end.

(** The objects [json.loads] builds. *)
Inductive value : Type :=
| PyNone
| PyBool (b : bool)
| PyInt (n : Z)
| PyFloat (x : float)
| PyStr (s : string)
| PyList (l : list value)
| PyDict (d : gmap string value).

(** [v.get(key, default)] *)
Definition get (v : value) (key : string) (dflt : value) : result value :=
  match v with
  | PyDict d => Ok (default dflt (d !! key))
  | _ => Raise AttributeError
  end.

(** [len(v)] *)
Definition py_len (v : value) : result Z :=
  match v with
  | PyStr s => Ok (len s)
  | PyList l => Ok (Z.of_nat (length l))
  | PyDict d => Ok (Z.of_nat (size d))
  | _ => Raise TypeError
  end.

(** [float(n)] for the [int] operand of a mixed operation. *)
Definition of_int (n : Z) : result float :=
  if (Z.abs n <? 2 ^ 1024 - 2 ^ 970)%Z then Ok (of_Z n)
  else Raise OverflowError.

(** [a / b] for two [int]s: the quotient of the two doubles when both are
    below [2 ** 53], else the correctly rounded quotient of the integers. *)
Definition int_truediv (a b : Z) : result float :=
  if (b =? 0)%Z then Raise ZeroDivisionError
  else if ((Z.abs a <? 2 ^ 53) && (Z.abs b <? 2 ^ 53))%Z then
    Ok (div (of_Z a) (of_Z b))
  else
    match SFdiv prec emax (raw a) (raw b) with
    | S754_infinity _ => Raise OverflowError
    | x => Ok x
    end.

(** [a / b] where [b] is an [int]; [bool] is a subclass of [int]. *)
Definition truediv (a : value) (b : Z) : result float :=
  match a with
  | PyInt n => int_truediv n b
  | PyBool c => int_truediv (Z.b2z c) b
  | PyFloat x =>
      y ← of_int b;
      if (b =? 0)%Z then Raise ZeroDivisionError else Ok (div x y)
  | _ => Raise TypeError
  end.

(** [n * x] and [n + x] for an [int] [n] and a [float] [x]. *)
Definition int_mul (n : Z) (x : float) : result float :=
  y ← of_int n; Ok (mul y x).

Definition int_add (n : Z) (x : float) : result float :=
  y ← of_int n; Ok (add y x).

Definition _calculate_cost_estimate (analysis : value) (industry : string)
  : result float :=
  complexity ← get analysis "complexity_score" (PyInt 5);
  character_count ← get analysis "characters" (PyList []) ≫= py_len;
  object_count ← get analysis "objects" (PyList []) ≫= py_len;
  let base_cost :=
    default 3000%Z (AdvancedStoryAnalyzer.base_costs !! industry) in
  fifth ← truediv complexity 5;
  scaled ← int_mul base_cost fifth;
  tenths ← int_mul (character_count + object_count) (ratio 1 10);
  factor ← int_add 1 tenths;
  let adjusted_cost := mul scaled factor in
  let our_cost := mul adjusted_cost (ratio 2 10) in
  Ok (round2 our_cost).

End Double.

(** The specification's CostEstimator, read in the arithmetic of doubles. *)
Module SpecDouble.
Import Double.

Definition base_cost (industry : string) : Z :=
  if String.eqb industry "gaming" then 5000
  else if String.eqb industry "education" then 3000
  else if String.eqb industry "architecture" then 8000
  else if String.eqb industry "ecommerce" then 2000
  else 3000.

(** The base cost, multiplied by [complexityScore / 5], by
    [1 + 0.1 * (characterCount + objectCount)] and by [0.2]. *)
Definition formula (industry : string) (complexityScore : float)
    (characterCount objectCount : Z) : float :=
  let cost := of_Z (base_cost industry) in
  let cost := mul cost (div complexityScore (of_Z 5)) in
  let cost :=
    mul cost
      (add (of_Z 1) (mul (ratio 1 10) (of_Z (characterCount + objectCount)))) in
  mul cost (ratio 2 10).

(** Sign, mantissa and exponent as a rational. *)
Definition magnitude (s : bool) (m : positive) (e : Z) : Q :=
  ((if s then -1 else 1) * inject_Z (Zpos m) * 2 ^ e)%Q.

(** [n] is the integer nearest to [q], the even one of two. *)
Definition nearest (q : Q) (n : Z) : Prop :=
  (Qabs (q - inject_Z n) <= 1 # 2)%Q
  /\ ((Qabs (q - inject_Z n) == 1 # 2)%Q -> Z.even n = true).

(** [r] is [x] rounded to 2 decimal places: the double that stands for the
    number of hundredths nearest to [x]. *)
Definition rounded (x r : float) : Prop :=
  match x with
  | S754_finite s m e =>
      exists n : Z,
        nearest (magnitude s m e * 100) n
        /\ r = match n with
               | Z0 => S754_zero s
               | _ => ratio n 100
               end
  | _ => r = x
  end.

End SpecDouble.

(** ** Concrete exchanges

    Requests, replies of the language model and analyses on which the
    statements below are run. *)

Module Example.
Import Json.

Definition request (text industry : string) : StoryRequest.t :=
  StoryRequest.mk text industry "fantasy".

(** A status-200 reply whose completion is [raw]. *)
Definition reply (raw : string) : result Response.t :=
  Ok (Response.mk 200 (Ok (VDict {[ "response" := VStr raw ]}))).

(** The language model cannot be reached. *)
Definition unreachable : result Response.t := Raise RequestException.

(** A completion with every field of the analysis, the complexity score
    being the number written [score], and a cost of its own. *)
Definition completion (score : string) : string :=
  "{" ++ q "characters" ++ ": [" ++ q "knight" ++ ", " ++ q "dragon" ++ "], "
  ++ q "setting" ++ ": " ++ q "castle" ++ ", "
  ++ q "objects" ++ ": [" ++ q "sword" ++ "], "
  ++ q "mood" ++ ": " ++ q "tense" ++ ", "
  ++ q "actions" ++ ": [" ++ q "fight" ++ "], "
  ++ q "complexity_score" ++ ": " ++ score ++ ", "
  ++ q "estimated_render_cost" ++ ": 99999}".

(** A completion that decodes but lacks most fields. *)
Definition partial_completion : string :=
  "{" ++ q "characters" ++ ": [" ++ q "knight" ++ "]}".

Definition story (characters objects : list string) (score : Q)
  : StoryAnalysis.t :=
  StoryAnalysis.mk characters "castle" objects "tense" ["fight"] score 0.

Definition crowd : list string := ["a"; "b"; "c"; "d"; "e"].
Definition hoard : list string := ["p"; "q"; "r"; "s"; "t"; "u"; "v"].
End Example.

(** ** The paths through [analyze_story] *)

Section Paths.
Variable json_loads : string -> result value.

(** The language model answered with status 200 and a completion that
    cleans and decodes to the dictionary [m]. *)
Inductive model_reply (post : result Response.t) (m : gmap string value)
  : Prop :=
| ModelReply (response : Response.t) (body : value) (raw json_str : string) :
    post = Ok response ->
    Response.status_code response = 200%Z ->
    Response.json response = Ok body ->
    Value.getitem body "response" = Ok (VStr raw) ->
    AdvancedStoryAnalyzer._clean_json_response json_loads raw = Ok json_str ->
    json_loads json_str = Ok (VDict m) ->
    model_reply post m.

(** What a call of the handler comes to: the analyzer's dictionary is
    used, or the canned analysis replaces an absent one, or the [except]
    clause answers. *)
Inductive analyze_outcome (tracker : BusinessTracker.t)
    (post : result Response.t) (request : StoryRequest.t)
  : result AnalysisResponse.t * BusinessTracker.t -> Prop :=
| ModelPath (data : value) (a : StoryAnalysis.t) (tracker' : BusinessTracker.t) :
    strip (StoryRequest.text request) <> EmptyString ->
    AdvancedStoryAnalyzer.analyze_with_llama json_loads post
      (strip (StoryRequest.text request)) (StoryRequest.industry request)
    = data ->
    Value.truthy data = true ->
    StoryAnalysis.new data = Ok a ->
    BusinessTracker.track_analysis tracker
      (StoryAnalysis.estimated_render_cost a) = Ok tracker' ->
    analyze_outcome tracker post request
      (Ok (AnalysisResponse.mk true a "llama_enhanced"
             (StoryRequest.industry request)
             (StoryAnalysis.estimated_render_cost a)), tracker')
| FallbackPath (a : StoryAnalysis.t) (tracker' : BusinessTracker.t) :
    strip (StoryRequest.text request) <> EmptyString ->
    Value.truthy
      (AdvancedStoryAnalyzer.analyze_with_llama json_loads post
         (strip (StoryRequest.text request)) (StoryRequest.industry request))
    = false ->
    StoryAnalysis.new
      (AdvancedStoryAnalyzer.get_fallback_analysis
         (strip (StoryRequest.text request)) (StoryRequest.industry request))
    = Ok a ->
    BusinessTracker.track_analysis tracker
      (StoryAnalysis.estimated_render_cost a) = Ok tracker' ->
    analyze_outcome tracker post request
      (Ok (AnalysisResponse.mk true a "fallback"
             (StoryRequest.industry request)
             (StoryAnalysis.estimated_render_cost a)), tracker')
| ErrorPath (a : StoryAnalysis.t) :
    (strip (StoryRequest.text request) = EmptyString
     \/ (exists e,
           StoryAnalysis.new
             (AdvancedStoryAnalyzer.analyze_with_llama json_loads post
                (strip (StoryRequest.text request))
                (StoryRequest.industry request)) = Raise e
           /\ Value.truthy
                (AdvancedStoryAnalyzer.analyze_with_llama json_loads post
                   (strip (StoryRequest.text request))
                   (StoryRequest.industry request)) = true)
     \/ BusinessTracker.api_calls tracker !! "analyze" = None) ->
    StoryAnalysis.new
      (AdvancedStoryAnalyzer.get_fallback_analysis
         (strip (StoryRequest.text request)) (StoryRequest.industry request))
    = Ok a ->
    analyze_outcome tracker post request
      (Ok (AnalysisResponse.mk false a "fallback"
             (StoryRequest.industry request)
             (StoryAnalysis.estimated_render_cost a)), tracker).
End Paths.

(** ** Parts of a text *)

(** [t] is a contiguous part of [s]. *)
Definition part_of (t s : string) : Prop :=
  exists pre post, s = pre ++ t ++ post.

(** ** The scene viewer and the states the handlers reach *)

(** The payload of [GET /scene-viewer/{scene_id}]. *)
Module SceneViewer.
Record t : Type := mk {
  scene_id : string;
  composition : SceneComposition.t;
  viewer_url : string;
  embed_code : string }.
End SceneViewer.

(** [GET /scene-viewer/{scene_id}].  A stored composition is an object, hence
    true, so that only an absent one is answered with 404. *)
Definition get_scene_viewer (generator : ThreeDGenerator.t) (scene_id : string)
  : result SceneViewer.t :=
  match ThreeDGenerator.scene_compositions generator !! scene_id with
  | None => Raise (HTTPException 404 "Scene not found")
  | Some composition =>
      Ok (SceneViewer.mk scene_id composition
            ("/api/scene-viewer/" ++ scene_id)
            ("<iframe src="
             ++ Json.q ("http://localhost:5000/api/scene-viewer/" ++ scene_id)
             ++ " width=" ++ Json.q "800" ++ " height=" ++ Json.q "600"
             ++ "></iframe>"))
  end.

(** ** The suspension point of [generate_scene]

    [generate_scene] is a coroutine.  It runs without interruption up to
    [await asyncio.sleep(2)] in [generate_3d_assets], by which time the
    composition is stored; there the event loop serves other requests; when
    it resumes, the answer is built and the tracker is notified.
    [analyze_story] never awaits and runs as one step. *)

Definition generate_scene_before (generator : ThreeDGenerator.t)
    (uuid : string) (request : ThreeDGenerationRequest.t)
  : SceneComposition.t * ThreeDGenerator.t :=
  ThreeDGenerator.generate_scene_composition generator uuid
    (ThreeDGenerationRequest.analysis request).

Definition generate_scene_after (tracker : BusinessTracker.t)
    (composition : SceneComposition.t) (elapsed : Q)
    (request : ThreeDGenerationRequest.t)
  : result ThreeDGenerationResponse.t * BusinessTracker.t :=
  let result :=
    ThreeDGenerator.generate_3d_assets composition
      (ThreeDGenerationRequest.style request)
      (ThreeDGenerationRequest.quality request) elapsed in
  match BusinessTracker.track_generation tracker with
  | Ok tracker' => (Ok result, tracker')
  | Raise e => (Raise (HTTPException 500 (str_exn e)), tracker)
  end.

(** The module-level objects, and the calls of [generate_scene] that are
    suspended in their sleep, each with its composition and its request. *)
Module Server.
Record t : Type := mk {
  generator : ThreeDGenerator.t;
  tracker : BusinessTracker.t;
  suspended : list (SceneComposition.t * ThreeDGenerationRequest.t) }.

Definition start : t :=
  mk ThreeDGenerator.__init__ BusinessTracker.__init__ [].
End Server.

Section Reachable.
Variable json_loads : string -> result value.

(** What the event loop does between two suspensions: it serves an analysis
    request, or runs a generation request up to its sleep, or resumes one of
    the suspended generation requests, whichever it is.  The handlers that
    only read leave the state as it is. *)
Inductive step : Server.t -> Server.t -> Prop :=
| StepAnalyze generator tracker suspended post request :
    step (Server.mk generator tracker suspended)
      (Server.mk generator
         (analyze_story json_loads tracker post request).2 suspended)
| StepSuspend generator tracker suspended uuid request :
    step (Server.mk generator tracker suspended)
      (Server.mk (generate_scene_before generator uuid request).2 tracker
         (((generate_scene_before generator uuid request).1, request)
          :: suspended))
| StepResume generator tracker earlier later composition request elapsed :
    step
      (Server.mk generator tracker
         (earlier ++ (composition, request) :: later)%list)
      (Server.mk generator
         (generate_scene_after tracker composition elapsed request).2
         (earlier ++ later)%list).

(** The states the server reaches from the objects the module creates. *)
Inductive reachable : Server.t -> Prop :=
| ReachStart : reachable Server.start
| ReachStep (state state' : Server.t) :
    reachable state -> step state state' -> reachable state'.
End Reachable.

(** * Properties *)

(** ** Rounding *)

Section Rounding.
#[local] Open Scope Q_scope.

Lemma round_half_even_compat (x y : Q) :
  x == y -> round_half_even x = round_half_even y.
Proof.
  intros E. unfold round_half_even.
  rewrite (Qfloor_comp _ _ E).
  assert (C : (x - inject_Z (Qfloor y) ?= 1 # 2)
              = (y - inject_Z (Qfloor y) ?= 1 # 2)).
  { apply Qcompare_comp; [ rewrite E | ]; reflexivity. }
  rewrite C. reflexivity.
Qed.

Lemma round_half_even_mono (x y : Q) :
  x <= y -> (round_half_even x <= round_half_even y)%Z.
Proof.
  intros L. unfold round_half_even.
  pose proof (Qfloor_resp_le _ _ L) as F.
  pose proof (Qfloor_le x) as Lx. pose proof (Qlt_floor y) as Uy.
  destruct (Z_lt_le_dec (Qfloor x) (Qfloor y)) as [S | S].
  - destruct (Qcompare_spec (x - inject_Z (Qfloor x)) (1 # 2));
      destruct (Qcompare_spec (y - inject_Z (Qfloor y)) (1 # 2));
      repeat match goal with |- context [Z.even ?f] => destruct (Z.even f) end;
      lia.
  - assert (E : Qfloor x = Qfloor y) by lia.
    rewrite E in *. clear E F S.
    destruct (Qcompare_spec (x - inject_Z (Qfloor y)) (1 # 2));
      destruct (Qcompare_spec (y - inject_Z (Qfloor y)) (1 # 2));
      repeat match goal with |- context [Z.even ?f] => destruct (Z.even f) end;
      solve [ lia | exfalso; lra ].
Qed.

Lemma round2_compat (x y : Q) : x == y -> round2 x = round2 y.
Proof.
  intros E. unfold round2. f_equal.
  apply round_half_even_compat. rewrite E. reflexivity.
Qed.

Lemma round2_mono (x y : Q) : x <= y -> round2 x <= round2 y.
Proof.
  intros L. unfold round2, Qle. simpl.
  apply Z.mul_le_mono_nonneg_r; [ lia | ].
  apply round_half_even_mono.
  apply Qmult_le_compat_r; [ exact L | discriminate ].
Qed.
End Rounding.

(** ** Strings: slicing and searching *)

Section Strings.
#[local] Open Scope Z_scope.

Lemma len_cons (a : ascii) (s : string) : len (String a s) = len s + 1.
Proof. unfold len. simpl. lia. Qed.

Lemma len_nonneg (s : string) : 0 <= len s.
Proof. unfold len. lia. Qed.

Lemma substring_all (s : string) : substring 0 (String.length s) s = s.
Proof. induction s as [ | a s IH]; simpl; [ | rewrite IH ]; reflexivity. Qed.

Lemma substring_none (s : string) : substring 0 0 s = EmptyString.
Proof. destruct s; reflexivity. Qed.

(** A slice of [String a s] that starts after [a] is a slice of [s]. *)
Lemma slice_tail (a : ascii) (s : string) (lo hi : Z) :
  0 <= lo -> 0 <= hi ->
  slice (String a s) (Some (lo + 1)) (Some (hi + 1)) = slice s (Some lo) (Some hi).
Proof.
  intros Hlo Hhi. unfold slice, slice_bound. rewrite len_cons.
  pose proof (len_nonneg s) as Hn.
  destruct (lo + 1 <? 0) eqn:E1; [ lia | ].
  destruct (hi + 1 <? 0) eqn:E2; [ lia | ].
  destruct (lo <? 0) eqn:E3; [ lia | ].
  destruct (hi <? 0) eqn:E4; [ lia | ].
  replace (Z.to_nat (Z.max 0 (Z.min (len s + 1) (lo + 1))))
    with (S (Z.to_nat (Z.max 0 (Z.min (len s) lo)))) by lia.
  replace (Z.max 0 (Z.min (len s + 1) (hi + 1))
           - Z.max 0 (Z.min (len s + 1) (lo + 1)))
    with (Z.max 0 (Z.min (len s) hi) - Z.max 0 (Z.min (len s) lo)) by lia.
  reflexivity.
Qed.

Lemma slice_tail_open (a : ascii) (s : string) (lo : Z) :
  0 <= lo ->
  slice (String a s) (Some (lo + 1)) None = slice s (Some lo) None.
Proof.
  intros Hlo. unfold slice, slice_bound. rewrite len_cons.
  pose proof (len_nonneg s) as Hn.
  destruct (lo + 1 <? 0) eqn:E1; [ lia | ].
  destruct (lo <? 0) eqn:E3; [ lia | ].
  replace (Z.to_nat (Z.max 0 (Z.min (len s + 1) (lo + 1))))
    with (S (Z.to_nat (Z.max 0 (Z.min (len s) lo)))) by lia.
  replace (len s + 1 - Z.max 0 (Z.min (len s + 1) (lo + 1)))
    with (len s - Z.max 0 (Z.min (len s) lo)) by lia.
  reflexivity.
Qed.

(** A slice of [String a s] from index [0] keeps [a]. *)
Lemma slice_head (a : ascii) (s : string) (hi : Z) :
  0 <= hi ->
  slice (String a s) (Some 0) (Some (hi + 1))
  = String a (slice s (Some 0) (Some hi)).
Proof.
  intros Hhi. unfold slice, slice_bound. rewrite len_cons.
  pose proof (len_nonneg s) as Hn.
  destruct (hi + 1 <? 0) eqn:E2; [ lia | ].
  destruct (hi <? 0) eqn:E4; [ lia | ].
  change (0 <? 0) with false. cbv iota.
  replace (Z.to_nat (Z.max 0 (Z.min (len s + 1) 0))) with O by lia.
  replace (Z.to_nat (Z.max 0 (Z.min (len s) 0))) with O by lia.
  replace (Z.to_nat (Z.max 0 (Z.min (len s + 1) (hi + 1))
                     - Z.max 0 (Z.min (len s + 1) 0)))
    with (S (Z.to_nat (Z.max 0 (Z.min (len s) hi)
                       - Z.max 0 (Z.min (len s) 0)))) by lia.
  reflexivity.
Qed.

Lemma slice_empty (s : string) : slice s (Some 0) (Some 0) = EmptyString.
Proof.
  unfold slice, slice_bound. pose proof (len_nonneg s).
  destruct (0 <? 0) eqn:E; [ lia | ].
  rewrite Z.sub_diag.
  replace (Z.to_nat (Z.max 0 (Z.min (len s) 0))) with O by lia.
  apply substring_none.
Qed.

Lemma slice_full (s : string) : slice s (Some 0) None = s.
Proof.
  unfold slice, slice_bound. change (0 <? 0) with false. cbv iota.
  pose proof (len_nonneg s).
  replace (Z.to_nat (Z.max 0 (Z.min (len s) 0))) with O by lia.
  replace (Z.to_nat (len s - Z.max 0 (Z.min (len s) 0)))
    with (String.length s) by (unfold len in *; lia).
  apply substring_all.
Qed.

(** [s[len(p):]] is what follows the prefix [p]. *)
Lemma strip_prefix_startswith (p s : string) :
  Spec.strip_prefix p s
  = if startswith s p then Some (slice s (Some (len p)) None) else None.
Proof.
  revert s. induction p as [ | a p IH]; intros s.
  - destruct s; simpl; [ reflexivity | ].
    change (len EmptyString) with 0. rewrite slice_full. reflexivity.
  - destruct s as [ | b s]; simpl; [ reflexivity | ].
    destruct (Ascii.eqb a b); simpl; [ | reflexivity ].
    rewrite IH. destruct (startswith s p); [ | reflexivity ].
    rewrite len_cons, slice_tail_open by apply len_nonneg. reflexivity.
Qed.

Lemma eqb_length (s p : string) :
  String.eqb s p = true -> String.length s = String.length p.
Proof. intros E. apply String.eqb_eq in E. congruence. Qed.

Lemma strip_suffix_length (p s r : string) :
  Spec.strip_suffix p s = Some r ->
  (String.length s = String.length r + String.length p)%nat.
Proof.
  revert r. induction s as [ | c s IH]; intros r; cbn [Spec.strip_suffix].
  - destruct p; simpl; [ | discriminate ].
    intros [= <-]. reflexivity.
  - destruct (String.eqb (String c s) p) eqn:E.
    + intros [= <-]. apply eqb_length in E. simpl in *. lia.
    + destruct (Spec.strip_suffix p s) as [ r' | ]; simpl; [ | discriminate ].
      intros [= <-]. specialize (IH r' eq_refl). simpl. lia.
Qed.

Lemma slice_init (s : string) (m : nat) :
  (0 < m)%nat ->
  slice s None (Some (- Z.of_nat m)) = substring 0 (String.length s - m) s.
Proof.
  intros Hm. unfold slice, slice_bound, len.
  destruct (- Z.of_nat m <? 0) eqn:E; [ | lia ].
  f_equal; lia.
Qed.

(** [s[:-len(p)]] is what precedes the suffix [p]. *)
Lemma strip_suffix_endswith (p s : string) :
  (0 < String.length p)%nat ->
  Spec.strip_suffix p s
  = if endswith s p then Some (slice s None (Some (- len p))) else None.
Proof.
  intros Hp. unfold len. rewrite slice_init by exact Hp.
  induction s as [ | c s IH].
  - destruct p; simpl in *; [ lia | reflexivity ].
  - unfold endswith in *. cbn [Spec.strip_suffix String.length].
    destruct (le_lt_dec (String.length p) (String.length s)) as [L | L].
    + (* the suffix lies within [s] *)
      destruct (String.eqb (String c s) p) eqn:E.
      { apply eqb_length in E. simpl in E. lia. }
      clear E. rewrite IH.
      replace (S (String.length s) - String.length p)%nat
        with (S (String.length s - String.length p)) by lia.
      cbn [substring].
      destruct (Nat.leb_spec (String.length p) (S (String.length s))); [ | lia ].
      destruct (Nat.leb_spec (String.length p) (String.length s)); [ | lia ].
      cbn [andb].
      destruct (String.eqb (substring _ _ s) p); reflexivity.
    + assert (N : Spec.strip_suffix p s = None).
      { destruct (Spec.strip_suffix p s) as [ r | ] eqn:R; [ | reflexivity ].
        apply strip_suffix_length in R. lia. }
      rewrite N. cbn [fmap option_fmap option_map].
      destruct (String.eqb (String c s) p) eqn:E.
      * apply String.eqb_eq in E. subst p.
        rewrite Nat.leb_refl, Nat.sub_diag. cbn [andb].
        rewrite substring_all, String.eqb_refl. reflexivity.
      * destruct (Nat.leb_spec (String.length p) (S (String.length s)));
          [ | reflexivity ].
        replace (String.length p) with (S (String.length s)) by lia.
        rewrite Nat.sub_diag.
        change (S (String.length s)) with (String.length (String c s)).
        rewrite substring_all, E. reflexivity.
Qed.

(** Searching from offset [i] is searching from [0], shifted. *)
Lemma find_from_shift (c : ascii) (s : string) (i : Z) :
  (find_from c s 0 = -1 /\ find_from c s i = -1)
  \/ (0 <= find_from c s 0 < len s /\ find_from c s i = i + find_from c s 0).
Proof.
  revert i. induction s as [ | a s IH]; intros i; cbn [find_from].
  - left. split; reflexivity.
  - rewrite len_cons. pose proof (len_nonneg s).
    destruct (Ascii.eqb a c).
    + right. lia.
    + destruct (IH (i + 1)) as [[E0 Ei] | [B Ei]];
        destruct (IH (0 + 1)) as [[F0 F1] | [C F1]]; rewrite ?Ei, ?F1; lia.
Qed.

Lemma rfind_from_shift (c : ascii) (s : string) (i : Z) :
  0 <= i ->
  (rfind_from c s 0 = -1 /\ rfind_from c s i = -1)
  \/ (0 <= rfind_from c s 0 < len s /\ rfind_from c s i = i + rfind_from c s 0).
Proof.
  revert i. induction s as [ | a s IH]; intros i Hi; cbn [rfind_from].
  - left. split; reflexivity.
  - rewrite len_cons. pose proof (len_nonneg s).
    destruct (IH (i + 1)) as [[E0 Ei] | [B Ei]]; [ lia | | ];
      (destruct (IH (0 + 1)) as [[F0 F1] | [C F1]]; [ lia | | ]);
      rewrite ?Ei, ?F1; try lia.
    + destruct (Ascii.eqb a c); simpl; [ right | left ]; lia.
    + destruct (Z.leb_spec 0 (i + 1 + rfind_from c s 0)); [ | lia ].
      destruct (Z.leb_spec 0 (0 + 1 + rfind_from c s 0)); [ | lia ].
      right. lia.
Qed.

(** The prefix that ends at the last [c] is [s[0 : s.rfind(c) + 1]]. *)
Lemma upto_last_rfind (c : ascii) (s : string) :
  Spec.upto_last c s
  = if 0 <=? rfind s c then Some (slice s (Some 0) (Some (rfind s c + 1)))
    else None.
Proof.
  unfold rfind. induction s as [ | a s IH]; cbn [Spec.upto_last rfind_from].
  - reflexivity.
  - rewrite IH. clear IH.
    destruct (rfind_from_shift c s (0 + 1)) as [[E0 E1] | [B E1]]; [ lia | | ];
      rewrite E1.
    + rewrite E0. simpl (0 <=? -1).
      destruct (Ascii.eqb a c); simpl; [ | reflexivity ].
      rewrite (slice_head a s 0), slice_empty by lia. reflexivity.
    + assert (T0 : (0 <=? rfind_from c s 0) = true) by (apply Z.leb_le; lia).
      assert (T1 : (0 <=? 0 + 1 + rfind_from c s 0) = true)
        by (apply Z.leb_le; lia).
      rewrite T0. repeat (rewrite T1; cbv iota).
      replace (0 + 1 + rfind_from c s 0 + 1) with (rfind_from c s 0 + 1 + 1) by lia.
      rewrite slice_head by lia. reflexivity.
Qed.

Lemma from_first_find_none (c : ascii) (s : string) :
  find s c = -1 -> Spec.from_first c s = None.
Proof.
  unfold find. induction s as [ | a s IH]; cbn [Spec.from_first find_from].
  - reflexivity.
  - destruct (Ascii.eqb a c); [ discriminate | ].
    intros E. apply IH.
    destruct (find_from_shift c s (0 + 1)) as [[E0 _] | [B E1]]; [ exact E0 | lia ].
Qed.

(** The slice between the first [c1] and the last [c2], by index and by
    structure. *)
Lemma braces_slice (c1 c2 : ascii) (s : string) :
  Spec.from_first c1 s ≫= Spec.upto_last c2
  = let start := find s c1 in
    let end_ := rfind s c2 + 1 in
    if (0 <=? start) && (start <? end_)
    then Some (slice s (Some start) (Some end_)) else None.
Proof.
  cbv zeta. induction s as [ | a s IH].
  - reflexivity.
  - cbn [Spec.from_first]. unfold find, rfind in *. cbn [find_from].
    destruct (Ascii.eqb a c1).
    + cbn [mbind option_bind]. rewrite upto_last_rfind. unfold rfind.
      simpl (0 <=? 0). cbn [andb].
      destruct (Z.leb_spec 0 (rfind_from c2 (String a s) 0));
        destruct (Z.ltb_spec 0 (rfind_from c2 (String a s) 0 + 1));
        solve [ reflexivity | lia ].
    + rewrite IH. clear IH. cbn [rfind_from].
      pose proof (len_nonneg s).
      destruct (find_from_shift c1 s (0 + 1)) as [[E0 E1] | [B E1]];
        rewrite E1; rewrite ?E0.
      { reflexivity. }
      destruct (rfind_from_shift c2 s (0 + 1)) as [[F0 F1] | [C F1]]; [ lia | | ];
        rewrite F1; rewrite ?F0.
      * change (0 <=? -1) with false. cbv iota.
        replace (0 <=? find_from c1 s 0) with true by (symmetry; apply Z.leb_le; lia).
        replace (find_from c1 s 0 <? -1 + 1) with false
          by (symmetry; apply Z.ltb_ge; lia).
        replace (0 <=? 0 + 1 + find_from c1 s 0) with true
          by (symmetry; apply Z.leb_le; lia).
        cbn [andb].
        destruct (Ascii.eqb a c2);
          match goal with
          | |- context [?x <? ?y] =>
              replace (x <? y) with false by (symmetry; apply Z.ltb_ge; lia)
          end; reflexivity.
      * replace (0 <=? 0 + 1 + rfind_from c2 s 0) with true
          by (symmetry; apply Z.leb_le; lia).
        replace (0 <=? find_from c1 s 0) with true by (symmetry; apply Z.leb_le; lia).
        replace (0 <=? 0 + 1 + find_from c1 s 0) with true
          by (symmetry; apply Z.leb_le; lia).
        cbn [andb].
        replace (0 + 1 + find_from c1 s 0) with (find_from c1 s 0 + 1) by lia.
        replace (0 + 1 + rfind_from c2 s 0 + 1) with (rfind_from c2 s 0 + 1 + 1) by lia.
        rewrite slice_tail by lia.
        destruct (Z.ltb_spec (find_from c1 s 0) (rfind_from c2 s 0 + 1));
          destruct (Z.ltb_spec (find_from c1 s 0 + 1) (rfind_from c2 s 0 + 1 + 1));
          solve [ reflexivity | lia ].
Qed.

End Strings.

(** ** Texts built by concatenation *)

Section Concatenation.
#[local] Open Scope Z_scope.

Lemma append_cons (a : ascii) (s t : string) :
  String a s ++ t = String a (s ++ t).
Proof. reflexivity. Qed.

Lemma append_empty (t : string) : EmptyString ++ t = t.
Proof. reflexivity. Qed.

Lemma length_append (s t : string) :
  String.length (s ++ t) = (String.length s + String.length t)%nat.
Proof.
  induction s as [ | a s IH]; [ reflexivity | ].
  rewrite append_cons. simpl. rewrite IH. reflexivity.
Qed.

Lemma strip_suffix_append (p s : string) :
  Spec.strip_suffix p (s ++ p) = Some s.
Proof.
  induction s as [ | a s IH].
  - rewrite append_empty.
    destruct p; cbn [Spec.strip_suffix]; rewrite String.eqb_refl; reflexivity.
  - rewrite append_cons. cbn [Spec.strip_suffix]. rewrite IH.
    destruct (String.eqb (String a (s ++ p)) p) eqn:E; [ | reflexivity ].
    apply eqb_length in E. simpl in E. rewrite length_append in E. lia.
Qed.

(** A character that [find] does not meet. *)
Lemma find_absent_cons (c a : ascii) (s : string) :
  find (String a s) c = -1 <-> Ascii.eqb a c = false /\ find s c = -1.
Proof.
  unfold find. cbn [find_from].
  pose proof (len_nonneg s).
  destruct (Ascii.eqb a c).
  - split; [ discriminate | intros [? _]; discriminate ].
  - destruct (find_from_shift c s (0 + 1)) as [[E0 E1] | [B E1]];
      rewrite E1; split; intros; try split; solve [ reflexivity | lia ].
Qed.

Lemma rfind_absent_cons (c a : ascii) (s : string) :
  rfind (String a s) c = -1 <-> Ascii.eqb a c = false /\ rfind s c = -1.
Proof.
  unfold rfind. cbn [rfind_from].
  pose proof (len_nonneg s).
  destruct (rfind_from_shift c s (0 + 1)) as [[E0 E1] | [B E1]]; [ lia | | ];
    rewrite E1.
  - change (0 <=? -1) with false. cbv iota.
    destruct (Ascii.eqb a c); split; intros; try split;
      solve [ reflexivity | discriminate | assumption | tauto
            | match goal with H : _ /\ _ |- _ => destruct H; discriminate end ].
  - replace (0 <=? 0 + 1 + rfind_from c s 0) with true
      by (symmetry; apply Z.leb_le; lia).
    split; [ lia | intros [_ ?]; lia ].
Qed.

Lemma from_first_append (c : ascii) (pre t : string) :
  find pre c = -1 ->
  Spec.from_first c (pre ++ String c t) = Some (String c t).
Proof.
  induction pre as [ | a pre IH]; intros A.
  - rewrite append_empty. cbn [Spec.from_first].
    rewrite Ascii.eqb_refl. reflexivity.
  - apply find_absent_cons in A as [E A].
    rewrite append_cons. cbn [Spec.from_first]. rewrite E. apply IH, A.
Qed.

Lemma upto_last_absent (c : ascii) (s : string) :
  rfind s c = -1 -> Spec.upto_last c s = None.
Proof. intros A. rewrite upto_last_rfind, A. reflexivity. Qed.

Lemma upto_last_append (c : ascii) (t post : string) :
  rfind post c = -1 ->
  Spec.upto_last c (t ++ String c post) = Some (t ++ String c EmptyString).
Proof.
  intros A. induction t as [ | a t IH].
  - rewrite !append_empty. cbn [Spec.upto_last].
    rewrite (upto_last_absent _ _ A), Ascii.eqb_refl. reflexivity.
  - rewrite !append_cons. cbn [Spec.upto_last]. rewrite IH. reflexivity.
Qed.

Lemma append_assoc (s t u : string) : (s ++ t) ++ u = s ++ (t ++ u).
Proof.
  induction s as [ | a s IH]; [ reflexivity | ].
  rewrite !append_cons, IH. reflexivity.
Qed.

(** The braces of prose around one object are that object. *)
Lemma braces_embedded (pre inner post : string) :
  find pre "{" = -1 -> rfind post "}" = -1 ->
  Spec.braces (pre ++ "{" ++ inner ++ "}" ++ post) = Some ("{" ++ inner ++ "}").
Proof.
  intros A B. unfold Spec.braces.
  change ("{" ++ inner ++ "}" ++ post)
    with (String "{" (inner ++ String "}" post)).
  rewrite from_first_append by exact A. cbn [mbind option_bind].
  change (String "{" (inner ++ String "}" post))
    with (String "{" inner ++ String "}" post).
  rewrite upto_last_append by exact B. reflexivity.
Qed.

(** Trimming and unfencing only remove characters. *)
Lemma find_absent_lstrip (c : ascii) (s : string) :
  find s c = -1 -> find (lstrip s) c = -1.
Proof.
  induction s as [ | a s IH]; intros A; [ exact A | ].
  cbn [lstrip]. destruct (isspace a); [ | exact A ].
  apply find_absent_cons in A as [_ A]. apply IH, A.
Qed.

Lemma find_absent_rstrip (c : ascii) (s : string) :
  find s c = -1 -> find (rstrip s) c = -1.
Proof.
  induction s as [ | a s IH]; intros A; [ exact A | ].
  apply find_absent_cons in A as [E A]. specialize (IH A).
  cbn [rstrip]. destruct (rstrip s) as [ | b r ] eqn:R.
  - destruct (isspace a); [ reflexivity | ].
    apply find_absent_cons. split; [ exact E | reflexivity ].
  - apply find_absent_cons. split; assumption.
Qed.

Lemma find_absent_strip_prefix (c : ascii) (p s r : string) :
  Spec.strip_prefix p s = Some r -> find s c = -1 -> find r c = -1.
Proof.
  revert s. induction p as [ | a p IH]; intros s; cbn [Spec.strip_prefix].
  - intros [= <-]. trivial.
  - destruct s as [ | b s]; [ discriminate | ].
    destruct (Ascii.eqb a b); [ | discriminate ].
    intros P A. apply find_absent_cons in A as [_ A]. eapply IH; eassumption.
Qed.

Lemma find_absent_strip_suffix (c : ascii) (p s r : string) :
  Spec.strip_suffix p s = Some r -> find s c = -1 -> find r c = -1.
Proof.
  revert r. induction s as [ | a s IH]; intros r; cbn [Spec.strip_suffix].
  - destruct (String.eqb EmptyString p); [ | discriminate ].
    intros [= <-]. trivial.
  - destruct (String.eqb (String a s) p).
    + intros [= <-]. reflexivity.
    + destruct (Spec.strip_suffix p s) as [ r' | ]; [ | discriminate ].
      cbn [fmap option_fmap option_map]. intros [= <-] A.
      apply find_absent_cons in A as [E A].
      apply find_absent_cons. split; [ exact E | apply IH; trivial ].
Qed.

Lemma find_absent_cleaned (c : ascii) (raw : string) :
  find raw c = -1 -> find (Spec.unfence (strip raw)) c = -1.
Proof.
  intros A. unfold Spec.unfence, strip.
  apply find_absent_lstrip, find_absent_rstrip in A.
  set (s := rstrip (lstrip raw)) in *.
  assert (A1 : find (default s (Spec.strip_prefix "```json" s)) c = -1).
  { destruct (Spec.strip_prefix "```json" s) as [ r | ] eqn:P; [ | exact A ].
    eapply find_absent_strip_prefix; eassumption. }
  set (s1 := default s (Spec.strip_prefix "```json" s)) in *.
  destruct (Spec.strip_suffix "```" s1) as [ r | ] eqn:P; [ | exact A1 ].
  eapply find_absent_strip_suffix; eassumption.
Qed.

End Concatenation.

(** ** ResponseSanitizer *)

Section Sanitizer.
Variable json_loads : string -> result value.

(** The two fence tests of the source remove what [Spec.unfence] removes. *)
Lemma unfence_slices (s : string) :
  (let s1 := if startswith s "```json" then slice s (Some 7%Z) None else s in
   if endswith s1 "```" then slice s1 None (Some (-3)%Z) else s1)
  = Spec.unfence s.
Proof.
  cbv zeta. unfold Spec.unfence.
  rewrite strip_prefix_startswith. change (len "```json") with 7%Z.
  destruct (startswith s "```json"); cbn [from_option id];
    rewrite strip_suffix_endswith by (simpl; lia);
    change (- len "```")%Z with (-3)%Z;
    match goal with |- context [endswith ?t _] => destruct (endswith t _) end;
    reflexivity.
Qed.

Lemma succeeded_Some {A} (r : result A) (a : A) :
  succeeded r = Some a -> r = Ok a.
Proof. destruct r; simpl; congruence. Qed.

(** The text the source returns: the cleaned text when it decodes, else
    its brace slice, which is not decoded. *)
Lemma clean_text (raw : string) :
  succeeded (AdvancedStoryAnalyzer._clean_json_response json_loads raw)
  = match json_loads (Spec.unfence (strip raw)) with
    | Ok _ => Some (Spec.unfence (strip raw))
    | Raise _ => Spec.braces (Spec.unfence (strip raw))
    end.
Proof.
  unfold AdvancedStoryAnalyzer._clean_json_response.
  pose proof (unfence_slices (strip raw)) as U. cbv zeta in U. rewrite U.
  set (s := Spec.unfence (strip raw)).
  destruct (json_loads s) as [ v | e ]; [ reflexivity | ].
  unfold Spec.braces. rewrite braces_slice. cbv zeta.
  destruct ((0 <=? find s "{")%Z && (find s "{" <? rfind s "}" + 1)%Z);
    reflexivity.
Qed.

(** Lines 143-144 of the source: the text the sanitizer returns is handed to
    the decoder, which is where a slice that does not decode is rejected. *)
Lemma clean_then_loads (raw : string) :
  succeeded (AdvancedStoryAnalyzer._clean_json_response json_loads raw
             ≫= json_loads)
  = Spec.sanitize json_loads raw ≫= (fun t => succeeded (json_loads t)).
Proof.
  pose proof (clean_text raw) as C. unfold Spec.sanitize.
  destruct (AdvancedStoryAnalyzer._clean_json_response json_loads raw)
    as [ t | e ]; cbn [succeeded mbind result_bind] in *;
    destruct (json_loads (Spec.unfence (strip raw))) as [ v | e' ] eqn:L.
  - injection C as ->. cbn [mbind option_bind]. reflexivity.
  - rewrite <- C. cbn [mbind option_bind].
    destruct (json_loads t) eqn:Lt; cbn [mbind option_bind succeeded];
      rewrite ?Lt; reflexivity.
  - discriminate.
  - rewrite <- C. reflexivity.
Qed.

(** A reply whose text the sanitizer rejects leaves the analyzer without a
    result. *)
Lemma analyze_with_llama_unusable (response : Response.t) (result : value)
    (raw story_text industry : string) :
  Response.status_code response = 200%Z ->
  Response.json response = Ok result ->
  Value.getitem result "response" = Ok (VStr raw) ->
  Spec.sanitize json_loads raw = None ->
  AdvancedStoryAnalyzer.analyze_with_llama json_loads (Ok response)
    story_text industry = VNone.
Proof.
  intros S J G N.
  pose proof (clean_then_loads raw) as C. rewrite N in C.
  cbn [mbind option_bind] in C.
  unfold AdvancedStoryAnalyzer.analyze_with_llama.
  cbn [mbind result_bind]. rewrite S. change (200 =? 200)%Z with true.
  cbv iota. rewrite J. cbn [mbind result_bind]. rewrite G.
  cbn [mbind result_bind AdvancedStoryAnalyzer.as_text].
  destruct (AdvancedStoryAnalyzer._clean_json_response json_loads raw)
    as [ json_str | e ]; cbn [mbind result_bind] in *; [ | reflexivity ].
  destruct (json_loads json_str); [ discriminate | reflexivity ].
Qed.
End Sanitizer.

(** ** The analysis pipeline *)

Section Pipeline.
Variable json_loads : string -> result value.

(** The canned analysis always validates, with its fixed score and cost. *)
Lemma fallback_analysis_valid (story_text industry : string) :
  exists a,
    StoryAnalysis.new
      (AdvancedStoryAnalyzer.get_fallback_analysis story_text industry) = Ok a
    /\ StoryAnalysis.complexity_score a = 7.5%Q
    /\ StoryAnalysis.estimated_render_cost a = 1500.0%Q.
Proof.
  unfold AdvancedStoryAnalyzer.get_fallback_analysis.
  destruct (String.eqb industry "education");
    [ | destruct (String.eqb industry "architecture") ];
    (eexists; split; [ vm_compute; reflexivity | split; reflexivity ]).
Qed.

(** The analyzer returns [None], or the decoded dictionary with the two
    derived entries written over it. *)
Lemma analyze_with_llama_cases (post : result Response.t)
    (story_text industry : string) :
  AdvancedStoryAnalyzer.analyze_with_llama json_loads post story_text industry
  = VNone
  \/ exists m cost capped,
      model_reply json_loads post m
      /\ AdvancedStoryAnalyzer._calculate_cost_estimate (VDict m) industry
         = Ok cost
      /\ Value.py_min 10 (default (VNum 5) (m !! "complexity_score"))
         = Ok capped
      /\ AdvancedStoryAnalyzer.analyze_with_llama json_loads post
           story_text industry
         = VDict (<["complexity_score" := capped]>
                    (<["estimated_render_cost" := VNum cost]> m)).
Proof.
  unfold AdvancedStoryAnalyzer.analyze_with_llama.
  destruct post as [ response | e ]; [ | left; reflexivity ].
  cbn [mbind result_bind].
  destruct (Response.status_code response =? 200)%Z eqn:S;
    [ | left; reflexivity ].
  apply Z.eqb_eq in S.
  destruct (Response.json response) as [ body | e ] eqn:J;
    [ | left; reflexivity ].
  cbn [mbind result_bind].
  destruct (Value.getitem body "response") as [ item | e ] eqn:G;
    [ | left; reflexivity ].
  cbn [mbind result_bind].
  destruct item as [ | | | raw | | ]; try (left; reflexivity).
  cbn [mbind result_bind AdvancedStoryAnalyzer.as_text].
  destruct (AdvancedStoryAnalyzer._clean_json_response json_loads raw)
    as [ json_str | e ] eqn:C; [ | left; reflexivity ].
  cbn [mbind result_bind].
  destruct (json_loads json_str) as [ analysis | e ] eqn:L;
    [ | left; reflexivity ].
  cbn [mbind result_bind].
  destruct analysis as [ | | | | | m ]; try (left; reflexivity).
  destruct (AdvancedStoryAnalyzer._calculate_cost_estimate (VDict m) industry)
    as [ cost | e ] eqn:K; [ | left; reflexivity ].
  cbn [mbind result_bind Value.setitem Value.get].
  rewrite lookup_insert_ne by discriminate.
  destruct (Value.py_min 10 (default (VNum 5) (m !! "complexity_score")))
    as [ capped | e ] eqn:M; [ | left; reflexivity ].
  right. exists m, cost, capped. repeat split; try assumption.
  econstructor; eauto.
Qed.

(** The converse: a decoded dictionary that the two derived entries can be
    computed for is what the analyzer returns. *)
Lemma analyze_with_llama_model (post : result Response.t)
    (story_text industry : string) (m : gmap string value) (cost : Q)
    (capped : value) :
  model_reply json_loads post m ->
  AdvancedStoryAnalyzer._calculate_cost_estimate (VDict m) industry = Ok cost ->
  Value.py_min 10 (default (VNum 5) (m !! "complexity_score")) = Ok capped ->
  AdvancedStoryAnalyzer.analyze_with_llama json_loads post story_text industry
  = VDict (<["complexity_score" := capped]>
             (<["estimated_render_cost" := VNum cost]> m)).
Proof.
  intros [response body raw json_str -> S J G C L] K M.
  unfold AdvancedStoryAnalyzer.analyze_with_llama.
  cbn [mbind result_bind]. rewrite S. change (200 =? 200)%Z with true.
  cbv iota. rewrite J. cbn [mbind result_bind]. rewrite G.
  cbn [mbind result_bind AdvancedStoryAnalyzer.as_text]. rewrite C.
  cbn [mbind result_bind]. rewrite L. cbn [mbind result_bind]. rewrite K.
  cbn [mbind result_bind Value.setitem Value.get].
  rewrite lookup_insert_ne by discriminate. rewrite M. reflexivity.
Qed.

(** A dictionary the analyzer returns is never empty. *)
Lemma analyze_with_llama_truthy (post : result Response.t)
    (story_text industry : string) :
  Value.truthy
    (AdvancedStoryAnalyzer.analyze_with_llama json_loads post story_text
       industry) = true
  <-> AdvancedStoryAnalyzer.analyze_with_llama json_loads post story_text
        industry <> VNone.
Proof.
  destruct (analyze_with_llama_cases post story_text industry)
    as [ -> | (m & cost & capped & _ & _ & _ & ->) ].
  - simpl. split; [ discriminate | congruence ].
  - split; [ discriminate | intros _ ].
    cbn [Value.truthy].
    destruct (size (<["complexity_score" := capped]> _)) eqn:Z;
      [ | reflexivity ].
    apply map_size_empty_inv in Z. apply insert_non_empty in Z. contradiction.
Qed.

Lemma track_analysis_cases (tracker : BusinessTracker.t) (cost : Q) :
  match BusinessTracker.api_calls tracker !! "analyze" with
  | Some n =>
      BusinessTracker.track_analysis tracker cost
      = Ok (BusinessTracker.mk (BusinessTracker.scenes_generated tracker)
              (<["analyze" := (n + 1)%Z]> (BusinessTracker.api_calls tracker))
              (BusinessTracker.total_cost_savings tracker + cost))
  | None =>
      BusinessTracker.track_analysis tracker cost = Raise (KeyError "analyze")
  end.
Proof.
  unfold BusinessTracker.track_analysis, BusinessTracker.increment.
  destruct (BusinessTracker.api_calls tracker !! "analyze"); reflexivity.
Qed.

(** Every call of the handler takes one of the three paths. *)
Lemma analyze_story_outcome (tracker : BusinessTracker.t)
    (post : result Response.t) (request : StoryRequest.t) :
  analyze_outcome json_loads tracker post request
    (analyze_story json_loads tracker post request).
Proof.
  unfold analyze_story. cbv zeta.
  destruct (fallback_analysis_valid (strip (StoryRequest.text request))
              (StoryRequest.industry request)) as (fb & V & _ & _).
  destruct (String.eqb_spec (strip (StoryRequest.text request)) EmptyString)
    as [ E | E ].
  { rewrite V. cbn [mbind result_bind]. apply ErrorPath; auto. }
  pose proof (track_analysis_cases tracker) as T.
  destruct (Value.truthy _) eqn:B; cbn [negb].
  - destruct (StoryAnalysis.new _) as [ a | e ] eqn:N in |- *;
      cbn [mbind result_bind].
    + specialize (T (StoryAnalysis.estimated_render_cost a)).
      destruct (BusinessTracker.api_calls tracker !! "analyze") eqn:A;
        rewrite T; cbn [mbind result_bind].
      * eapply ModelPath; eauto.
      * rewrite V. cbn [mbind result_bind]. apply ErrorPath; auto.
    + rewrite V. cbn [mbind result_bind]. apply ErrorPath; eauto.
  - rewrite V. cbn [mbind result_bind].
    specialize (T (StoryAnalysis.estimated_render_cost fb)).
    destruct (BusinessTracker.api_calls tracker !! "analyze") eqn:A;
      rewrite T; cbn [mbind result_bind].
    + eapply FallbackPath; eauto.
    + apply ErrorPath; auto.
Qed.
End Pipeline.

(** ** CostEstimator *)

Section CostEstimator.
#[local] Open Scope Q_scope.

Lemma base_costs_lookup (industry : string) :
  inject_Z (default 3000%Z (AdvancedStoryAnalyzer.base_costs !! industry))
  = Spec.base_cost industry.
Proof.
  unfold Spec.base_cost, AdvancedStoryAnalyzer.base_costs.
  destruct (String.eqb_spec industry "gaming") as [ -> | N1 ];
    [ reflexivity | ].
  destruct (String.eqb_spec industry "education") as [ -> | N2 ];
    [ reflexivity | ].
  destruct (String.eqb_spec industry "architecture") as [ -> | N3 ];
    [ reflexivity | ].
  destruct (String.eqb_spec industry "ecommerce") as [ -> | N4 ];
    [ reflexivity | ].
  rewrite !lookup_insert_ne, lookup_singleton_ne by congruence.
  reflexivity.
Qed.

Lemma base_cost_pos (industry : string) : 0 < Spec.base_cost industry.
Proof.
  unfold Spec.base_cost.
  repeat match goal with |- context [String.eqb ?a ?b] =>
           destruct (String.eqb a b) end; reflexivity.
Qed.

Lemma estimate_compat (industry : string) (x y : Q) (cc oc : Z) :
  x == y -> Spec.estimate industry x cc oc = Spec.estimate industry y cc oc.
Proof.
  intros E. unfold Spec.estimate. apply round2_compat. rewrite E. reflexivity.
Qed.

(** The source's arithmetic, read off a dictionary, is the
    specification's formula. *)
Lemma cost_estimate_eq (m : gmap string value) (industry : string) :
  AdvancedStoryAnalyzer._calculate_cost_estimate (VDict m) industry
  = (cc ← Value.py_len (default (VList []) (m !! "characters"));
     oc ← Value.py_len (default (VList []) (m !! "objects"));
     x ← Value.number (default (VNum 5) (m !! "complexity_score"));
     Ok (Spec.estimate industry x cc oc)).
Proof.
  unfold AdvancedStoryAnalyzer._calculate_cost_estimate.
  cbn [Value.get mbind result_bind].
  destruct (Value.py_len (default (VList []) (m !! "characters")))
    as [ cc | e ]; cbn [mbind result_bind]; [ | reflexivity ].
  destruct (Value.py_len (default (VList []) (m !! "objects")))
    as [ oc | e ]; cbn [mbind result_bind]; [ | reflexivity ].
  destruct (Value.number (default (VNum 5) (m !! "complexity_score")))
    as [ x | e ]; cbn [mbind result_bind]; [ | reflexivity ].
  f_equal. unfold Spec.estimate. apply round2_compat.
  rewrite base_costs_lookup. unfold Qdiv. ring.
Qed.


Lemma cost_estimate_dict (a : StoryAnalysis.t) (industry : string) :
  AdvancedStoryAnalyzer._calculate_cost_estimate (StoryAnalysis.dict a) industry
  = Ok (Spec.estimate industry (StoryAnalysis.complexity_score a)
          (Z.of_nat (length (StoryAnalysis.characters a)))
          (Z.of_nat (length (StoryAnalysis.objects a)))).
Proof.
  unfold StoryAnalysis.dict. rewrite cost_estimate_eq.
  replace (_ !! "characters")
    with (Some (VList (VStr <$> StoryAnalysis.characters a)))
    by reflexivity.
  replace (_ !! "objects")
    with (Some (VList (VStr <$> StoryAnalysis.objects a)))
    by reflexivity.
  replace (_ !! "complexity_score")
    with (Some (VNum (StoryAnalysis.complexity_score a)))
    by reflexivity.
  cbn [default from_option id Value.py_len Value.number mbind result_bind].
  rewrite !length_fmap. reflexivity.
Qed.

Lemma estimate_count (industry : string) (x : Q) (cc1 oc1 cc2 oc2 : Z) :
  (cc1 + oc1 = cc2 + oc2)%Z ->
  Spec.estimate industry x cc1 oc1 = Spec.estimate industry x cc2 oc2.
Proof. intros E. unfold Spec.estimate. rewrite E. reflexivity. Qed.

Lemma estimate_mono_complexity (industry : string) (x y : Q) (cc oc : Z) :
  (0 <= cc + oc)%Z -> x <= y ->
  Spec.estimate industry x cc oc <= Spec.estimate industry y cc oc.
Proof.
  intros Hn L. unfold Spec.estimate. apply round2_mono.
  pose proof (base_cost_pos industry) as B.
  assert (K : 0 <= 1 + 0.1 * inject_Z (cc + oc)).
  { assert (inject_Z 0 <= inject_Z (cc + oc)) by (rewrite <- Zle_Qle; exact Hn).
    change (inject_Z 0) with 0 in *. lra. }
  apply Qmult_le_compat_r; [ | discriminate ].
  apply Qmult_le_compat_r; [ | exact K ].
  rewrite !(Qmult_comm (Spec.base_cost industry)).
  apply Qmult_le_compat_r; [ | apply Qlt_le_weak, B ].
  apply Qmult_le_compat_r; [ exact L | discriminate ].
Qed.

Lemma estimate_mono_count (industry : string) (x : Q) (cc1 oc1 cc2 oc2 : Z) :
  0 <= x -> (cc1 + oc1 <= cc2 + oc2)%Z ->
  Spec.estimate industry x cc1 oc1 <= Spec.estimate industry x cc2 oc2.
Proof.
  intros Hx L. unfold Spec.estimate. apply round2_mono.
  pose proof (base_cost_pos industry) as B.
  apply Qmult_le_compat_r; [ | discriminate ].
  rewrite !(Qmult_comm (Spec.base_cost industry * (x / 5))).
  apply Qmult_le_compat_r.
  - assert (inject_Z (cc1 + oc1) <= inject_Z (cc2 + oc2))
      by (rewrite <- Zle_Qle; exact L).
    lra.
  - apply Qmult_le_0_compat; [ apply Qlt_le_weak, B | ].
    apply Qle_shift_div_l; [ reflexivity | lra ].
Qed.
End CostEstimator.

(** ** CostEstimator in binary64 arithmetic *)

Section Binary64.
#[local] Open Scope Q_scope.

(** Rounding to the nearest integer lands within a half, on the even side
    of a tie. *)
Lemma round_half_even_nearest (q : Q) :
  SpecDouble.nearest q (round_half_even q).
Proof.
  unfold SpecDouble.nearest, round_half_even.
  pose proof (Qfloor_le q) as L. pose proof (Qlt_floor q) as U.
  rewrite inject_Z_plus in U. change (inject_Z 1) with 1 in U.
  set (f := Qfloor q) in *.
  destruct (q - inject_Z f ?= 1 # 2) eqn:C.
  - apply Qeq_alt in C.
    assert (A : Qabs (q - inject_Z f) == 1 # 2).
    { rewrite Qabs_pos; [ exact C | lra ]. }
    assert (B : Qabs (q - inject_Z (f + 1)) == 1 # 2).
    { rewrite inject_Z_plus. change (inject_Z 1) with 1.
      rewrite Qabs_neg; lra. }
    destruct (Z.even f) eqn:E.
    + split; [ rewrite A; apply Qle_refl | intros _; exact E ].
    + split; [ rewrite B; apply Qle_refl | intros _ ].
      rewrite Z.even_add, E. reflexivity.
  - apply Qlt_alt in C.
    assert (A : Qabs (q - inject_Z f) == q - inject_Z f).
    { apply Qabs_pos. lra. }
    split; [ rewrite A; lra | rewrite A; intros T; lra ].
  - apply Qgt_alt in C.
    assert (B : Qabs (q - inject_Z (f + 1)) == 1 - (q - inject_Z f)).
    { rewrite inject_Z_plus. change (inject_Z 1) with 1.
      rewrite Qabs_neg; lra. }
    split; [ rewrite B; lra | rewrite B; intros T; lra ].
Qed.

Lemma nearest_compat (p q : Q) (n : Z) :
  p == q -> SpecDouble.nearest p n -> SpecDouble.nearest q n.
Proof.
  unfold SpecDouble.nearest. intros E [A B].
  assert (F : Qabs (q - inject_Z n) == Qabs (p - inject_Z n))
    by (rewrite E; reflexivity).
  split; [ rewrite F; exact A | intros T; apply B; rewrite <- F; exact T ].
Qed.

(** The value of a finite double is its sign times its mantissa times two to
    its exponent. *)
Lemma to_Q_magnitude (s : bool) (m : positive) (e : Z) :
  Double.to_Q (S754_finite s m e) == SpecDouble.magnitude s m e.
Proof.
  unfold Double.to_Q, SpecDouble.magnitude.
  assert (V : match e with
              | Z0 => inject_Z (Zpos m)
              | Zpos p => inject_Z (Zpos m * 2 ^ Zpos p)
              | Zneg p => Qmake (Zpos m) (2 ^ p)
              end == inject_Z (Zpos m) * 2 ^ e).
  { destruct e as [ | p | p ].
    - change (2 ^ 0) with 1. ring.
    - rewrite inject_Z_mult, Zpower_Qpower by lia. reflexivity.
    - rewrite (Qmake_Qdiv (Zpos m) (2 ^ p)).
      change (2 ^ Zneg p) with (/ (2 ^ Zpos p)).
      rewrite Pos2Z.inj_pow, Zpower_Qpower by lia. reflexivity. }
  destruct s; rewrite V; ring.
Qed.

(** [round(x, 2)] rounds to 2 decimal places. *)
Lemma round2_rounded (x : Double.float) :
  SpecDouble.rounded x (Double.round2 x).
Proof.
  destruct x as [ s | s | | s m e ]; try reflexivity.
  cbn [SpecDouble.rounded Double.round2].
  exists (round_half_even (Double.to_Q (S754_finite s m e) * 100)).
  split;
    [ | destruct (round_half_even (Double.to_Q (S754_finite s m e) * 100));
        reflexivity ].
  eapply nearest_compat; [ | apply round_half_even_nearest ].
  rewrite to_Q_magnitude. reflexivity.
Qed.

Lemma mul_comm (x y : Double.float) : Double.mul x y = Double.mul y x.
Proof.
  unfold Double.mul, SFmul.
  destruct x as [ sx | sx | | sx mx ex ], y as [ sy | sy | | sy my ey ];
    try reflexivity; rewrite (xorb_comm sx sy); try reflexivity.
  rewrite (Pos.mul_comm mx my), (Z.add_comm ex ey). reflexivity.
Qed.

Lemma base_costs_base_cost (industry : string) :
  default 3000%Z (AdvancedStoryAnalyzer.base_costs !! industry)
  = SpecDouble.base_cost industry.
Proof.
  unfold SpecDouble.base_cost, AdvancedStoryAnalyzer.base_costs.
  destruct (String.eqb_spec industry "gaming") as [ -> | N1 ];
    [ reflexivity | ].
  destruct (String.eqb_spec industry "education") as [ -> | N2 ];
    [ reflexivity | ].
  destruct (String.eqb_spec industry "architecture") as [ -> | N3 ];
    [ reflexivity | ].
  destruct (String.eqb_spec industry "ecommerce") as [ -> | N4 ];
    [ reflexivity | ].
  rewrite !lookup_insert_ne, lookup_singleton_ne by congruence.
  reflexivity.
Qed.

(** An [int] below [2 ** 63], as every length is, converts to the double
    nearest to it. *)
Lemma of_int_small (n : Z) :
  (Z.abs n < 2 ^ 63)%Z -> Double.of_int n = Ok (Double.of_Z n).
Proof.
  intros B. unfold Double.of_int.
  assert (T : (2 ^ 63 < 2 ^ 1024 - 2 ^ 970)%Z) by reflexivity.
  destruct (Z.ltb_spec (Z.abs n) (2 ^ 1024 - 2 ^ 970)); [ reflexivity | lia ].
Qed.

Lemma base_cost_small (industry : string) :
  (Z.abs (SpecDouble.base_cost industry) < 2 ^ 63)%Z.
Proof.
  unfold SpecDouble.base_cost.
  repeat match goal with |- context [String.eqb ?a ?b] =>
           destruct (String.eqb a b) end; reflexivity.
Qed.

(** The estimate for a score that is a double [x], given as a [float] or as
    an [int] below [2 ** 53]. *)
Lemma cost_estimate_double (m : gmap string Double.value) (industry : string)
    (x : Double.float) (cs os : list Double.value) :
  Double.truediv (default (Double.PyInt 5) (m !! "complexity_score")) 5
  = Ok (Double.div x (Double.of_Z 5)) ->
  default (Double.PyList []) (m !! "characters") = Double.PyList cs ->
  default (Double.PyList []) (m !! "objects") = Double.PyList os ->
  (Z.of_nat (length cs) + Z.of_nat (length os) < 2 ^ 63)%Z ->
  Double._calculate_cost_estimate (Double.PyDict m) industry
  = Ok (Double.round2
          (SpecDouble.formula industry x (Z.of_nat (length cs))
             (Z.of_nat (length os)))).
Proof.
  intros X C O B.
  unfold Double._calculate_cost_estimate, Double.get.
  cbn [mbind result_bind]. rewrite X, C, O.
  cbn [mbind result_bind Double.py_len].
  unfold Double.int_mul, Double.int_add.
  rewrite base_costs_base_cost.
  rewrite (of_int_small (SpecDouble.base_cost industry))
    by apply base_cost_small.
  cbn [mbind result_bind].
  rewrite (of_int_small (Z.of_nat (length cs) + Z.of_nat (length os))) by lia.
  cbn [mbind result_bind].
  rewrite (of_int_small 1) by reflexivity.
  cbn [mbind result_bind].
  unfold SpecDouble.formula. cbv zeta.
  rewrite (mul_comm (Double.ratio 1 10)). reflexivity.
Qed.
End Binary64.

(** ** Validation *)

Section Validation.
#[local] Open Scope Q_scope.

Lemma mapM_as_str_length (l : list value) (l' : list string) :
  mapM StoryAnalysis.as_str l = Ok l' -> length l' = length l.
Proof.
  revert l'. induction l as [ | v l IH]; intros l'; cbn [mapM].
  - intros [= <-]. reflexivity.
  - destruct (StoryAnalysis.as_str v) as [ s | e ];
      cbn [mbind result_bind]; [ | discriminate ].
    destruct (mapM StoryAnalysis.as_str l) as [ k | e ];
      cbn [mbind result_bind]; [ | discriminate ].
    intros [= <-]. simpl. f_equal. apply IH. reflexivity.
Qed.

Lemma as_str_list_length (v : value) (l' : list string) :
  StoryAnalysis.as_str_list v = Ok l' ->
  exists l, v = VList l /\ length l = length l'.
Proof.
  destruct v as [ | | | | l | ]; try discriminate.
  cbn [StoryAnalysis.as_str_list]. intros M.
  exists l. split; [ reflexivity | ].
  symmetry. apply mapM_as_str_length, M.
Qed.

(** What a dictionary that validates holds under the keys the cost and the
    score are read from. *)
Lemma new_inv (d : gmap string value) (a : StoryAnalysis.t) :
  StoryAnalysis.new (VDict d) = Ok a ->
  (exists l, d !! "characters" = Some (VList l)
             /\ length l = length (StoryAnalysis.characters a))
  /\ (exists l, d !! "objects" = Some (VList l)
                /\ length l = length (StoryAnalysis.objects a))
  /\ (exists v, d !! "complexity_score" = Some v
                /\ StoryAnalysis.as_float v
                   = Ok (StoryAnalysis.complexity_score a))
  /\ (exists v, d !! "estimated_render_cost" = Some v
                /\ StoryAnalysis.as_float v
                   = Ok (StoryAnalysis.estimated_render_cost a)).
Proof.
  unfold StoryAnalysis.new, StoryAnalysis.field. intros H.
  destruct (d !! "characters") as [ v1 | ]; cbn [mbind result_bind] in H;
    [ | discriminate ].
  destruct (StoryAnalysis.as_str_list v1) as [ x1 | ] eqn:E1;
    cbn [mbind result_bind] in H; [ | discriminate ].
  destruct (d !! "setting") as [ v2 | ]; cbn [mbind result_bind] in H;
    [ | discriminate ].
  destruct (StoryAnalysis.as_str v2) as [ x2 | ];
    cbn [mbind result_bind] in H; [ | discriminate ].
  destruct (d !! "objects") as [ v3 | ]; cbn [mbind result_bind] in H;
    [ | discriminate ].
  destruct (StoryAnalysis.as_str_list v3) as [ x3 | ] eqn:E3;
    cbn [mbind result_bind] in H; [ | discriminate ].
  destruct (d !! "mood") as [ v4 | ]; cbn [mbind result_bind] in H;
    [ | discriminate ].
  destruct (StoryAnalysis.as_str v4) as [ x4 | ];
    cbn [mbind result_bind] in H; [ | discriminate ].
  destruct (d !! "actions") as [ v5 | ]; cbn [mbind result_bind] in H;
    [ | discriminate ].
  destruct (StoryAnalysis.as_str_list v5) as [ x5 | ];
    cbn [mbind result_bind] in H; [ | discriminate ].
  destruct (d !! "complexity_score") as [ v6 | ];
    cbn [mbind result_bind] in H; [ | discriminate ].
  destruct (StoryAnalysis.as_float v6) as [ x6 | ] eqn:E6;
    cbn [mbind result_bind] in H; [ | discriminate ].
  destruct (d !! "estimated_render_cost") as [ v7 | ];
    cbn [mbind result_bind] in H; [ | discriminate ].
  destruct (StoryAnalysis.as_float v7) as [ x7 | ] eqn:E7;
    cbn [mbind result_bind] in H; [ | discriminate ].
  injection H as <-. cbn.
  apply as_str_list_length in E1 as (l1 & -> & L1).
  apply as_str_list_length in E3 as (l3 & -> & L3).
  repeat split; eauto.
Qed.

(** Only a dictionary validates. *)
Lemma new_dict (data : value) (a : StoryAnalysis.t) :
  StoryAnalysis.new data = Ok a -> exists d, data = VDict d.
Proof. destruct data; try discriminate. eauto. Qed.

(** The cap, seen through the [float] field it ends up in. *)
Lemma py_min_as_float (score capped : value) :
  Value.py_min 10 score = Ok capped ->
  exists x, Value.number score = Ok x
            /\ StoryAnalysis.as_float capped
               = Ok (if Qle_bool 10 x then 10 else x).
Proof.
  unfold Value.py_min.
  destruct score as [ | b | x | | | ]; cbn [Value.number mbind result_bind];
    try discriminate.
  - intros [= <-]. eexists. split; [ reflexivity | ].
    destruct b; reflexivity.
  - intros [= <-]. exists x. split; [ reflexivity | ].
    change (inject_Z 10) with 10.
    destruct (Qle_bool 10 x); reflexivity.
Qed.

Lemma capped_le_10 (x : Q) : (if Qle_bool 10 x then 10 else x) <= 10.
Proof.
  destruct (Qle_bool 10 x) eqn:E; [ apply Qle_refl | ].
  apply Qnot_lt_le. intros L.
  apply Qlt_le_weak, Qle_bool_iff in L. congruence.
Qed.


(** The record validated from the analyzer's dictionary: its cost is the
    estimate computed from the decoded reply, its score the capped one. *)
Lemma model_analysis_fields (m : gmap string value) (industry : string)
    (cost : Q) (capped : value) (a : StoryAnalysis.t) :
  AdvancedStoryAnalyzer._calculate_cost_estimate (VDict m) industry = Ok cost ->
  Value.py_min 10 (default (VNum 5) (m !! "complexity_score")) = Ok capped ->
  StoryAnalysis.new
    (VDict (<["complexity_score" := capped]>
              (<["estimated_render_cost" := VNum cost]> m))) = Ok a ->
  StoryAnalysis.estimated_render_cost a = cost
  /\ exists x,
      Value.number (default (VNum 5) (m !! "complexity_score")) = Ok x
      /\ StoryAnalysis.complexity_score a = (if Qle_bool 10 x then 10 else x)
      /\ cost = Spec.estimate industry x
                  (Z.of_nat (length (StoryAnalysis.characters a)))
                  (Z.of_nat (length (StoryAnalysis.objects a))).
Proof.
  intros K M N.
  apply new_inv in N as ((l1 & C1 & L1) & (l3 & C3 & L3)
                         & (v6 & C6 & F6) & (v7 & C7 & F7)).
  rewrite lookup_insert_ne, lookup_insert_ne in C1 by discriminate.
  rewrite lookup_insert_ne, lookup_insert_ne in C3 by discriminate.
  rewrite lookup_insert_eq in C6. injection C6 as <-.
  rewrite lookup_insert_ne, lookup_insert_eq in C7 by discriminate.
  injection C7 as <-. injection F7 as F7.
  split; [ symmetry; exact F7 | ].
  destruct (py_min_as_float _ _ M) as (x & X & F).
  exists x. split; [ exact X | ]. split; [ congruence | ].
  rewrite cost_estimate_eq, C1, C3, X in K.
  cbn [default from_option id Value.py_len mbind result_bind] in K.
  rewrite L1, L3 in K. congruence.
Qed.
End Validation.

(** ** StoryAnalysisService *)

Section Service.
Variable json_loads : string -> result value.
#[local] Open Scope Q_scope.

(** The model path, unfolded down to the decoded reply. *)
Lemma model_path_inv (post : result Response.t) (story_text industry : string)
    (a : StoryAnalysis.t) :
  StoryAnalysis.new
    (AdvancedStoryAnalyzer.analyze_with_llama json_loads post story_text
       industry) = Ok a ->
  exists m x,
    model_reply json_loads post m
    /\ Value.number (default (VNum 5) (m !! "complexity_score")) = Ok x
    /\ AdvancedStoryAnalyzer._calculate_cost_estimate (VDict m) industry
       = Ok (StoryAnalysis.estimated_render_cost a)
    /\ StoryAnalysis.complexity_score a = (if Qle_bool 10 x then 10 else x)
    /\ StoryAnalysis.estimated_render_cost a
       = Spec.estimate industry x
           (Z.of_nat (length (StoryAnalysis.characters a)))
           (Z.of_nat (length (StoryAnalysis.objects a))).
Proof.
  intros N.
  destruct (analyze_with_llama_cases json_loads post story_text industry)
    as [ E | (m & cost & capped & R & K & M & E) ]; rewrite E in N.
  - discriminate.
  - destruct (model_analysis_fields _ _ _ _ _ K M N) as (C & x & X & S & F).
    exists m, x. subst cost. auto.
Qed.

(** A reply that is no [model_reply] leaves the analyzer without a result. *)
Lemma analyze_with_llama_none (post : result Response.t)
    (story_text industry : string) :
  (forall m, ~ model_reply json_loads post m) ->
  AdvancedStoryAnalyzer.analyze_with_llama json_loads post story_text industry
  = VNone.
Proof.
  intros F.
  destruct (analyze_with_llama_cases json_loads post story_text industry)
    as [ E | (m & _ & _ & R & _) ]; [ exact E | ].
  destruct (F m R).
Qed.

Lemma model_reply_raise (e : exn) (m : gmap string value) :
  ~ model_reply json_loads (Raise e) m.
Proof. intros [? ? ? ? [=]]. Qed.

Lemma model_reply_status (response : Response.t) (m : gmap string value) :
  Response.status_code response <> 200%Z ->
  ~ model_reply json_loads (Ok response) m.
Proof. intros S [? ? ? ? [= <-] S']. contradiction. Qed.
End Service.

(** * The specification's claims *)

(** Projections of a response that is given by its fields. *)
Ltac response_fields :=
  cbn [AnalysisResponse.success AnalysisResponse.analysis
       AnalysisResponse.engine AnalysisResponse.industry
       AnalysisResponse.cost_savings].

(** C1 (the code departs from the claim).  The request
    [{text: "", industry: "gaming"}] is answered with a response body, not
    with the client error: [raise HTTPException(status_code=400, ...)] sits
    inside the [try] whose [except Exception] clause replaces it by the
    canned analysis with [success = false] and [engine = "fallback"]; the
    tracker is left as it was. *)
Theorem analyze_story_empty_text (json_loads : string -> result value)
    (tracker : BusinessTracker.t) (post : result Response.t) :
  analyze_story json_loads tracker post
    (StoryRequest.mk EmptyString "gaming" "fantasy")
  = (Ok (AnalysisResponse.mk false
           (StoryAnalysis.mk ["knight"; "dragon"] "ancient castle courtyard"
              ["sword"; "treasure chest"; "magic crystal"] "epic and dramatic"
              ["confronting"; "guarding"; "observing"] 7.5 1500.0)
           "fallback" "gaming" 1500.0),
     tracker).
Proof. reflexivity. Qed.


(** The complexity score on each path.  Every call returns an analysis whose
    [complexity_score] is at most 10.  On the fallback paths it is 7.5.  On
    the model path it is the score of the decoded reply (5 when the reply has
    none) when that is below 10, and 10 otherwise: [min(10, ...)] bounds the
    score from above only. *)
Theorem complexity_score_by_path (json_loads : string -> result value)
    (tracker : BusinessTracker.t) (post : result Response.t)
    (request : StoryRequest.t) :
  exists response tracker',
    analyze_story json_loads tracker post request = (Ok response, tracker')
    /\ (StoryAnalysis.complexity_score (AnalysisResponse.analysis response)
        <= 10)%Q
    /\ (AnalysisResponse.engine response = "fallback" ->
        StoryAnalysis.complexity_score (AnalysisResponse.analysis response)
        = 7.5%Q)
    /\ (AnalysisResponse.engine response = "llama_enhanced" ->
        exists m x,
          model_reply json_loads post m
          /\ Value.number (default (VNum 5) (m !! "complexity_score")) = Ok x
          /\ StoryAnalysis.complexity_score (AnalysisResponse.analysis response)
             = (if Qle_bool 10 x then 10 else x)%Q).
Proof.
  pose proof (analyze_story_outcome json_loads tracker post request) as O.
  destruct (fallback_analysis_valid (strip (StoryRequest.text request))
              (StoryRequest.industry request)) as (fb & V & S & _).
  inversion O as [ data a tracker' E D B N T R | a tracker' E B V' T R
                 | a C V' R ];
    eexists _, _; (split; [ reflexivity | ]); response_fields.
  - subst data.
    destruct (model_path_inv json_loads _ _ _ _ N) as (m & x & M & X & K & Sa & Q).
    split; [ rewrite Sa; apply capped_le_10 | ].
    split; [ discriminate | intros _ ]. eauto.
  - assert (a = fb) as -> by congruence.
    split; [ rewrite S; discriminate | ].
    split; [ intros _; exact S | discriminate ].
  - assert (a = fb) as -> by congruence.
    split; [ rewrite S; discriminate | ].
    split; [ intros _; exact S | discriminate ].
Qed.

(** C4 (amended).  Every call returns a response, never an exception.  Its
    engine tag is ["llama_enhanced"] or ["fallback"].  Tagged
    ["llama_enhanced"], the analysis is the validated dictionary of the
    analyzer, which stems from a status-200 reply that cleaned and decoded;
    tagged ["fallback"], it is the validated canned analysis.  A transport
    error, a status other than 200 and a reply that does not clean and decode
    to a dictionary each give ["fallback"]; a dictionary of the analyzer that
    validates gives ["llama_enhanced"], the text being non-empty and the
    tracker's counter present. *)
Theorem engine_tag_by_path (json_loads : string -> result value)
    (tracker : BusinessTracker.t) (post : result Response.t)
    (request : StoryRequest.t) :
  let story_text := strip (StoryRequest.text request) in
  let industry := StoryRequest.industry request in
  let data :=
    AdvancedStoryAnalyzer.analyze_with_llama json_loads post story_text
      industry in
  exists response tracker',
    analyze_story json_loads tracker post request = (Ok response, tracker')
    /\ (AnalysisResponse.engine response = "llama_enhanced"
        \/ AnalysisResponse.engine response = "fallback")
    /\ (AnalysisResponse.engine response = "llama_enhanced" ->
        StoryAnalysis.new data = Ok (AnalysisResponse.analysis response)
        /\ exists m, model_reply json_loads post m)
    /\ (AnalysisResponse.engine response = "fallback" ->
        StoryAnalysis.new
          (AdvancedStoryAnalyzer.get_fallback_analysis story_text industry)
        = Ok (AnalysisResponse.analysis response))
    /\ ((exists e, post = Raise e) ->
        AnalysisResponse.engine response = "fallback")
    /\ ((exists r, post = Ok r /\ Response.status_code r <> 200%Z) ->
        AnalysisResponse.engine response = "fallback")
    /\ ((forall m, ~ model_reply json_loads post m) ->
        AnalysisResponse.engine response = "fallback")
    /\ (BusinessTracker.wf tracker -> story_text <> EmptyString ->
        forall a, StoryAnalysis.new data = Ok a ->
        AnalysisResponse.engine response = "llama_enhanced"
        /\ AnalysisResponse.analysis response = a).
Proof.
  cbv zeta.
  set (data := AdvancedStoryAnalyzer.analyze_with_llama json_loads post
                 (strip (StoryRequest.text request))
                 (StoryRequest.industry request)).
  pose proof (analyze_story_outcome json_loads tracker post request) as O.
  assert (U : (forall m, ~ model_reply json_loads post m) -> data = VNone)
    by apply analyze_with_llama_none.
  pose proof (analyze_with_llama_truthy json_loads post
                (strip (StoryRequest.text request))
                (StoryRequest.industry request)) as Tr.
  fold data in Tr.
  inversion O as [ data' a tracker' E D B N T R | a tracker' E B V' T R
                 | a C V' R ];
    eexists _, _; (split; [ reflexivity | ]); response_fields.
  - fold data in D, B, N. subst data'.
    assert (Z : data <> VNone) by (apply Tr, B).
    split; [ left; reflexivity | ].
    split. { intros _. split; [ exact N | ].
             destruct (model_path_inv json_loads _ _ _ _ N) as (m & _ & M & _).
             eauto. }
    split; [ discriminate | ].
    split. { intros [e ->]. destruct Z. apply U. intros m.
             apply model_reply_raise. }
    split. { intros (r & -> & S). destruct Z. apply U. intros m.
             apply model_reply_status, S. }
    split. { intros F. destruct Z. apply U, F. }
    intros _ _ a' N'. split; [ reflexivity | congruence ].
  - fold data in B.
    split; [ right; reflexivity | ].
    split; [ discriminate | ].
    split; [ intros _; exact V' | ].
    do 3 (split; [ reflexivity | ]).
    intros _ _ a' N'. destruct (new_dict _ _ N') as (d & Dd).
    assert (Z : Value.truthy data = true)
      by (apply Tr; rewrite Dd; discriminate).
    congruence.
  - fold data in C.
    split; [ right; reflexivity | ].
    split; [ discriminate | ].
    split; [ intros _; exact V' | ].
    do 3 (split; [ reflexivity | ]).
    intros [(n & A) _] Ne a' N'.
    destruct C as [ C | [ (e & C & _) | C ] ]; congruence.
Qed.

(** C5 (amended).  The sanitizer trims the completion, removes the leading
    fence with its [json] tag and the trailing fence, each when present, and
    returns the text when it decodes; otherwise it returns the part from the
    first opening brace to the last closing brace without decoding it, and
    re-raises the decoder's error when there is no such part.  The analyzer
    decodes what the sanitizer returns, so that decoding the source's text
    and decoding the specification's text agree, a failure of either being
    a failure of the other.  Consequently a fenced block around JSON text
    yields its value, prose around one object yields the object, and text
    that does not decode and holds no opening brace makes the sanitizer raise
    and the analyzer return [None], which the handler answers with the
    fallback. *)
Theorem clean_json_response_sanitizes (json_loads : string -> result value) :
  (forall raw,
     succeeded (AdvancedStoryAnalyzer._clean_json_response json_loads raw)
     = match json_loads (Spec.unfence (strip raw)) with
       | Ok _ => Some (Spec.unfence (strip raw))
       | Raise _ => Spec.braces (Spec.unfence (strip raw))
       end)
  /\ (forall raw,
        succeeded (AdvancedStoryAnalyzer._clean_json_response json_loads raw
                   ≫= json_loads)
        = Spec.sanitize json_loads raw ≫= (fun t => succeeded (json_loads t)))
  /\ (forall raw body v,
        strip raw = "```json" ++ body ++ "```" ->
        json_loads body = Ok v ->
        AdvancedStoryAnalyzer._clean_json_response json_loads raw
        ≫= json_loads = Ok v)
  /\ (forall raw pre inner post v,
        Spec.unfence (strip raw) = pre ++ "{" ++ inner ++ "}" ++ post ->
        find pre "{" = (-1)%Z -> rfind post "}" = (-1)%Z ->
        succeeded (json_loads (Spec.unfence (strip raw))) = None ->
        json_loads ("{" ++ inner ++ "}") = Ok v ->
        AdvancedStoryAnalyzer._clean_json_response json_loads raw
        ≫= json_loads = Ok v)
  /\ (forall raw,
        find raw "{" = (-1)%Z ->
        succeeded (json_loads (Spec.unfence (strip raw))) = None ->
        succeeded (AdvancedStoryAnalyzer._clean_json_response json_loads raw)
        = None
        /\ forall response body story_text industry,
             Response.status_code response = 200%Z ->
             Response.json response = Ok body ->
             Value.getitem body "response" = Ok (VStr raw) ->
             AdvancedStoryAnalyzer.analyze_with_llama json_loads (Ok response)
               story_text industry = VNone).
Proof.
  split; [ apply clean_text | ].
  split; [ apply clean_then_loads | ].
  split; [ | split ].
  - intros raw body v S L.
    assert (U : Spec.unfence (strip raw) = body).
    { rewrite S. unfold Spec.unfence.
      change (Spec.strip_prefix "```json" ("```json" ++ body ++ "```"))
        with (Some (body ++ "```")).
      cbn [from_option id]. rewrite strip_suffix_append. reflexivity. }
    pose proof (clean_text json_loads raw) as C. rewrite U, L in C.
    apply succeeded_Some in C. rewrite C. exact L.
  - intros raw pre inner post v S A B F L.
    pose proof (clean_text json_loads raw) as C.
    destruct (json_loads (Spec.unfence (strip raw))); [ discriminate | ].
    rewrite S, braces_embedded in C by assumption.
    apply succeeded_Some in C. rewrite C. exact L.
  - intros raw A F.
    assert (B : Spec.braces (Spec.unfence (strip raw)) = None).
    { unfold Spec.braces.
      rewrite from_first_find_none by apply find_absent_cleaned, A.
      reflexivity. }
    split.
    + rewrite clean_text.
      destruct (json_loads (Spec.unfence (strip raw)));
        [ discriminate | exact B ].
    + intros response body story_text industry S J G.
      eapply analyze_with_llama_unusable; try eassumption.
      unfold Spec.sanitize.
      destruct (json_loads (Spec.unfence (strip raw))); [ discriminate | ].
      rewrite B. reflexivity.
Qed.

(** C6.  The estimate is the specification's formula in the arithmetic of
    doubles: the base cost of the industry (gaming 5000, education 3000,
    architecture 8000, ecommerce 2000, any other 3000) times a fifth of the
    complexity score, times one plus a tenth of the number of characters and
    objects, times 0.2, rounded to two decimal places.  This holds for a
    score that is a [float], and for a score that is an [int] below
    [2 ** 53], which stands for the double equal to it; an entry that is
    missing counts as the score 5 and as no characters or objects. *)
Theorem cost_estimate_formula (m : gmap string Double.value)
    (industry : string) (cs os : list Double.value) :
  default (Double.PyList []) (m !! "characters") = Double.PyList cs ->
  default (Double.PyList []) (m !! "objects") = Double.PyList os ->
  (Z.of_nat (length cs) + Z.of_nat (length os) < 2 ^ 63)%Z ->
  (forall x : Double.float,
     default (Double.PyInt 5) (m !! "complexity_score") = Double.PyFloat x ->
     exists k,
       Double._calculate_cost_estimate (Double.PyDict m) industry = Ok k
       /\ SpecDouble.rounded
            (SpecDouble.formula industry x (Z.of_nat (length cs))
               (Z.of_nat (length os))) k)
  /\ (forall n : Z,
        default (Double.PyInt 5) (m !! "complexity_score") = Double.PyInt n ->
        (Z.abs n < 2 ^ 53)%Z ->
        exists k,
          Double._calculate_cost_estimate (Double.PyDict m) industry = Ok k
          /\ SpecDouble.rounded
               (SpecDouble.formula industry (Double.of_Z n)
                  (Z.of_nat (length cs)) (Z.of_nat (length os))) k).
Proof.
  intros C O B. split.
  - intros x X. eexists. split; [ | apply round2_rounded ].
    apply cost_estimate_double; try assumption.
    rewrite X. reflexivity.
  - intros n X N. eexists. split; [ | apply round2_rounded ].
    apply cost_estimate_double; try assumption.
    rewrite X. cbn [Double.truediv].
    unfold Double.int_truediv.
    change (5 =? 0)%Z with false. cbv iota.
    destruct (Z.ltb_spec (Z.abs n) (2 ^ 53)); [ reflexivity | lia ].
Qed.

(** C7 (amended).  The estimate is a function of the industry, the value of
    the complexity score and the number of characters and objects.  For a
    fixed industry and number it does not decrease when the score grows.
    For a fixed industry and a score that is not negative it does not
    decrease when the number grows. *)
Theorem cost_estimate_monotone (a1 a2 : StoryAnalysis.t) (industry : string) :
  let count (a : StoryAnalysis.t) :=
    (length (StoryAnalysis.characters a) + length (StoryAnalysis.objects a))%nat in
  exists k1 k2,
    AdvancedStoryAnalyzer._calculate_cost_estimate (StoryAnalysis.dict a1)
      industry = Ok k1
    /\ AdvancedStoryAnalyzer._calculate_cost_estimate (StoryAnalysis.dict a2)
         industry = Ok k2
    /\ ((StoryAnalysis.complexity_score a1 == StoryAnalysis.complexity_score a2)%Q ->
        count a1 = count a2 -> k1 = k2)
    /\ ((StoryAnalysis.complexity_score a1 <= StoryAnalysis.complexity_score a2)%Q ->
        count a1 = count a2 -> (k1 <= k2)%Q)
    /\ ((0 <= StoryAnalysis.complexity_score a1)%Q ->
        (StoryAnalysis.complexity_score a1 == StoryAnalysis.complexity_score a2)%Q ->
        (count a1 <= count a2)%nat -> (k1 <= k2)%Q).
Proof.
  intros count. eexists _, _.
  split; [ apply cost_estimate_dict | ].
  split; [ apply cost_estimate_dict | ].
  unfold count. split; [ | split ].
  - intros E C. rewrite (estimate_compat _ _ _ _ _ E).
    apply estimate_count. lia.
  - intros L C.
    rewrite (estimate_count industry (StoryAnalysis.complexity_score a2)
               (Z.of_nat (length (StoryAnalysis.characters a2)))
               (Z.of_nat (length (StoryAnalysis.objects a2)))
               (Z.of_nat (length (StoryAnalysis.characters a1)))
               (Z.of_nat (length (StoryAnalysis.objects a1)))) by lia.
    apply estimate_mono_complexity; [ lia | exact L ].
  - intros P E C. rewrite <- (estimate_compat _ _ _ _ _ E).
    apply estimate_mono_count; [ exact P | lia ].
Qed.

(** C8.  For an analysis with at least 3 characters and at least 5 objects
    the composition has 8 elements: 3 characters, named after the first 3
    characters and placed at (0,0,0), (3,0,2) and (-2,0,1), and 5 props,
    named after the first 5 objects, the [i]-th at [x = i*1.5 - 3], [y = 0],
    [z = (i mod 2)*2].  Further characters and objects are dropped. *)
Theorem scene_composition_layout (self : ThreeDGenerator.t) (uuid : string)
    (analysis : StoryAnalysis.t) :
  (3 <= length (StoryAnalysis.characters analysis))%nat ->
  (5 <= length (StoryAnalysis.objects analysis))%nat ->
  let elements :=
    SceneComposition.elements
      (ThreeDGenerator.generate_scene_composition self uuid analysis).1 in
  let characters :=
    filter (fun e => SceneElement.type e = "character") elements in
  let props := filter (fun e => SceneElement.type e = "prop") elements in
  length elements = 8%nat
  /\ length characters = 3%nat
  /\ length props = 5%nat
  /\ SceneElement.name <$> characters
     = take 3 (StoryAnalysis.characters analysis)
  /\ SceneElement.position <$> characters
     = [ {[ "x" := 0; "y" := 0; "z" := 0 ]};
         {[ "x" := 3; "y" := 0; "z" := 2 ]};
         {[ "x" := -2; "y" := 0; "z" := 1 ]} ]%Q
  /\ SceneElement.name <$> props = take 5 (StoryAnalysis.objects analysis)
  /\ (forall (i : nat) (e : SceneElement.t),
        props !! i = Some e ->
        SceneElement.position e
        = {[ "x" := inject_Z (Z.of_nat i) * 1.5 - 3;
             "y" := 0;
             "z" := inject_Z (Z.of_nat i mod 2 * 2) ]}%Q).
Proof.
  intros Hc Ho.
  destruct analysis as [cs st os md ac cx rc].
  cbn [StoryAnalysis.characters StoryAnalysis.objects] in *.
  destruct cs as [ | c0 [ | c1 [ | c2 cs ] ] ]; simpl in Hc; try lia.
  destruct os as [ | o0 [ | o1 [ | o2 [ | o3 [ | o4 os ] ] ] ] ];
    simpl in Ho; try lia.
  cbv zeta.
  repeat split; try reflexivity.
  intros i e L.
  destruct i as [ | [ | [ | [ | [ | i ] ] ] ] ];
    vm_compute in L; try discriminate; injection L as <-; reflexivity.
Qed.

(** C9 (amended).  With the counters of [__init__] present, a call of
    [analyze_story] that answers with [success = true] (through the model or
    through the fallback for an absent model result) adds 1 to the
    ["analyze"] counter and the returned cost to the total, and changes
    nothing else; a call that answers with [success = false] (empty text, or
    a model result that does not validate) leaves the tracker as it was.
    A call of [generate_scene] succeeds and adds 1 to the ["generate_3d"]
    counter and 1 to [scenes_generated], and changes nothing else. *)
Theorem tracker_updates (json_loads : string -> result value)
    (tracker : BusinessTracker.t) :
  BusinessTracker.wf tracker ->
  (forall post request,
     let data :=
       AdvancedStoryAnalyzer.analyze_with_llama json_loads post
         (strip (StoryRequest.text request)) (StoryRequest.industry request) in
     exists response tracker' n,
       analyze_story json_loads tracker post request = (Ok response, tracker')
       /\ BusinessTracker.api_calls tracker !! "analyze" = Some n
       /\ (AnalysisResponse.success response = true ->
           tracker'
           = BusinessTracker.mk (BusinessTracker.scenes_generated tracker)
               (<["analyze" := (n + 1)%Z]> (BusinessTracker.api_calls tracker))
               (BusinessTracker.total_cost_savings tracker
                + AnalysisResponse.cost_savings response)%Q)
       /\ (AnalysisResponse.success response = false -> tracker' = tracker)
       /\ (AnalysisResponse.success response = false <->
           strip (StoryRequest.text request) = EmptyString
           \/ (data <> VNone /\ succeeded (StoryAnalysis.new data) = None)))
  /\ (forall generator uuid elapsed request,
        exists result generator' n,
          BusinessTracker.api_calls tracker !! "generate_3d" = Some n
          /\ generate_scene generator tracker uuid elapsed request
             = (Ok result, generator',
                BusinessTracker.mk (BusinessTracker.scenes_generated tracker + 1)
                  (<["generate_3d" := (n + 1)%Z]>
                     (BusinessTracker.api_calls tracker))
                  (BusinessTracker.total_cost_savings tracker))).
Proof.
  intros [[n A] [g G]]. split.
  - intros post request. cbv zeta.
    pose proof (analyze_story_outcome json_loads tracker post request) as O.
    pose proof (analyze_with_llama_truthy json_loads post
                  (strip (StoryRequest.text request))
                  (StoryRequest.industry request)) as Tr.
    pose proof (track_analysis_cases tracker) as T. rewrite A in T.
    inversion O as [ data' a tracker' E D B N T' R | a tracker' E B V' T' R
                   | a C V' R ];
      eexists _, _, n; (split; [ reflexivity | ]); response_fields;
      (split; [ exact A | ]).
    + subst data'. rewrite T in T'. injection T' as <-.
      split; [ reflexivity | ]. split; [ discriminate | ].
      split; [ discriminate | ].
      intros [ Z | [_ Z] ]; [ contradiction | ].
      rewrite N in Z. discriminate.
    + rewrite T in T'. injection T' as <-.
      split; [ reflexivity | ]. split; [ discriminate | ].
      split; [ discriminate | ].
      intros [ Z | [Z _] ]; [ contradiction | ].
      apply Tr in Z. congruence.
    + split; [ discriminate | ]. split; [ reflexivity | ].
      split; [ intros _ | reflexivity ].
      destruct C as [ C | [ (e & C & B) | C ] ]; [ left; exact C | | congruence ].
      right. split; [ apply Tr, B | rewrite C; reflexivity ].
  - intros generator uuid elapsed request.
    unfold generate_scene, BusinessTracker.track_generation,
      BusinessTracker.increment.
    rewrite G. cbn [mbind result_bind].
    destruct (ThreeDGenerator.generate_scene_composition generator uuid
                (ThreeDGenerationRequest.analysis request))
      as [composition generator'].
    eexists _, _, g. split; reflexivity.
Qed.


(** * The statements on concrete exchanges *)



(** [complexity_score_by_path] on a reply with score 12: capped at 10. *)
Lemma complexity_score_by_path_witness :
  exists response tracker',
    analyze_story Json.loads BusinessTracker.__init__
      (Example.reply (Example.completion "12"))
      (Example.request "a knight" "gaming") = (Ok response, tracker')
    /\ AnalysisResponse.engine response = "llama_enhanced"
    /\ exists m x,
         model_reply Json.loads (Example.reply (Example.completion "12")) m
         /\ Value.number (default (VNum 5) (m !! "complexity_score")) = Ok x
         /\ StoryAnalysis.complexity_score (AnalysisResponse.analysis response)
            = (if Qle_bool 10 x then 10 else x)%Q.
Proof.
  destruct (complexity_score_by_path Json.loads BusinessTracker.__init__
              (Example.reply (Example.completion "12"))
              (Example.request "a knight" "gaming"))
    as (response & tracker' & E & _ & _ & M).
  exists response, tracker'. split; [ exact E | ].
  assert (G : AnalysisResponse.engine response = "llama_enhanced").
  { vm_compute in E. injection E as <- _. reflexivity. }
  split; [ exact G | exact (M G) ].
Defined.

(** C3 (the code departs from the claim).  A status-200 reply whose
    completion carries [complexity_score] 0 is served on the model path with
    [complexity_score] 0, which is below 1: the source bounds the score of the
    1-10 scale it asks the language model for by [min(10, ...)] and has no
    lower bound. *)
Lemma complexity_score_below_one :
  exists response tracker',
    analyze_story Json.loads BusinessTracker.__init__
      (Example.reply (Example.completion "0"))
      (Example.request "a knight" "gaming") = (Ok response, tracker')
    /\ AnalysisResponse.engine response = "llama_enhanced"
    /\ StoryAnalysis.complexity_score (AnalysisResponse.analysis response) = 0%Q
    /\ ~ (1 <= StoryAnalysis.complexity_score
                 (AnalysisResponse.analysis response))%Q.
Proof.
  eexists _, _. split; [ vm_compute; reflexivity | ].
  split; [ reflexivity | ]. split; [ reflexivity | ].
  cbn. intros L. apply (Qle_not_lt _ _ L). reflexivity.
Qed.

(** [engine_tag_by_path] on a reply that validates: the model path. *)
Lemma engine_tag_by_path_witness :
  exists response tracker' a,
    analyze_story Json.loads BusinessTracker.__init__
      (Example.reply (Example.completion "7"))
      (Example.request "a knight" "gaming") = (Ok response, tracker')
    /\ StoryAnalysis.new
         (AdvancedStoryAnalyzer.analyze_with_llama Json.loads
            (Example.reply (Example.completion "7")) "a knight" "gaming")
       = Ok a
    /\ AnalysisResponse.engine response = "llama_enhanced"
    /\ AnalysisResponse.analysis response = a.
Proof.
  destruct (engine_tag_by_path Json.loads BusinessTracker.__init__
              (Example.reply (Example.completion "7"))
              (Example.request "a knight" "gaming"))
    as (response & tracker' & E & _ & _ & _ & _ & _ & _ & M).
  destruct (StoryAnalysis.new
              (AdvancedStoryAnalyzer.analyze_with_llama Json.loads
                 (Example.reply (Example.completion "7")) "a knight" "gaming"))
    as [ a | e ] eqn:N; [ | vm_compute in N; discriminate ].
  exists response, tracker', a. split; [ exact E | ].
  split; [ reflexivity | ].
  apply M.
  - split; vm_compute; eauto.
  - vm_compute. discriminate.
  - exact N.
Defined.

(** The tag of the model path is ["llama_enhanced"], which is neither
    ["model"] nor ["fallback"]. *)
Lemma engine_tag_not_model :
  exists response tracker',
    analyze_story Json.loads BusinessTracker.__init__
      (Example.reply (Example.completion "7"))
      (Example.request "a knight" "gaming") = (Ok response, tracker')
    /\ AnalysisResponse.engine response = "llama_enhanced"
    /\ AnalysisResponse.engine response <> "model"
    /\ AnalysisResponse.engine response <> "fallback".
Proof.
  eexists _, _. split; [ vm_compute; reflexivity | ].
  split; [ reflexivity | ]. split; discriminate.
Qed.

(** [clean_json_response_sanitizes] on a fenced block, on prose around an
    object and on prose without braces. *)
Lemma clean_json_response_sanitizes_witness :
  let object := "{" ++ Json.q "mood" ++ ": " ++ Json.q "calm" ++ "}" in
  let value := VDict {[ "mood" := VStr "calm" ]} in
  AdvancedStoryAnalyzer._clean_json_response Json.loads
    ("  ```json" ++ object ++ "```  ") ≫= Json.loads = Ok value
  /\ AdvancedStoryAnalyzer._clean_json_response Json.loads
       ("Here you go: " ++ object ++ " Enjoy!") ≫= Json.loads = Ok value
  /\ succeeded
       (AdvancedStoryAnalyzer._clean_json_response Json.loads
          "I cannot help with that.") = None
  /\ AdvancedStoryAnalyzer.analyze_with_llama Json.loads
       (Example.reply "I cannot help with that.") "a knight" "gaming" = VNone.
Proof.
  cbv zeta.
  destruct (clean_json_response_sanitizes Json.loads) as (_ & _ & F & P & N).
  split; [ | split ].
  - apply (F _ ("{" ++ Json.q "mood" ++ ": " ++ Json.q "calm" ++ "}"));
      vm_compute; reflexivity.
  - apply (P _ "Here you go: " (Json.q "mood" ++ ": " ++ Json.q "calm")
             " Enjoy!"); vm_compute; reflexivity.
  - destruct (N "I cannot help with that.") as [C A];
      [ vm_compute; reflexivity | vm_compute; reflexivity | ].
    split; [ exact C | ].
    eapply A; reflexivity.
Defined.

(** The completion [x{y}z] does not decode and neither does its brace slice
    [{y}]: the specification's sanitizer fails, the source's returns the
    slice. *)
Lemma clean_json_response_returns_undecoded :
  AdvancedStoryAnalyzer._clean_json_response Json.loads "x{y}z" = Ok "{y}"
  /\ Json.loads "{y}" = Raise JSONDecodeError
  /\ Spec.sanitize Json.loads "x{y}z" = None.
Proof. repeat split; vm_compute; reflexivity. Qed.

(** [cost_estimate_formula] on two characters and three objects with the
    score 7.5, which gives 2250.0, and with the score 7, which gives 2100.0;
    and on the score 8.142525 alone, where the product is the double next
    above 1628.505 and the estimate the double 1628.51. *)
Lemma cost_estimate_formula_witness :
  let knight := [Double.PyStr "knight"; Double.PyStr "dragon"] in
  let sword :=
    [Double.PyStr "sword"; Double.PyStr "chest"; Double.PyStr "crystal"] in
  let analysis score :=
    Double.PyDict {[ "complexity_score" := score;
                     "characters" := Double.PyList knight;
                     "objects" := Double.PyList sword ]} in
  (Double._calculate_cost_estimate
     (analysis (Double.PyFloat (Double.ratio 75 10))) "gaming"
   = Ok (S754_finite false 4947802324992000 (-41))
   /\ SpecDouble.rounded
        (SpecDouble.formula "gaming" (Double.ratio 75 10) 2 3)
        (S754_finite false 4947802324992000 (-41)))
  /\ (Double._calculate_cost_estimate (analysis (Double.PyInt 7)) "gaming"
      = Ok (S754_finite false 4617948836659200 (-41))
      /\ SpecDouble.rounded
           (SpecDouble.formula "gaming" (Double.of_Z 7) 2 3)
           (S754_finite false 4617948836659200 (-41)))
  /\ (Double._calculate_cost_estimate
        (Double.PyDict
           {[ "complexity_score" :=
                Double.PyFloat (Double.ratio 8142525 1000000) ]}) "gaming"
      = Ok (S754_finite false 7162262723797975 (-42))
      /\ SpecDouble.formula "gaming" (Double.ratio 8142525 1000000) 0 0
         = S754_finite false 7162240733565420 (-42)
      /\ SpecDouble.rounded (S754_finite false 7162240733565420 (-42))
           (S754_finite false 7162262723797975 (-42))).
Proof.
  cbv zeta. split; [ | split ].
  - destruct (cost_estimate_formula
                {[ "complexity_score" := Double.PyFloat (Double.ratio 75 10);
                   "characters" :=
                     Double.PyList [Double.PyStr "knight"; Double.PyStr "dragon"];
                   "objects" :=
                     Double.PyList [Double.PyStr "sword"; Double.PyStr "chest";
                                    Double.PyStr "crystal"] ]}
                "gaming" [Double.PyStr "knight"; Double.PyStr "dragon"]
                [Double.PyStr "sword"; Double.PyStr "chest";
                 Double.PyStr "crystal"]) as [F _];
      [ reflexivity | reflexivity | reflexivity | ].
    destruct (F (Double.ratio 75 10)) as (k & E & R); [ reflexivity | ].
    assert (K : k = S754_finite false 4947802324992000 (-41))
      by (vm_compute in E; injection E as <-; reflexivity).
    subst k. split; [ exact E | exact R ].
  - destruct (cost_estimate_formula
                {[ "complexity_score" := Double.PyInt 7;
                   "characters" :=
                     Double.PyList [Double.PyStr "knight"; Double.PyStr "dragon"];
                   "objects" :=
                     Double.PyList [Double.PyStr "sword"; Double.PyStr "chest";
                                    Double.PyStr "crystal"] ]}
                "gaming" [Double.PyStr "knight"; Double.PyStr "dragon"]
                [Double.PyStr "sword"; Double.PyStr "chest";
                 Double.PyStr "crystal"]) as [_ F];
      [ reflexivity | reflexivity | reflexivity | ].
    destruct (F 7%Z) as (k & E & R); [ reflexivity | reflexivity | ].
    assert (K : k = S754_finite false 4617948836659200 (-41))
      by (vm_compute in E; injection E as <-; reflexivity).
    subst k. split; [ exact E | exact R ].
  - destruct (cost_estimate_formula
                {[ "complexity_score" :=
                     Double.PyFloat (Double.ratio 8142525 1000000) ]}
                "gaming" [] []) as [F _];
      [ reflexivity | reflexivity | reflexivity | ].
    destruct (F (Double.ratio 8142525 1000000)) as (k & E & R);
      [ reflexivity | ].
    assert (K : k = S754_finite false 7162262723797975 (-42))
      by (vm_compute in E; injection E as <-; reflexivity).
    subst k. split; [ exact E | ].
    assert (V : SpecDouble.formula "gaming" (Double.ratio 8142525 1000000)
                  (Z.of_nat 0) (Z.of_nat 0)
                = S754_finite false 7162240733565420 (-42))
      by (vm_compute; reflexivity).
    split; [ exact V | rewrite <- V; exact R ].
Defined.

(** On the score 8.142525 the estimate in decimal arithmetic is 1628.50: the
    product is 1628.505 exactly, a tie, where the double the program
    computes lies above it.  The two models of the estimator differ by this
    cent. *)
Lemma cost_estimate_decimal_off_by_a_cent :
  AdvancedStoryAnalyzer._calculate_cost_estimate
    (VDict {[ "complexity_score" := VNum 8.142525 ]}) "gaming"
  = Ok (162850 # 100)
  /\ Double._calculate_cost_estimate
       (Double.PyDict
          {[ "complexity_score" :=
               Double.PyFloat (Double.ratio 8142525 1000000) ]}) "gaming"
     = Ok (S754_finite false 7162262723797975 (-42))
  /\ Double.ratio 162851 100 = S754_finite false 7162262723797975 (-42)
  /\ Double.ratio 8142525 1000000
     = S754_finite false 4583834069481868 (-49).
Proof. repeat split; vm_compute; reflexivity. Qed.

(** [cost_estimate_monotone] on two analyses with score 4 and with one and
    three objects. *)
Lemma cost_estimate_monotone_witness :
  exists k1 k2,
    AdvancedStoryAnalyzer._calculate_cost_estimate
      (StoryAnalysis.dict (Example.story ["knight"] ["sword"] 4)) "education"
    = Ok k1
    /\ AdvancedStoryAnalyzer._calculate_cost_estimate
         (StoryAnalysis.dict
            (Example.story ["knight"] ["sword"; "chest"; "crystal"] 4))
         "education"
       = Ok k2
    /\ (k1 <= k2)%Q.
Proof.
  destruct (cost_estimate_monotone
              (Example.story ["knight"] ["sword"] 4)
              (Example.story ["knight"] ["sword"; "chest"; "crystal"] 4)
              "education")
    as (k1 & k2 & E1 & E2 & _ & _ & M).
  exists k1, k2. split; [ exact E1 | ]. split; [ exact E2 | ].
  apply M.
  - discriminate.
  - reflexivity.
  - simpl. lia.
Defined.

(** With score -5 the estimate falls from -1000.00 to -2000.00 when ten
    objects are added. *)
Lemma cost_estimate_decreasing_in_count :
  AdvancedStoryAnalyzer._calculate_cost_estimate
    (StoryAnalysis.dict (Example.story [] [] (-5))) "gaming"
  = Ok (-1000.00)%Q
  /\ AdvancedStoryAnalyzer._calculate_cost_estimate
       (StoryAnalysis.dict
          (Example.story [] ["a"; "b"; "c"; "d"; "e"; "f"; "g"; "h"; "i"; "j"]
             (-5)))
       "gaming"
     = Ok (-2000.00)%Q
  /\ ~ (-1000.00 <= -2000.00)%Q.
Proof.
  split; [ vm_compute; reflexivity | ].
  split; [ vm_compute; reflexivity | ].
  intros L. apply (Qle_not_lt _ _ L). reflexivity.
Qed.

(** [scene_composition_layout] on five characters and seven objects. *)
Lemma scene_composition_layout_witness :
  let elements :=
    SceneComposition.elements
      (ThreeDGenerator.generate_scene_composition ThreeDGenerator.__init__
         "3f2b8c1a-0d4e-4f6a-9b7c-5e1d2a3b4c5d"
         (Example.story Example.crowd Example.hoard 6)).1 in
  let characters :=
    filter (fun e => SceneElement.type e = "character") elements in
  let props := filter (fun e => SceneElement.type e = "prop") elements in
  length elements = 8%nat
  /\ length characters = 3%nat
  /\ length props = 5%nat
  /\ SceneElement.name <$> characters = ["a"; "b"; "c"]
  /\ SceneElement.position <$> characters
     = [ {[ "x" := 0; "y" := 0; "z" := 0 ]};
         {[ "x" := 3; "y" := 0; "z" := 2 ]};
         {[ "x" := -2; "y" := 0; "z" := 1 ]} ]%Q
  /\ SceneElement.name <$> props = ["p"; "q"; "r"; "s"; "t"]
  /\ (forall (i : nat) (e : SceneElement.t),
        props !! i = Some e ->
        SceneElement.position e
        = {[ "x" := inject_Z (Z.of_nat i) * 1.5 - 3;
             "y" := 0;
             "z" := inject_Z (Z.of_nat i mod 2 * 2) ]}%Q).
Proof.
  apply (scene_composition_layout ThreeDGenerator.__init__
           "3f2b8c1a-0d4e-4f6a-9b7c-5e1d2a3b4c5d"
           (Example.story Example.crowd Example.hoard 6)); simpl; lia.
Defined.

(** [tracker_updates] on the tracker [__init__] builds. *)
Lemma tracker_updates_witness :
  (exists response tracker',
     analyze_story Json.loads BusinessTracker.__init__ Example.unreachable
       (Example.request "a knight" "gaming") = (Ok response, tracker')
     /\ tracker'
        = BusinessTracker.mk 0
            (<["analyze" := 1%Z]>
               (BusinessTracker.api_calls BusinessTracker.__init__))
            (0.0 + AnalysisResponse.cost_savings response)%Q)
  /\ (forall generator uuid elapsed request,
        exists result generator',
          generate_scene generator BusinessTracker.__init__ uuid elapsed request
          = (Ok result, generator',
             BusinessTracker.mk 1
               (<["generate_3d" := 1%Z]>
                  (BusinessTracker.api_calls BusinessTracker.__init__))
               0.0%Q)).
Proof.
  assert (W : BusinessTracker.wf BusinessTracker.__init__)
    by (split; vm_compute; eauto).
  destruct (tracker_updates Json.loads BusinessTracker.__init__ W) as [A G].
  split.
  - destruct (A Example.unreachable (Example.request "a knight" "gaming"))
      as (response & tracker' & n & E & N & S & _).
    exists response, tracker'. split; [ exact E | ].
    injection N as <-. apply S.
    vm_compute in E. injection E as <- _. reflexivity.
  - intros generator uuid elapsed request.
    destruct (G generator uuid elapsed request)
      as (result & generator' & n & N & E).
    exists result, generator'. injection N as <-. exact E.
Defined.

(** A reply that decodes but does not validate is answered with the canned
    analysis and [success = false], and the tracker is not notified. *)
Lemma tracker_not_notified :
  exists response,
    analyze_story Json.loads BusinessTracker.__init__
      (Example.reply Example.partial_completion)
      (Example.request "a knight" "gaming")
    = (Ok response, BusinessTracker.__init__)
    /\ AnalysisResponse.success response = false
    /\ AnalysisResponse.engine response = "fallback"
    /\ AnalysisResponse.cost_savings response = 1500.0%Q
    /\ BusinessTracker.api_calls BusinessTracker.__init__ !! "analyze"
       = Some 0%Z.
Proof.
  eexists. split; [ vm_compute; reflexivity | ].
  repeat split; reflexivity.
Qed.



(** * Further properties of the source *)

(** ** The sanitizer's text *)

Section SanitizerText.

Lemma append_empty_r (s : string) : s ++ EmptyString = s.
Proof.
  induction s as [ | a s IH]; [ reflexivity | ].
  rewrite append_cons, IH. reflexivity.
Qed.

Lemma part_of_refl (s : string) : part_of s s.
Proof. exists EmptyString, EmptyString. rewrite append_empty_r. reflexivity. Qed.

Lemma part_of_trans (t s u : string) : part_of t s -> part_of s u -> part_of t u.
Proof.
  intros (p1 & q1 & ->) (p2 & q2 & ->).
  exists (p2 ++ p1), (q1 ++ q2). rewrite !append_assoc. reflexivity.
Qed.

Lemma part_of_suffix (pre s : string) : part_of s (pre ++ s).
Proof. exists pre, EmptyString. rewrite append_empty_r. reflexivity. Qed.

Lemma part_of_prefix (s post : string) : part_of s (s ++ post).
Proof. exists EmptyString, post. reflexivity. Qed.

Lemma lstrip_suffix (s : string) : exists pre, s = pre ++ lstrip s.
Proof.
  induction s as [ | a s (pre & IH)]; [ exists EmptyString; reflexivity | ].
  cbn [lstrip]. destruct (isspace a).
  - exists (String a pre). rewrite append_cons, <- IH. reflexivity.
  - exists EmptyString. reflexivity.
Qed.

Lemma rstrip_prefix (s : string) : exists post, s = rstrip s ++ post.
Proof.
  induction s as [ | a s (post & IH)]; [ exists EmptyString; reflexivity | ].
  cbn [rstrip]. destruct (rstrip s) as [ | b r ] eqn:R.
  - destruct (isspace a).
    + exists (String a s). reflexivity.
    + exists post. rewrite append_cons, append_empty. rewrite append_empty in IH.
      rewrite <- IH. reflexivity.
  - exists post. rewrite append_cons, <- IH. reflexivity.
Qed.

Lemma strip_part (s : string) : part_of (strip s) s.
Proof.
  unfold strip. destruct (lstrip_suffix s) as (pre & E).
  destruct (rstrip_prefix (lstrip s)) as (post & F).
  exists pre, post. rewrite <- F. exact E.
Qed.

Lemma strip_prefix_append (p s r : string) :
  Spec.strip_prefix p s = Some r -> s = p ++ r.
Proof.
  revert s. induction p as [ | a p IH]; intros s; cbn [Spec.strip_prefix].
  - intros [= <-]. reflexivity.
  - destruct s as [ | b s]; [ discriminate | ].
    destruct (Ascii.eqb_spec a b) as [ <- | ]; [ | discriminate ].
    intros P. rewrite append_cons, <- (IH _ P). reflexivity.
Qed.

Lemma strip_suffix_inv (p s r : string) :
  Spec.strip_suffix p s = Some r -> s = r ++ p.
Proof.
  revert r. induction s as [ | a s IH]; intros r; cbn [Spec.strip_suffix].
  - destruct (String.eqb_spec EmptyString p) as [ <- | ]; [ | discriminate ].
    intros [= <-]. reflexivity.
  - destruct (String.eqb_spec (String a s) p) as [ <- | ].
    + intros [= <-]. reflexivity.
    + destruct (Spec.strip_suffix p s) as [ r' | ]; [ | discriminate ].
      cbn [fmap option_fmap option_map]. intros [= <-].
      rewrite append_cons, <- (IH _ eq_refl). reflexivity.
Qed.

Lemma unfence_part (s : string) : part_of (Spec.unfence s) s.
Proof.
  unfold Spec.unfence.
  assert (A : part_of (default s (Spec.strip_prefix "```json" s)) s).
  { destruct (Spec.strip_prefix "```json" s) as [ r | ] eqn:P;
      cbn [from_option id]; [ | apply part_of_refl ].
    rewrite (strip_prefix_append _ _ _ P). apply part_of_suffix. }
  eapply part_of_trans; [ | exact A ].
  generalize (default s (Spec.strip_prefix "```json" s)). intros s1.
  destruct (Spec.strip_suffix "```" s1) as [ r | ] eqn:P;
    cbn [from_option id]; [ | apply part_of_refl ].
  apply strip_suffix_inv in P. subst s1. apply part_of_prefix.
Qed.

Lemma from_first_inv (c : ascii) (s r : string) :
  Spec.from_first c s = Some r ->
  exists pre rest, s = pre ++ r /\ r = String c rest.
Proof.
  induction s as [ | a s IH]; cbn [Spec.from_first]; [ discriminate | ].
  destruct (Ascii.eqb_spec a c) as [ -> | ].
  - intros [= <-]. exists EmptyString, s. split; reflexivity.
  - intros F. destruct (IH F) as (pre & rest & -> & ->).
    exists (String a pre), rest. split; reflexivity.
Qed.

Lemma upto_last_inv (c : ascii) (s r : string) :
  Spec.upto_last c s = Some r ->
  exists body post, s = r ++ post /\ r = body ++ String c EmptyString
                    /\ (forall a s', s = String a s' -> exists r', r = String a r').
Proof.
  revert r. induction s as [ | a s IH]; intros r; cbn [Spec.upto_last];
    [ discriminate | ].
  destruct (Spec.upto_last c s) as [ r' | ] eqn:U.
  - intros [= <-]. destruct (IH _ eq_refl) as (body & post & -> & -> & _).
    exists (String a body), post. repeat split.
    intros a' s' [= <- <-]. eauto.
  - destruct (Ascii.eqb_spec a c) as [ -> | ]; [ | discriminate ].
    intros [= <-]. exists EmptyString, s. repeat split.
    intros a' s' [= <- <-]. eauto.
Qed.

Lemma braces_inv (s r : string) :
  Spec.braces s = Some r ->
  part_of r s
  /\ exists body, r = body ++ "}" /\ exists rest, r = String "{" rest.
Proof.
  unfold Spec.braces.
  destruct (Spec.from_first "{" s) as [ t | ] eqn:F; [ | discriminate ].
  cbn [mbind option_bind]. intros U.
  destruct (from_first_inv _ _ _ F) as (pre & rest & -> & ->).
  destruct (upto_last_inv _ _ _ U) as (body & post & E & -> & H).
  split.
  - exists pre, post. rewrite E. reflexivity.
  - exists body. split; [ reflexivity | ].
    destruct (H _ _ eq_refl) as (r' & ->). eauto.
Qed.

Lemma endswith_append (s p : string) :
  (0 < String.length p)%nat -> endswith (s ++ p) p = true.
Proof.
  intros Hp.
  pose proof (strip_suffix_endswith p (s ++ p) Hp) as E.
  rewrite strip_suffix_append in E.
  destruct (endswith (s ++ p) p); [ reflexivity | discriminate ].
Qed.

End SanitizerText.

(** X1.  Text the sanitizer returns is a contiguous part of the completion,
    and it decodes or runs from an opening brace to a closing brace: nothing
    is invented. *)
Theorem clean_json_response_returns_part (json_loads : string -> result value)
    (raw t : string) :
  AdvancedStoryAnalyzer._clean_json_response json_loads raw = Ok t ->
  (exists pre post, raw = pre ++ t ++ post)
  /\ ((exists v, json_loads t = Ok v)
      \/ (startswith t "{" = true /\ endswith t "}" = true)).
Proof.
  intros C. pose proof (clean_text json_loads raw) as T. rewrite C in T.
  cbn [succeeded] in T.
  assert (P : part_of (Spec.unfence (strip raw)) raw)
    by (eapply part_of_trans; [ apply unfence_part | apply strip_part ]).
  destruct (json_loads (Spec.unfence (strip raw))) as [ v | e ] eqn:L.
  - injection T as ->. split; [ exact P | left; eauto ].
  - symmetry in T. destruct (braces_inv _ _ T) as (Q & body & E & rest & F).
    split; [ exact (part_of_trans _ _ _ Q P) | right ].
    split.
    + rewrite F. destruct rest; reflexivity.
    + rewrite E. apply endswith_append. simpl. lia.
Qed.

(** X2.  The trimmed and unfenced text, the one the sanitizer hands to the
    decoder, is a contiguous part of the completion; and the sanitizer
    raises [e] exactly when the decoder raises [e] on that text and the text
    has no opening brace or no closing brace at or after its first opening
    brace. *)
Theorem clean_json_response_reraises (json_loads : string -> result value)
    (raw : string) (e : exn) :
  let json_str := strip raw in
  let json_str :=
    if startswith json_str "```json" then slice json_str (Some 7%Z) None
    else json_str in
  let json_str :=
    if endswith json_str "```" then slice json_str None (Some (-3)%Z)
    else json_str in
  (exists pre post, raw = pre ++ json_str ++ post)
  /\ (AdvancedStoryAnalyzer._clean_json_response json_loads raw = Raise e
      <-> json_loads json_str = Raise e
          /\ ((find json_str "{" = -1)%Z
              \/ (rfind json_str "}" < find json_str "{")%Z)).
Proof.
  cbv zeta. unfold AdvancedStoryAnalyzer._clean_json_response.
  pose proof (unfence_slices (strip raw)) as U. cbv zeta in U. rewrite U.
  set (s := Spec.unfence (strip raw)).
  split.
  { eapply part_of_trans; [ apply unfence_part | apply strip_part ]. }
  assert (F : (find s "{" = -1)%Z \/ (0 <= find s "{")%Z).
  { unfold find.
    destruct (find_from_shift "{" s 0) as [[E _] | [B _]];
      [ left; exact E | right; lia ]. }
  destruct (json_loads s) as [ v | e' ] eqn:L.
  { split; [ discriminate | intros [D _]; discriminate ]. }
  destruct (Z.leb_spec 0 (find s "{")); cbn [andb].
  - destruct (Z.ltb_spec (find s "{") (rfind s "}" + 1)).
    + split; [ discriminate | intros [_ [ N | N ]]; lia ].
    + split; [ intros [= <-] | intros [[= <-] _] ]; [ | reflexivity ].
      split; [ reflexivity | right; lia ].
  - split; [ intros [= <-] | intros [[= <-] _] ]; [ | reflexivity ].
    split; [ reflexivity | left ].
    destruct F as [ F | F ]; [ exact F | lia ].
Qed.

(** ** The estimate: defaults, sign, unknown industries *)

Section EstimateFacts.
#[local] Open Scope Q_scope.

Lemma round_half_even_Z (n : Z) : round_half_even (inject_Z n) = n.
Proof.
  unfold round_half_even. rewrite Qfloor_Z.
  assert (C : (inject_Z n - inject_Z n ?= 1 # 2) = Lt).
  { apply (proj1 (Qlt_alt _ _)). unfold Qlt. simpl. lia. }
  rewrite C. reflexivity.
Qed.

(** A number of hundredths is its own rounding. *)
Lemma round2_exact (x : Q) (n : Z) : x * 100 == inject_Z n -> round2 x == x.
Proof.
  intros E. unfold round2.
  rewrite (round_half_even_compat _ _ E), round_half_even_Z.
  assert (F : x == inject_Z n / 100) by (rewrite <- E; field).
  rewrite F. unfold Qeq. simpl. lia.
Qed.

Lemma round2_zero : round2 0 = 0 # 100.
Proof. reflexivity. Qed.

Lemma estimate_sign (industry : string) (x : Q) (cc oc : Z) :
  (0 <= cc + oc)%Z ->
  (0 <= x -> 0 <= Spec.estimate industry x cc oc)
  /\ (x <= 0 -> Spec.estimate industry x cc oc <= 0).
Proof.
  intros Hn.
  assert (Z0 : Spec.estimate industry 0 cc oc == 0).
  { unfold Spec.estimate.
    rewrite (round2_compat _ 0); [ reflexivity | ].
    unfold Qdiv. ring. }
  split; intros L.
  - rewrite <- Z0. apply estimate_mono_complexity; assumption.
  - rewrite <- Z0. apply estimate_mono_complexity; assumption.
Qed.
End EstimateFacts.

(** X3.  A dictionary without a score and without the two lists is priced
    with the defaults, score 5 and no elements: a fifth of the industry's
    base cost (1000 for gaming, 600 for education and for industries the
    table does not list, 1600 for architecture, 400 for ecommerce). *)
Theorem cost_estimate_defaults (m : gmap string value) (industry : string) :
  m !! "complexity_score" = None ->
  m !! "characters" = None ->
  m !! "objects" = None ->
  exists k,
    AdvancedStoryAnalyzer._calculate_cost_estimate (VDict m) industry = Ok k
    /\ (k == inject_Z (default 3000%Z
                         (AdvancedStoryAnalyzer.base_costs !! industry)) / 5)%Q.
Proof.
  intros X C O. rewrite cost_estimate_eq, X, C, O.
  cbn [default from_option id Value.py_len Value.number mbind result_bind length].
  eexists. split; [ reflexivity | ].
  unfold Spec.estimate. rewrite <- base_costs_lookup.
  set (b := default 3000%Z (AdvancedStoryAnalyzer.base_costs !! industry)).
  rewrite (round2_compat _ (inject_Z b / 5)%Q).
  - apply (round2_exact _ (20 * b)). rewrite inject_Z_mult. field.
  - change (inject_Z (Z.of_nat 0 + Z.of_nat 0)) with 0%Q. field.
Qed.

(** X4.  The sign of the estimate is the sign of the score: a score that is
    not negative is never priced below zero, a score that is not positive
    never above. *)
Theorem cost_estimate_sign (m : gmap string value) (industry : string)
    (x k : Q) :
  Value.number (default (VNum 5) (m !! "complexity_score")) = Ok x ->
  AdvancedStoryAnalyzer._calculate_cost_estimate (VDict m) industry = Ok k ->
  ((0 <= x)%Q -> (0 <= k)%Q) /\ ((x <= 0)%Q -> (k <= 0)%Q).
Proof.
  intros X K. rewrite cost_estimate_eq, X in K.
  destruct (Value.py_len (default (VList []) (m !! "characters")))
    as [ cc | ] eqn:C; cbn [mbind result_bind] in K; [ | discriminate ].
  destruct (Value.py_len (default (VList []) (m !! "objects")))
    as [ oc | ] eqn:O; cbn [mbind result_bind] in K; [ | discriminate ].
  injection K as <-. apply estimate_sign.
  assert (N : forall v n, Value.py_len v = Ok n -> (0 <= n)%Z).
  { intros [ | | | s | l | d ] n; cbn [Value.py_len]; try discriminate;
      intros [= <-]; unfold len; lia. }
  pose proof (N _ _ C). pose proof (N _ _ O). lia.
Qed.

(** X5.  For no industry is the cost written in the canned analysis the
    estimator's value for that analysis: the estimator gives 2250 for gaming,
    1530 for education, 3600 for architecture, 900 for ecommerce and 1350 for
    any other industry, the canned analysis says 1500. *)
Theorem fallback_cost_is_not_the_estimate (story_text industry : string) :
  exists k,
    AdvancedStoryAnalyzer._calculate_cost_estimate
      (AdvancedStoryAnalyzer.get_fallback_analysis story_text industry) industry
    = Ok k
    /\ ~ (k == 1500.0)%Q
    /\ (k == 2250 \/ k == 1530 \/ k == 3600 \/ k == 900 \/ k == 1350)%Q.
Proof.
  unfold AdvancedStoryAnalyzer.get_fallback_analysis.
  destruct (String.eqb_spec industry "education") as [ -> | N1 ].
  { eexists. split; [ vm_compute; reflexivity | ].
    split; [ discriminate | right; left; reflexivity ]. }
  destruct (String.eqb_spec industry "architecture") as [ -> | N2 ].
  { eexists. split; [ vm_compute; reflexivity | ].
    split; [ discriminate | right; right; left; reflexivity ]. }
  rewrite cost_estimate_eq.
  replace (_ !! "characters") with (Some (VList [VStr "knight"; VStr "dragon"]))
    by reflexivity.
  replace (_ !! "objects")
    with (Some (VList [VStr "sword"; VStr "treasure chest"; VStr "magic crystal"]))
    by reflexivity.
  replace (_ !! "complexity_score") with (Some (VNum 7.5)) by reflexivity.
  cbn [default from_option id Value.py_len Value.number mbind result_bind length].
  eexists. split; [ reflexivity | ].
  unfold Spec.estimate, Spec.base_cost.
  destruct (String.eqb industry "gaming");
    [ split; [ discriminate | left; reflexivity ] | ].
  destruct (String.eqb industry "education");
    [ split; [ discriminate | do 4 right; reflexivity ] | ].
  destruct (String.eqb industry "architecture");
    [ split; [ discriminate | right; right; left; reflexivity ] | ].
  destruct (String.eqb industry "ecommerce");
    [ split; [ discriminate | do 3 right; left; reflexivity ] | ].
  split; [ discriminate | do 4 right; reflexivity ].
Qed.

(** ** The analyzer's dictionary *)

Section AnalyzerFacts.
Variable json_loads : string -> result value.

Lemma mapM_as_str_inv (l : list value) (l' : list string) :
  mapM StoryAnalysis.as_str l = Ok l' -> l = VStr <$> l'.
Proof.
  revert l'. induction l as [ | v l IH]; intros l'; cbn [mapM].
  - intros [= <-]. reflexivity.
  - destruct v as [ | | | s | | ]; cbn [StoryAnalysis.as_str mbind result_bind];
      try discriminate.
    destruct (mapM StoryAnalysis.as_str l) as [ k | e ];
      cbn [mbind result_bind]; [ | discriminate ].
    intros [= <-]. rewrite (IH k eq_refl). reflexivity.
Qed.

(** The descriptive entries of a dictionary that validates. *)
Lemma new_content_inv (d : gmap string value) (a : StoryAnalysis.t) :
  StoryAnalysis.new (VDict d) = Ok a ->
  d !! "characters" = Some (VList (VStr <$> StoryAnalysis.characters a))
  /\ d !! "setting" = Some (VStr (StoryAnalysis.setting a))
  /\ d !! "objects" = Some (VList (VStr <$> StoryAnalysis.objects a))
  /\ d !! "mood" = Some (VStr (StoryAnalysis.mood a))
  /\ d !! "actions" = Some (VList (VStr <$> StoryAnalysis.actions a)).
Proof.
  unfold StoryAnalysis.new, StoryAnalysis.field. intros H.
  destruct (d !! "characters") as [ [ | | | | l1 | ] | ];
    cbn [mbind result_bind StoryAnalysis.as_str_list] in H; try discriminate.
  destruct (mapM StoryAnalysis.as_str l1) as [ x1 | ] eqn:E1;
    cbn [mbind result_bind] in H; [ | discriminate ].
  destruct (d !! "setting") as [ [ | | | x2 | | ] | ];
    cbn [mbind result_bind StoryAnalysis.as_str] in H; try discriminate.
  destruct (d !! "objects") as [ [ | | | | l3 | ] | ];
    cbn [mbind result_bind StoryAnalysis.as_str_list] in H; try discriminate.
  destruct (mapM StoryAnalysis.as_str l3) as [ x3 | ] eqn:E3;
    cbn [mbind result_bind] in H; [ | discriminate ].
  destruct (d !! "mood") as [ [ | | | x4 | | ] | ];
    cbn [mbind result_bind StoryAnalysis.as_str] in H; try discriminate.
  destruct (d !! "actions") as [ [ | | | | l5 | ] | ];
    cbn [mbind result_bind StoryAnalysis.as_str_list] in H; try discriminate.
  destruct (mapM StoryAnalysis.as_str l5) as [ x5 | ] eqn:E5;
    cbn [mbind result_bind] in H; [ | discriminate ].
  destruct (d !! "complexity_score") as [ v6 | ];
    cbn [mbind result_bind] in H; [ | discriminate ].
  destruct (StoryAnalysis.as_float v6) as [ x6 | ];
    cbn [mbind result_bind] in H; [ | discriminate ].
  destruct (d !! "estimated_render_cost") as [ v7 | ];
    cbn [mbind result_bind] in H; [ | discriminate ].
  destruct (StoryAnalysis.as_float v7) as [ x7 | ];
    cbn [mbind result_bind] in H; [ | discriminate ].
  injection H as <-. cbn.
  rewrite (mapM_as_str_inv _ _ E1), (mapM_as_str_inv _ _ E3),
    (mapM_as_str_inv _ _ E5).
  repeat split; reflexivity.
Qed.
End AnalyzerFacts.

(** X6.  The analyzer answers [None] or a dictionary, never another value,
    and the dictionary holds both derived entries: a number under
    [estimated_render_cost], and under [complexity_score] a number that is
    at most 10. *)
Theorem analyze_with_llama_result (json_loads : string -> result value)
    (post : result Response.t) (story_text industry : string) :
  AdvancedStoryAnalyzer.analyze_with_llama json_loads post story_text industry
  = VNone
  \/ exists d cost score x,
       AdvancedStoryAnalyzer.analyze_with_llama json_loads post story_text
         industry = VDict d
       /\ d !! "estimated_render_cost" = Some (VNum cost)
       /\ d !! "complexity_score" = Some score
       /\ Value.number score = Ok x
       /\ (x <= 10)%Q.
Proof.
  destruct (analyze_with_llama_cases json_loads post story_text industry)
    as [ E | (m & cost & capped & R & K & M & E) ]; [ left; exact E | right ].
  unfold Value.py_min in M.
  destruct (Value.number (default (VNum 5) (m !! "complexity_score")))
    as [ x0 | ] eqn:X; cbn [mbind result_bind] in M; [ | discriminate ].
  injection M as <-.
  destruct (Qle_bool (inject_Z 10) x0) eqn:B.
  - eexists _, cost, (VNum (inject_Z 10)), (inject_Z 10).
    split; [ exact E | ].
    rewrite lookup_insert_ne, !lookup_insert_eq by discriminate.
    repeat split; try assumption. apply Qle_refl.
  - eexists _, cost, (default (VNum 5) (m !! "complexity_score")), x0.
    split; [ exact E | ].
    rewrite lookup_insert_ne, !lookup_insert_eq by discriminate.
    repeat split; try assumption.
    apply Qnot_lt_le. intros L.
    apply Qlt_le_weak, Qle_bool_iff in L.
    change (inject_Z 10) with 10%Q in B. congruence.
Qed.

(** X7.  A dictionary the analyzer answers stems from a status-200 reply
    that cleaned and decoded to a dictionary, and every entry of that
    dictionary other than the two derived ones, a field of the analysis or
    not, is carried over unchanged. *)
Theorem analyze_with_llama_carries_over (json_loads : string -> result value)
    (post : result Response.t) (story_text industry : string)
    (d : gmap string value) :
  AdvancedStoryAnalyzer.analyze_with_llama json_loads post story_text industry
  = VDict d ->
  exists m,
    model_reply json_loads post m
    /\ forall key,
         key <> "estimated_render_cost" -> key <> "complexity_score" ->
         d !! key = m !! key.
Proof.
  intros D.
  destruct (analyze_with_llama_cases json_loads post story_text industry)
    as [ E | (m & cost & capped & R & K & M & E) ]; rewrite E in D;
    [ discriminate | ].
  injection D as <-. exists m. split; [ exact R | ].
  intros key N1 N2. rewrite !lookup_insert_ne by congruence. reflexivity.
Qed.

(** X8.  A reply that decodes to a dictionary whose complexity score is not a
    number, or one of whose two lists has no length, is discarded whole: the
    analyzer answers [None]. *)
Theorem analyze_with_llama_discards (json_loads : string -> result value)
    (post : result Response.t) (story_text industry : string)
    (m : gmap string value) :
  model_reply json_loads post m ->
  succeeded (Value.number (default (VNum 5) (m !! "complexity_score"))) = None
  \/ succeeded (Value.py_len (default (VList []) (m !! "characters"))) = None
  \/ succeeded (Value.py_len (default (VList []) (m !! "objects"))) = None ->
  AdvancedStoryAnalyzer.analyze_with_llama json_loads post story_text industry
  = VNone.
Proof.
  intros [response body raw json_str -> S J G C L] F.
  assert (K : succeeded
                (AdvancedStoryAnalyzer._calculate_cost_estimate (VDict m)
                   industry) = None).
  { rewrite cost_estimate_eq.
    destruct (Value.py_len (default (VList []) (m !! "characters")));
      cbn [mbind result_bind succeeded] in *; [ | reflexivity ].
    destruct (Value.py_len (default (VList []) (m !! "objects")));
      cbn [mbind result_bind succeeded] in *; [ | reflexivity ].
    destruct (Value.number (default (VNum 5) (m !! "complexity_score")));
      cbn [mbind result_bind succeeded] in *; [ | reflexivity ].
    destruct F as [ F | [ F | F ] ]; discriminate. }
  unfold AdvancedStoryAnalyzer.analyze_with_llama.
  cbn [mbind result_bind]. rewrite S. change (200 =? 200)%Z with true.
  cbv iota. rewrite J. cbn [mbind result_bind]. rewrite G.
  cbn [mbind result_bind AdvancedStoryAnalyzer.as_text]. rewrite C.
  cbn [mbind result_bind]. rewrite L. cbn [mbind result_bind].
  destruct (AdvancedStoryAnalyzer._calculate_cost_estimate (VDict m) industry);
    [ discriminate | reflexivity ].
Qed.

(** X9.  On the model path the descriptive fields of the analysis returned
    are the reply's, as they are: characters, setting, objects, mood and
    actions are not rewritten. *)
Theorem model_path_content (json_loads : string -> result value)
    (tracker tracker' : BusinessTracker.t) (post : result Response.t)
    (request : StoryRequest.t) (response : AnalysisResponse.t) :
  analyze_story json_loads tracker post request = (Ok response, tracker') ->
  AnalysisResponse.engine response = "llama_enhanced" ->
  let a := AnalysisResponse.analysis response in
  exists m,
    model_reply json_loads post m
    /\ m !! "characters" = Some (VList (VStr <$> StoryAnalysis.characters a))
    /\ m !! "setting" = Some (VStr (StoryAnalysis.setting a))
    /\ m !! "objects" = Some (VList (VStr <$> StoryAnalysis.objects a))
    /\ m !! "mood" = Some (VStr (StoryAnalysis.mood a))
    /\ m !! "actions" = Some (VList (VStr <$> StoryAnalysis.actions a)).
Proof.
  intros E G. cbv zeta.
  pose proof (analyze_story_outcome json_loads tracker post request) as O.
  rewrite E in O.
  inversion O as [ data a tracker0 Ne D B N T | a tracker0 Ne B V T | a C V ];
    subst; cbn in G; try discriminate.
  cbn [AnalysisResponse.analysis].
  destruct (analyze_with_llama_cases json_loads post
              (strip (StoryRequest.text request)) (StoryRequest.industry request))
    as [ Z | (m & cost & capped & R & K & M & Z) ]; rewrite Z in N;
    [ discriminate | ].
  apply new_content_inv in N as (C1 & C2 & C3 & C4 & C5).
  rewrite !lookup_insert_ne in C1, C2, C3, C4, C5 by discriminate.
  exists m. repeat split; assumption.
Qed.

(** ** The scene composer and the store *)

Section ComposerFacts.

Lemma imap_name_character (l : list string) :
  SceneElement.name <$> imap ThreeDGenerator.character_element l = l.
Proof.
  rewrite fmap_imap.
  rewrite (imap_ext _ (const id)) by reflexivity.
  rewrite imap_const. apply list_fmap_id.
Qed.

Lemma imap_name_prop (l : list string) :
  SceneElement.name <$> imap ThreeDGenerator.prop_element l = l.
Proof.
  rewrite fmap_imap.
  rewrite (imap_ext _ (const id)) by reflexivity.
  rewrite imap_const. apply list_fmap_id.
Qed.

Lemma fmap_const_replicate {A B} (x : B) (l : list A) :
  (fun _ => x) <$> l = replicate (length l) x.
Proof.
  induction l as [ | a l IH]; [ reflexivity | ].
  change ((fun _ : A => x) <$> a :: l) with (x :: ((fun _ : A => x) <$> l)).
  rewrite IH. reflexivity.
Qed.

Lemma imap_type_character (l : list string) :
  SceneElement.type <$> imap ThreeDGenerator.character_element l
  = replicate (length l) "character".
Proof.
  rewrite fmap_imap.
  rewrite (imap_ext _ (const (fun _ => "character"))) by reflexivity.
  rewrite imap_const. apply fmap_const_replicate.
Qed.

Lemma imap_type_prop (l : list string) :
  SceneElement.type <$> imap ThreeDGenerator.prop_element l
  = replicate (length l) "prop".
Proof.
  rewrite fmap_imap.
  rewrite (imap_ext _ (const (fun _ => "prop"))) by reflexivity.
  rewrite imap_const. apply fmap_const_replicate.
Qed.

Lemma composition_elements (self : ThreeDGenerator.t) (uuid : string)
    (analysis : StoryAnalysis.t) :
  SceneComposition.elements
    (ThreeDGenerator.generate_scene_composition self uuid analysis).1
  = (imap ThreeDGenerator.character_element
       (take 3 (StoryAnalysis.characters analysis))
     ++ imap ThreeDGenerator.prop_element
          (take 5 (StoryAnalysis.objects analysis)))%list.
Proof. reflexivity. Qed.

Lemma composition_stored (self : ThreeDGenerator.t) (uuid : string)
    (analysis : StoryAnalysis.t) :
  ThreeDGenerator.scene_compositions
    (ThreeDGenerator.generate_scene_composition self uuid analysis).2
  = <[slice uuid None (Some 8%Z) :=
        (ThreeDGenerator.generate_scene_composition self uuid analysis).1]>
      (ThreeDGenerator.scene_compositions self).
Proof. reflexivity. Qed.

Lemma generate_scene_parts (generator : ThreeDGenerator.t)
    (tracker : BusinessTracker.t) (uuid : string) (elapsed : Q)
    (request : ThreeDGenerationRequest.t) :
  (generate_scene generator tracker uuid elapsed request).1.2
  = (ThreeDGenerator.generate_scene_composition generator uuid
       (ThreeDGenerationRequest.analysis request)).2
  /\ forall result,
       (generate_scene generator tracker uuid elapsed request).1.1 = Ok result ->
       result
       = ThreeDGenerator.generate_3d_assets
           (ThreeDGenerator.generate_scene_composition generator uuid
              (ThreeDGenerationRequest.analysis request)).1
           (ThreeDGenerationRequest.style request)
           (ThreeDGenerationRequest.quality request) elapsed.
Proof.
  unfold generate_scene.
  destruct (ThreeDGenerator.generate_scene_composition generator uuid
              (ThreeDGenerationRequest.analysis request)) as [c g].
  destruct (BusinessTracker.track_generation tracker); cbn.
  - split; [ reflexivity | ]. intros result [= <-]. reflexivity.
  - split; [ reflexivity | ]. discriminate.
Qed.
End ComposerFacts.

(** X10.  For every analysis the composition lists the first three
    characters and then the first five objects, by name and in order, the
    former typed [character] and the latter [prop]; it never has more than
    eight elements, and none for an analysis without characters and
    objects. *)
Theorem composition_names (self : ThreeDGenerator.t) (uuid : string)
    (analysis : StoryAnalysis.t) :
  let elements :=
    SceneComposition.elements
      (ThreeDGenerator.generate_scene_composition self uuid analysis).1 in
  let nc := (3 `min` length (StoryAnalysis.characters analysis))%nat in
  let np := (5 `min` length (StoryAnalysis.objects analysis))%nat in
  SceneElement.name <$> elements
  = (take 3 (StoryAnalysis.characters analysis)
     ++ take 5 (StoryAnalysis.objects analysis))%list
  /\ SceneElement.type <$> elements
     = (replicate nc "character" ++ replicate np "prop")%list
  /\ length elements = (nc + np)%nat
  /\ (length elements <= 8)%nat.
Proof.
  cbv zeta. rewrite composition_elements.
  rewrite !fmap_app, imap_name_character, imap_name_prop,
    imap_type_character, imap_type_prop.
  rewrite length_app, !length_imap, !length_take.
  repeat split; lia.
Qed.

(** X11.  In every composition the [i]-th element, when it is one of the
    characters, sits at the [i]-th entry of the table of preset positions
    with scale 1; the [j]-th element after the characters is a prop at
    [x = j*1.5 - 3], [y = 0], [z = (j mod 2)*2] with scale 0.5. *)
Theorem composition_positions (self : ThreeDGenerator.t) (uuid : string)
    (analysis : StoryAnalysis.t) (i : nat) (e : SceneElement.t) :
  let nc := (3 `min` length (StoryAnalysis.characters analysis))%nat in
  SceneComposition.elements
    (ThreeDGenerator.generate_scene_composition self uuid analysis).1 !! i
  = Some e ->
  ((i < nc)%nat ->
   SceneElement.type e = "character"
   /\ ThreeDGenerator.char_positions !! i = Some (SceneElement.position e)
   /\ SceneElement.scale e = {[ "x" := 1; "y" := 1; "z" := 1 ]}%Q)
  /\ ((nc <= i)%nat ->
      SceneElement.type e = "prop"
      /\ SceneElement.position e
         = {[ "x" := inject_Z (Z.of_nat (i - nc)) * 1.5 - 3;
              "y" := 0;
              "z" := inject_Z (Z.of_nat (i - nc) mod 2 * 2) ]}%Q
      /\ SceneElement.scale e = {[ "x" := 0.5; "y" := 0.5; "z" := 0.5 ]}%Q).
Proof.
  cbv zeta. rewrite composition_elements. intros L.
  assert (N : length (imap ThreeDGenerator.character_element
                        (take 3 (StoryAnalysis.characters analysis)))
              = (3 `min` length (StoryAnalysis.characters analysis))%nat)
    by (rewrite length_imap, length_take; reflexivity).
  split; intros H.
  - rewrite lookup_app_l, list_lookup_imap in L by lia.
    destruct (take 3 (StoryAnalysis.characters analysis) !! i) as [ c | ];
      [ | discriminate ].
    injection L as <-.
    destruct i as [ | [ | [ | i ] ] ]; [ repeat split .. | lia ].
  - rewrite lookup_app_r, list_lookup_imap, N in L by lia.
    destruct (take 5 (StoryAnalysis.objects analysis) !! (i - _)%nat) as [ o | ];
      [ | discriminate ].
    injection L as <-. repeat split.
Qed.


(** X13.  A generation adds one composition to the store when its scene id
    is new and none when it is taken: for two uuids that agree on their
    first eight characters the second composition replaces the first, which
    can no longer be retrieved. *)
Theorem scene_id_collision (self : ThreeDGenerator.t) (uuid1 uuid2 : string)
    (a1 a2 : StoryAnalysis.t) :
  slice uuid1 None (Some 8%Z) = slice uuid2 None (Some 8%Z) ->
  let first := ThreeDGenerator.generate_scene_composition self uuid1 a1 in
  let second := ThreeDGenerator.generate_scene_composition first.2 uuid2 a2 in
  SceneComposition.scene_id first.1 = SceneComposition.scene_id second.1
  /\ ThreeDGenerator.scene_compositions second.2
       !! SceneComposition.scene_id first.1 = Some second.1
  /\ size (ThreeDGenerator.scene_compositions second.2)
     = size (ThreeDGenerator.scene_compositions first.2)
  /\ (size (ThreeDGenerator.scene_compositions first.2)
      <= S (size (ThreeDGenerator.scene_compositions self)))%nat.
Proof.
  intros E. cbv zeta. rewrite !composition_stored.
  change (SceneComposition.scene_id
            (ThreeDGenerator.generate_scene_composition self uuid1 a1).1)
    with (slice uuid1 None (Some 8%Z)).
  change (SceneComposition.scene_id
            (ThreeDGenerator.generate_scene_composition
               (ThreeDGenerator.generate_scene_composition self uuid1 a1).2
               uuid2 a2).1)
    with (slice uuid2 None (Some 8%Z)).
  rewrite <- E. split; [ reflexivity | ].
  split; [ apply lookup_insert_eq | ].
  split.
  - rewrite (map_size_insert_Some (slice uuid1 None (Some 8%Z)));
      [ reflexivity | ].
    rewrite lookup_insert_eq. eauto.
  - rewrite map_size_insert.
    destruct (_ !! slice uuid1 None (Some 8%Z)); simpl; lia.
Qed.

(** X14.  A scene id without a stored composition is answered with 404, as
    every id is by the generator [__init__] builds; and a generation leaves
    the answer for every id other than its own as it was. *)
Theorem scene_viewer_other_ids (self : ThreeDGenerator.t) (uuid : string)
    (analysis : StoryAnalysis.t) (scene_id : string) :
  (ThreeDGenerator.scene_compositions self !! scene_id = None ->
   get_scene_viewer self scene_id
   = Raise (HTTPException 404 "Scene not found"))
  /\ get_scene_viewer ThreeDGenerator.__init__ scene_id
     = Raise (HTTPException 404 "Scene not found")
  /\ (scene_id <> slice uuid None (Some 8%Z) ->
      get_scene_viewer
        (ThreeDGenerator.generate_scene_composition self uuid analysis).2
        scene_id
      = get_scene_viewer self scene_id).
Proof.
  split; [ | split ].
  - intros N. unfold get_scene_viewer. rewrite N. reflexivity.
  - reflexivity.
  - intros N. unfold get_scene_viewer.
    rewrite composition_stored, lookup_insert_ne by congruence. reflexivity.
Qed.

(** X15.  A call of [generate_scene] that succeeds answers with the first
    eight characters of the uuid as scene id, one mock-model URL per element
    in the order of the composition, 5000 polygons and a cost of 0.25 per
    element, hence at most 40000 polygons and a cost of at most 2. *)
Theorem generate_scene_figures (generator generator' : ThreeDGenerator.t)
    (tracker tracker' : BusinessTracker.t) (uuid : string) (elapsed : Q)
    (request : ThreeDGenerationRequest.t)
    (result : ThreeDGenerationResponse.t) :
  generate_scene generator tracker uuid elapsed request
  = (Ok result, generator', tracker') ->
  let analysis := ThreeDGenerationRequest.analysis request in
  let scene_id := slice uuid None (Some 8%Z) in
  let n := Z.of_nat (length (ThreeDGenerationResponse.model_urls result)) in
  ThreeDGenerationResponse.success result = true
  /\ ThreeDGenerationResponse.scene_id result = scene_id
  /\ ThreeDGenerationResponse.model_urls result
     = (fun name => "/api/mock-model/" ++ scene_id ++ "/" ++ name)
       <$> (take 3 (StoryAnalysis.characters analysis)
            ++ take 5 (StoryAnalysis.objects analysis))%list
  /\ ThreeDGenerationResponse.poly_count result = (n * 5000)%Z
  /\ ThreeDGenerationResponse.estimated_cost result = (0.25 * inject_Z n)%Q
  /\ (n <= 8)%Z
  /\ (ThreeDGenerationResponse.poly_count result <= 40000)%Z
  /\ (ThreeDGenerationResponse.estimated_cost result <= 2)%Q.
Proof.
  intros E. cbv zeta.
  destruct (generate_scene_parts generator tracker uuid elapsed request)
    as [_ R].
  rewrite E in R. specialize (R _ eq_refl). subst result.
  cbn [ThreeDGenerator.generate_3d_assets ThreeDGenerationResponse.success
       ThreeDGenerationResponse.scene_id ThreeDGenerationResponse.model_urls
       ThreeDGenerationResponse.poly_count
       ThreeDGenerationResponse.estimated_cost].
  rewrite composition_elements.
  change (SceneComposition.scene_id
            (ThreeDGenerator.generate_scene_composition generator uuid
               (ThreeDGenerationRequest.analysis request)).1)
    with (slice uuid None (Some 8%Z)).
  set (names := (take 3 _ ++ take 5 _)%list).
  assert (U : (fun element =>
                 "/api/mock-model/" ++ slice uuid None (Some 8%Z) ++ "/"
                 ++ SceneElement.name element)
              <$> (imap ThreeDGenerator.character_element
                     (take 3 (StoryAnalysis.characters
                                (ThreeDGenerationRequest.analysis request)))
                   ++ imap ThreeDGenerator.prop_element
                        (take 5 (StoryAnalysis.objects
                                   (ThreeDGenerationRequest.analysis request))))%list
              = (fun name =>
                   "/api/mock-model/" ++ slice uuid None (Some 8%Z) ++ "/" ++ name)
                <$> names).
  { unfold names.
    rewrite <- (imap_name_character (take 3 _)) at 2.
    rewrite <- (imap_name_prop (take 5 _)) at 2.
    rewrite <- fmap_app, <- list_fmap_compose. reflexivity. }
  rewrite U.
  assert (B : (Z.of_nat (length ((fun name =>
                 "/api/mock-model/" ++ slice uuid None (Some 8%Z) ++ "/" ++ name)
                <$> names)) <= 8)%Z).
  { rewrite length_fmap. unfold names. rewrite length_app, !length_take. lia. }
  repeat split; try assumption; try lia.
  unfold Qle. simpl. lia.
Qed.

(** ** The handlers and the state they share *)

Section HandlerFacts.
Variable json_loads : string -> result value.

(** With its counter present, [analyze_story] answers the same whatever the
    tracker holds, and leaves a tracker that the answer determines. *)
Lemma analyze_story_present (t1 t2 : BusinessTracker.t)
    (post : result Response.t) (request : StoryRequest.t) (n1 n2 : Z) :
  BusinessTracker.api_calls t1 !! "analyze" = Some n1 ->
  BusinessTracker.api_calls t2 !! "analyze" = Some n2 ->
  exists response,
    analyze_story json_loads t1 post request
    = (Ok response,
       if AnalysisResponse.success response then
         BusinessTracker.mk (BusinessTracker.scenes_generated t1)
           (<["analyze" := (n1 + 1)%Z]> (BusinessTracker.api_calls t1))
           (BusinessTracker.total_cost_savings t1
            + AnalysisResponse.cost_savings response)%Q
       else t1)
    /\ analyze_story json_loads t2 post request
       = (Ok response,
          if AnalysisResponse.success response then
            BusinessTracker.mk (BusinessTracker.scenes_generated t2)
              (<["analyze" := (n2 + 1)%Z]> (BusinessTracker.api_calls t2))
              (BusinessTracker.total_cost_savings t2
               + AnalysisResponse.cost_savings response)%Q
          else t2).
Proof.
  intros A1 A2. unfold analyze_story. cbv zeta.
  destruct (fallback_analysis_valid (strip (StoryRequest.text request))
              (StoryRequest.industry request)) as (fb & V & _ & _).
  pose proof (track_analysis_cases t1) as T1. rewrite A1 in T1.
  pose proof (track_analysis_cases t2) as T2. rewrite A2 in T2.
  destruct (String.eqb (strip (StoryRequest.text request)) EmptyString).
  { rewrite V. cbn [mbind result_bind]. eexists (AnalysisResponse.mk false _ _ _ _). split; reflexivity. }
  destruct (Value.truthy _); cbn [negb].
  - destruct (StoryAnalysis.new _) as [ a | e ] eqn:N in |- *;
      cbn [mbind result_bind].
    + rewrite T1, T2. cbn [mbind result_bind].
      eexists (AnalysisResponse.mk true _ _ _ _). split; reflexivity.
    + rewrite V. cbn [mbind result_bind]. eexists (AnalysisResponse.mk false _ _ _ _). split; reflexivity.
  - rewrite V. cbn [mbind result_bind]. rewrite T1, T2.
    cbn [mbind result_bind]. eexists (AnalysisResponse.mk true _ _ _ _). split; reflexivity.
Qed.
End HandlerFacts.

Lemma generate_scene_present (generator : ThreeDGenerator.t)
    (tracker : BusinessTracker.t) (uuid : string) (elapsed : Q)
    (request : ThreeDGenerationRequest.t) (n : Z) :
  BusinessTracker.api_calls tracker !! "generate_3d" = Some n ->
  generate_scene generator tracker uuid elapsed request
  = (Ok (ThreeDGenerator.generate_3d_assets
           (ThreeDGenerator.generate_scene_composition generator uuid
              (ThreeDGenerationRequest.analysis request)).1
           (ThreeDGenerationRequest.style request)
           (ThreeDGenerationRequest.quality request) elapsed),
     (ThreeDGenerator.generate_scene_composition generator uuid
        (ThreeDGenerationRequest.analysis request)).2,
     BusinessTracker.mk (BusinessTracker.scenes_generated tracker + 1)
       (<["generate_3d" := (n + 1)%Z]> (BusinessTracker.api_calls tracker))
       (BusinessTracker.total_cost_savings tracker)).
Proof.
  intros G.
  unfold generate_scene, BusinessTracker.track_generation,
    BusinessTracker.increment.
  rewrite G. reflexivity.
Qed.

(** X16.  A text that is empty once stripped is answered, for every industry
    and whatever the language model would have replied, with the canned
    analysis of that industry under [success = false] and
    [engine = "fallback"], a cost of 1500.0 and the tracker untouched: the
    400 the handler raises for it never leaves the handler. *)
Theorem analyze_story_blank_text (json_loads : string -> result value)
    (tracker : BusinessTracker.t) (post : result Response.t)
    (request : StoryRequest.t) :
  strip (StoryRequest.text request) = EmptyString ->
  exists a,
    StoryAnalysis.new
      (AdvancedStoryAnalyzer.get_fallback_analysis EmptyString
         (StoryRequest.industry request)) = Ok a
    /\ analyze_story json_loads tracker post request
       = (Ok (AnalysisResponse.mk false a "fallback"
                (StoryRequest.industry request) 1500.0),
          tracker)
    /\ StoryAnalysis.characters a = ["knight"; "dragon"]
    /\ StoryAnalysis.complexity_score a = 7.5%Q.
Proof.
  intros B. unfold analyze_story. cbv zeta. rewrite B.
  change (String.eqb EmptyString EmptyString) with true. cbv iota.
  unfold AdvancedStoryAnalyzer.get_fallback_analysis.
  destruct (String.eqb (StoryRequest.industry request) "education");
    [ | destruct (String.eqb (StoryRequest.industry request) "architecture") ];
    (eexists; split; [ vm_compute; reflexivity | ]);
    (split; [ reflexivity | split; reflexivity ]).
Qed.

(** A generation request that nothing interrupts: the two halves, one after
    the other, are [generate_scene]. *)
Lemma generate_scene_halves (generator : ThreeDGenerator.t)
    (tracker : BusinessTracker.t) (uuid : string) (elapsed : Q)
    (request : ThreeDGenerationRequest.t) :
  generate_scene generator tracker uuid elapsed request
  = ((generate_scene_after tracker
        (generate_scene_before generator uuid request).1 elapsed request).1,
     (generate_scene_before generator uuid request).2,
     (generate_scene_after tracker
        (generate_scene_before generator uuid request).1 elapsed request).2).
Proof.
  unfold generate_scene, generate_scene_after, generate_scene_before.
  destruct (ThreeDGenerator.generate_scene_composition generator uuid
              (ThreeDGenerationRequest.analysis request)) as [c g].
  cbn [fst snd].
  destruct (BusinessTracker.track_generation tracker); reflexivity.
Qed.

Lemma generate_scene_after_present (tracker : BusinessTracker.t)
    (composition : SceneComposition.t) (elapsed : Q)
    (request : ThreeDGenerationRequest.t) (n : Z) :
  BusinessTracker.api_calls tracker !! "generate_3d" = Some n ->
  generate_scene_after tracker composition elapsed request
  = (Ok (ThreeDGenerator.generate_3d_assets composition
           (ThreeDGenerationRequest.style request)
           (ThreeDGenerationRequest.quality request) elapsed),
     BusinessTracker.mk (BusinessTracker.scenes_generated tracker + 1)
       (<["generate_3d" := (n + 1)%Z]> (BusinessTracker.api_calls tracker))
       (BusinessTracker.total_cost_savings tracker)).
Proof.
  intros G.
  unfold generate_scene_after, BusinessTracker.track_generation,
    BusinessTracker.increment.
  rewrite G. reflexivity.
Qed.

(** X17.  In every state the server reaches from the objects the module
    creates, by analysis requests and by generation requests that suspend in
    their sleep and resume in any order, the tracker holds exactly its three
    counters, none of them negative; the ["scene_view"] counter is still 0
    and the ["generate_3d"] counter equals [scenes_generated].  The store
    holds at most as many compositions as generations have finished or are
    suspended, and it holds one under the scene id of every suspended
    generation.  Hence no generation, resumed or started there, answers with
    the status 500. *)
Theorem reachable_counters (json_loads : string -> result value)
    (state : Server.t) :
  reachable json_loads state ->
  let store := ThreeDGenerator.scene_compositions (Server.generator state) in
  let tracker := Server.tracker state in
  (exists a s : Z,
     (0 <= a)%Z /\ (0 <= s)%Z
     /\ BusinessTracker.api_calls tracker
        = {[ "analyze" := a; "generate_3d" := s; "scene_view" := 0%Z ]}
     /\ BusinessTracker.scenes_generated tracker = s
     /\ (Z.of_nat (size store)
         <= s + Z.of_nat (length (Server.suspended state)))%Z)
  /\ BusinessTracker.wf tracker
  /\ (forall composition request,
        (composition, request) ∈ Server.suspended state ->
        is_Some (store !! SceneComposition.scene_id composition))
  /\ (forall composition request elapsed,
        exists result,
          (generate_scene_after tracker composition elapsed request).1
          = Ok result)
  /\ (forall uuid elapsed request,
        exists result,
          (generate_scene (Server.generator state) tracker uuid elapsed
             request).1.1 = Ok result).
Proof.
  intros R. cbv zeta.
  assert (I : (exists a s : Z,
     (0 <= a)%Z /\ (0 <= s)%Z
     /\ BusinessTracker.api_calls (Server.tracker state)
        = {[ "analyze" := a; "generate_3d" := s; "scene_view" := 0%Z ]}
     /\ BusinessTracker.scenes_generated (Server.tracker state) = s
     /\ (Z.of_nat (size (ThreeDGenerator.scene_compositions
                           (Server.generator state)))
         <= s + Z.of_nat (length (Server.suspended state)))%Z)
     /\ (forall composition request,
           (composition, request) ∈ Server.suspended state ->
           is_Some (ThreeDGenerator.scene_compositions (Server.generator state)
                      !! SceneComposition.scene_id composition))).
  { induction R as [ | state state' R [(a & s & Ha & Hs & C & S & B) K] T ].
    - split.
      + exists 0%Z, 0%Z. repeat split; try reflexivity; try lia.
      + intros composition request M. cbn in M. inversion M.
    - destruct T as [ generator tracker suspended post request
                    | generator tracker suspended uuid request
                    | generator tracker earlier later composition request
                        elapsed ];
        cbn [Server.generator Server.tracker Server.suspended] in *.
      + split; [ | exact K ].
        assert (A : BusinessTracker.api_calls tracker !! "analyze" = Some a)
          by (rewrite C; apply lookup_insert_eq).
        destruct (analyze_story_present json_loads tracker tracker post request
                    a a A A) as (response & E & _).
        rewrite E. cbn [snd].
        destruct (AnalysisResponse.success response).
        * exists (a + 1)%Z, s.
          cbn [BusinessTracker.api_calls BusinessTracker.scenes_generated].
          repeat split; try assumption; try lia.
          rewrite C. apply insert_insert_eq.
        * exists a, s. repeat split; assumption.
      + unfold generate_scene_before. split.
        * exists a, s. repeat split; try assumption.
          rewrite composition_stored, map_size_insert. cbn [length].
          destruct (_ !! slice uuid None (Some 8%Z)); simpl; lia.
        * intros composition request' M. rewrite composition_stored.
          apply lookup_insert_is_Some'.
          apply elem_of_cons in M as [ [= -> _] | M ];
            [ left; reflexivity | right; exact (K _ _ M) ].
      + assert (G : BusinessTracker.api_calls tracker !! "generate_3d" = Some s).
        { rewrite C, lookup_insert_ne by discriminate.
          apply lookup_insert_eq. }
        rewrite (generate_scene_after_present _ _ _ _ _ G). cbn [snd].
        cbn [BusinessTracker.api_calls BusinessTracker.scenes_generated].
        split.
        * exists a, (s + 1)%Z. repeat split; try lia.
          -- rewrite C, insert_insert_ne by discriminate.
             rewrite insert_insert_eq. reflexivity.
          -- rewrite length_app in *. cbn [length] in B. lia.
        * intros composition' request' M. apply (K _ request').
          apply elem_of_app in M as [ M | M ]; apply elem_of_app;
            [ left; exact M | right; apply elem_of_cons; right; exact M ]. }
  destruct I as [I K]. split; [ exact I | ].
  destruct I as (a & s & _ & _ & C & _ & _).
  assert (G : BusinessTracker.api_calls (Server.tracker state) !! "generate_3d"
              = Some s).
  { rewrite C, lookup_insert_ne by discriminate. apply lookup_insert_eq. }
  split.
  { split; [ exists a; rewrite C; apply lookup_insert_eq | exists s; exact G ]. }
  split; [ exact K | ]. split.
  - intros composition request elapsed.
    rewrite (generate_scene_after_present _ _ _ _ _ G). eexists. reflexivity.
  - intros uuid elapsed request.
    rewrite (generate_scene_present _ _ _ _ _ _ G). eexists. reflexivity.
Qed.

(** X18.  With the counters of [__init__] present, an analysis request and a
    generation request do not affect each other: served in either order they
    get the same two answers and leave the same generator and tracker. *)
Theorem analyze_generate_commute (json_loads : string -> result value)
    (generator : ThreeDGenerator.t) (tracker : BusinessTracker.t)
    (post : result Response.t) (story : StoryRequest.t)
    (uuid : string) (elapsed : Q) (scene : ThreeDGenerationRequest.t) :
  BusinessTracker.wf tracker ->
  let analyzed := analyze_story json_loads tracker post story in
  let generated := generate_scene generator analyzed.2 uuid elapsed scene in
  let generated' := generate_scene generator tracker uuid elapsed scene in
  let analyzed' := analyze_story json_loads generated'.2 post story in
  analyzed.1 = analyzed'.1
  /\ generated.1 = generated'.1
  /\ generated.2 = analyzed'.2.
Proof.
  intros [[n A] [g G]]. cbv zeta.
  rewrite (generate_scene_present generator tracker _ _ _ _ G). cbn [fst snd].
  assert (A' : BusinessTracker.api_calls
                 (BusinessTracker.mk (BusinessTracker.scenes_generated tracker + 1)
                    (<["generate_3d" := (g + 1)%Z]>
                       (BusinessTracker.api_calls tracker))
                    (BusinessTracker.total_cost_savings tracker))
               !! "analyze" = Some n).
  { cbn [BusinessTracker.api_calls].
    rewrite lookup_insert_ne by discriminate. exact A. }
  destruct (analyze_story_present json_loads _ _ post story n n A A')
    as (response & E & E').
  rewrite E, E'. cbn [fst snd].
  split; [ reflexivity | ].
  destruct (AnalysisResponse.success response).
  - assert (G' : BusinessTracker.api_calls
                   (BusinessTracker.mk (BusinessTracker.scenes_generated tracker)
                      (<["analyze" := (n + 1)%Z]>
                         (BusinessTracker.api_calls tracker))
                      (BusinessTracker.total_cost_savings tracker
                       + AnalysisResponse.cost_savings response)%Q)
                 !! "generate_3d" = Some g).
    { cbn [BusinessTracker.api_calls].
      rewrite lookup_insert_ne by discriminate. exact G. }
    rewrite (generate_scene_present generator _ _ _ _ _ G'). cbn [fst snd].
    cbn [BusinessTracker.api_calls BusinessTracker.scenes_generated
         BusinessTracker.total_cost_savings].
    split; [ reflexivity | ].
    f_equal. apply insert_insert_ne. discriminate.
  - rewrite (generate_scene_present generator tracker _ _ _ _ G).
    split; reflexivity.
Qed.

(** X19.  An analysis that [analyze_story] returns under the engine tag
    ["fallback"] makes [generate_scene] compose the knight and the dragon
    and then the canned objects of the industry: seven elements for
    ["education"], five for every other industry. *)
Theorem fallback_scene_elements (json_loads : string -> result value)
    (generator : ThreeDGenerator.t) (tracker : BusinessTracker.t)
    (post : result Response.t) (story : StoryRequest.t)
    (response : AnalysisResponse.t) (uuid : string) :
  (analyze_story json_loads tracker post story).1 = Ok response ->
  AnalysisResponse.engine response = "fallback" ->
  let composition :=
    (ThreeDGenerator.generate_scene_composition generator uuid
       (AnalysisResponse.analysis response)).1 in
  take 2 (SceneElement.name <$> SceneComposition.elements composition)
  = ["knight"; "dragon"]
  /\ length (SceneComposition.elements composition)
     = (if String.eqb (StoryRequest.industry story) "education" then 7
        else 5)%nat.
Proof.
  intros E F. cbv zeta.
  assert (N : StoryAnalysis.new
                (AdvancedStoryAnalyzer.get_fallback_analysis
                   (strip (StoryRequest.text story))
                   (StoryRequest.industry story))
              = Ok (AnalysisResponse.analysis response)).
  { revert E.
    destruct (analyze_story_outcome json_loads tracker post story)
      as [ data a tracker' _ _ _ _ _ | a tracker' _ _ V _ | a _ V ];
      cbn [fst]; intros [= <-];
      [ discriminate F | exact V | exact V ]. }
  rewrite composition_elements.
  rewrite fmap_app, imap_name_character, imap_name_prop.
  rewrite length_app, !length_imap.
  generalize dependent (AnalysisResponse.analysis response). intros a N.
  unfold AdvancedStoryAnalyzer.get_fallback_analysis in N.
  destruct (String.eqb (StoryRequest.industry story) "education");
    [ | destruct (String.eqb (StoryRequest.industry story) "architecture") ];
    vm_compute in N; injection N as <-; split; reflexivity.
Qed.

(** ** The further properties on concrete exchanges *)

(** [clean_json_response_returns_part] on prose around an object. *)
Lemma clean_json_response_returns_part_witness :
  let object := "{" ++ Json.q "mood" ++ ": " ++ Json.q "calm" ++ "}" in
  AdvancedStoryAnalyzer._clean_json_response Json.loads
    ("Here you go: " ++ object ++ " Enjoy!") = Ok object
  /\ (exists pre post,
        "Here you go: " ++ object ++ " Enjoy!" = pre ++ object ++ post)
  /\ ((exists v, Json.loads object = Ok v)
      \/ (startswith object "{" = true /\ endswith object "}" = true)).
Proof.
  cbv zeta.
  assert (H : AdvancedStoryAnalyzer._clean_json_response Json.loads
                ("Here you go: "
                 ++ ("{" ++ Json.q "mood" ++ ": " ++ Json.q "calm" ++ "}")
                 ++ " Enjoy!")
              = Ok ("{" ++ Json.q "mood" ++ ": " ++ Json.q "calm" ++ "}"))
    by (vm_compute; reflexivity).
  split; [ exact H | ].
  exact (clean_json_response_returns_part Json.loads _ _ H).
Defined.

(** [clean_json_response_reraises] on prose without braces. *)
Lemma clean_json_response_reraises_witness :
  AdvancedStoryAnalyzer._clean_json_response Json.loads
    "  I cannot help with that.  " = Raise JSONDecodeError
  <-> Json.loads "I cannot help with that." = Raise JSONDecodeError
      /\ ((find "I cannot help with that." "{" = -1)%Z
          \/ (rfind "I cannot help with that." "}"
              < find "I cannot help with that." "{")%Z).
Proof.
  exact (proj2 (clean_json_response_reraises Json.loads
                  "  I cannot help with that.  " JSONDecodeError)).
Defined.

(** [cost_estimate_defaults] on a dictionary that holds a mood only. *)
Lemma cost_estimate_defaults_witness :
  exists k,
    AdvancedStoryAnalyzer._calculate_cost_estimate
      (VDict {[ "mood" := VStr "calm" ]}) "gaming" = Ok k
    /\ (k == 1000)%Q.
Proof.
  destruct (cost_estimate_defaults {[ "mood" := VStr "calm" ]} "gaming")
    as (k & E & K); try (vm_compute; reflexivity).
  exists k. split; [ exact E | ].
  rewrite K. vm_compute. reflexivity.
Defined.

(** [cost_estimate_sign] on a score of -2. *)
Lemma cost_estimate_sign_witness :
  exists k,
    AdvancedStoryAnalyzer._calculate_cost_estimate
      (VDict {[ "complexity_score" := VNum (-2) ]}) "gaming" = Ok k
    /\ (k <= 0)%Q.
Proof.
  destruct (AdvancedStoryAnalyzer._calculate_cost_estimate
              (VDict {[ "complexity_score" := VNum (-2) ]}) "gaming")
    as [ k | e ] eqn:E; [ | vm_compute in E; discriminate ].
  exists k. split; [ reflexivity | ].
  apply (cost_estimate_sign {[ "complexity_score" := VNum (-2) ]} "gaming"
           (-2) k); [ vm_compute; reflexivity | exact E | ].
  unfold Qle. simpl. lia.
Defined.

(** [analyze_with_llama_carries_over] on a reply with every field. *)
Lemma analyze_with_llama_carries_over_witness :
  exists d m,
    AdvancedStoryAnalyzer.analyze_with_llama Json.loads
      (Example.reply (Example.completion "7")) "a knight" "gaming" = VDict d
    /\ model_reply Json.loads (Example.reply (Example.completion "7")) m
    /\ d !! "mood" = m !! "mood".
Proof.
  destruct (AdvancedStoryAnalyzer.analyze_with_llama Json.loads
              (Example.reply (Example.completion "7")) "a knight" "gaming")
    as [ | b | x | s | l | d ] eqn:E; try (vm_compute in E; discriminate).
  destruct (analyze_with_llama_carries_over Json.loads _ _ _ d E)
    as (m & M & K).
  exists d, m. split; [ reflexivity | ]. split; [ exact M | ].
  apply K; discriminate.
Defined.

(** [analyze_with_llama_discards] on a reply whose score is a text. *)
Lemma analyze_with_llama_discards_witness :
  let raw :=
    "{" ++ Json.q "complexity_score" ++ ": " ++ Json.q "high" ++ "}" in
  model_reply Json.loads (Example.reply raw)
    {[ "complexity_score" := VStr "high" ]}
  /\ AdvancedStoryAnalyzer.analyze_with_llama Json.loads (Example.reply raw)
       "a knight" "gaming" = VNone.
Proof.
  cbv zeta.
  assert (M : model_reply Json.loads
                (Example.reply
                   ("{" ++ Json.q "complexity_score" ++ ": " ++ Json.q "high"
                    ++ "}"))
                {[ "complexity_score" := VStr "high" ]}).
  { eapply ModelReply; [ reflexivity | reflexivity | reflexivity
                         | vm_compute; reflexivity | vm_compute; reflexivity
                         | vm_compute; reflexivity ]. }
  split; [ exact M | ].
  apply (analyze_with_llama_discards Json.loads _ _ _ _ M).
  left. vm_compute. reflexivity.
Defined.

(** [model_path_content] on a reply with every field. *)
Lemma model_path_content_witness :
  exists response tracker' m,
    analyze_story Json.loads BusinessTracker.__init__
      (Example.reply (Example.completion "7"))
      (Example.request "a knight" "gaming") = (Ok response, tracker')
    /\ model_reply Json.loads (Example.reply (Example.completion "7")) m
    /\ m !! "setting"
       = Some (VStr (StoryAnalysis.setting (AnalysisResponse.analysis response))).
Proof.
  destruct (analyze_story Json.loads BusinessTracker.__init__
              (Example.reply (Example.completion "7"))
              (Example.request "a knight" "gaming"))
    as [[ response | e ] tracker'] eqn:E; [ | vm_compute in E; discriminate ].
  assert (F : AnalysisResponse.engine response = "llama_enhanced").
  { pose proof E as E2. vm_compute in E2. injection E2 as R _.
    rewrite <- R. reflexivity. }
  destruct (model_path_content Json.loads _ _ _ _ _ E F)
    as (m & M & _ & S & _).
  exists response, tracker', m. split; [ reflexivity | ].
  split; [ exact M | exact S ].
Defined.

(** [composition_positions] on the second prop of five characters and seven
    objects. *)
Lemma composition_positions_witness :
  let composition :=
    (ThreeDGenerator.generate_scene_composition ThreeDGenerator.__init__
       "3f2b8c1a-9d4e-4c6b-8a57-0e1f2a3b4c5d"
       (Example.story Example.crowd Example.hoard 7)).1 in
  SceneComposition.elements composition !! 4%nat
  = Some (ThreeDGenerator.prop_element 1 "q")
  /\ SceneElement.position (ThreeDGenerator.prop_element 1 "q")
     = {[ "x" := inject_Z 1 * 1.5 - 3; "y" := 0; "z" := inject_Z 2 ]}%Q.
Proof.
  cbv zeta.
  assert (L : SceneComposition.elements
                (ThreeDGenerator.generate_scene_composition
                   ThreeDGenerator.__init__
                   "3f2b8c1a-9d4e-4c6b-8a57-0e1f2a3b4c5d"
                   (Example.story Example.crowd Example.hoard 7)).1 !! 4%nat
              = Some (ThreeDGenerator.prop_element 1 "q"))
    by reflexivity.
  split; [ exact L | ].
  destruct (composition_positions _ _ _ _ _ L) as [_ P].
  destruct P as (_ & P & _); [ simpl; lia | ].
  exact P.
Defined.


(** [scene_id_collision] on two uuids with the same first eight characters. *)
Lemma scene_id_collision_witness :
  let first :=
    ThreeDGenerator.generate_scene_composition ThreeDGenerator.__init__
      "3f2b8c1a-9d4e-4c6b-8a57-0e1f2a3b4c5d"
      (Example.story Example.crowd Example.hoard 7) in
  let second :=
    ThreeDGenerator.generate_scene_composition first.2
      "3f2b8c1a-0000-4000-8000-000000000000"
      (Example.story ["knight"] [] 2) in
  ThreeDGenerator.scene_compositions second.2 !! "3f2b8c1a" = Some second.1
  /\ second.1 <> first.1
  /\ size (ThreeDGenerator.scene_compositions second.2) = 1%nat.
Proof.
  cbv zeta.
  destruct (scene_id_collision ThreeDGenerator.__init__
              "3f2b8c1a-9d4e-4c6b-8a57-0e1f2a3b4c5d"
              "3f2b8c1a-0000-4000-8000-000000000000"
              (Example.story Example.crowd Example.hoard 7)
              (Example.story ["knight"] [] 2))
    as (_ & L & S & _); [ vm_compute; reflexivity | ].
  split; [ exact L | ]. split; [ | rewrite S; reflexivity ].
  intros C. apply (f_equal SceneComposition.elements) in C.
  apply (f_equal length) in C. vm_compute in C. discriminate.
Defined.

(** [generate_scene_figures] on five characters and seven objects. *)
Lemma generate_scene_figures_witness :
  exists result generator' tracker',
    generate_scene ThreeDGenerator.__init__ BusinessTracker.__init__
      "3f2b8c1a-9d4e-4c6b-8a57-0e1f2a3b4c5d" 2
      (ThreeDGenerationRequest.mk
         (Example.story Example.crowd Example.hoard 7) "realistic" "high")
    = (Ok result, generator', tracker')
    /\ ThreeDGenerationResponse.model_urls result !! 3%nat
       = Some "/api/mock-model/3f2b8c1a/p"
    /\ ThreeDGenerationResponse.poly_count result = 40000%Z.
Proof.
  destruct (generate_scene ThreeDGenerator.__init__ BusinessTracker.__init__
              "3f2b8c1a-9d4e-4c6b-8a57-0e1f2a3b4c5d" 2
              (ThreeDGenerationRequest.mk
                 (Example.story Example.crowd Example.hoard 7)
                 "realistic" "high"))
    as [[[ result | e ] generator'] tracker'] eqn:E;
    [ | vm_compute in E; discriminate ].
  pose proof (generate_scene_figures _ _ _ _ _ _ _ _ E) as F.
  cbv zeta in F. destruct F as (_ & _ & U & P & _).
  exists result, generator', tracker'.
  split; [ reflexivity | ]. split.
  - rewrite U. reflexivity.
  - rewrite P, U. reflexivity.
Defined.

(** [analyze_story_blank_text] on a text of blanks for education. *)
Lemma analyze_story_blank_text_witness :
  exists a,
    analyze_story Json.loads BusinessTracker.__init__
      (Example.reply (Example.completion "7"))
      (Example.request "   " "education")
    = (Ok (AnalysisResponse.mk false a "fallback" "education" 1500.0),
       BusinessTracker.__init__)
    /\ StoryAnalysis.mood a = "informative and clear".
Proof.
  destruct (analyze_story_blank_text Json.loads BusinessTracker.__init__
              (Example.reply (Example.completion "7"))
              (Example.request "   " "education"))
    as (a & N & E & _); [ vm_compute; reflexivity | ].
  exists a. split; [ exact E | ].
  vm_compute in N. injection N as <-. reflexivity.
Defined.

(** [reachable_counters] while two generations are suspended, after one
    analysis: two compositions are stored and no scene is counted yet. *)
Lemma reachable_counters_witness :
  let request :=
    ThreeDGenerationRequest.mk
      (Example.story Example.crowd Example.hoard 7) "realistic" "high" in
  let analyzed :=
    (analyze_story Json.loads BusinessTracker.__init__ Example.unreachable
       (Example.request "a knight" "gaming")).2 in
  let first :=
    generate_scene_before ThreeDGenerator.__init__
      "3f2b8c1a-9d4e-4c6b-8a57-0e1f2a3b4c5d" request in
  let second :=
    generate_scene_before first.2
      "7c1d2e3f-0000-4000-8000-000000000000" request in
  let state :=
    Server.mk second.2 analyzed [(second.1, request); (first.1, request)] in
  reachable Json.loads state
  /\ size (ThreeDGenerator.scene_compositions (Server.generator state))
     = 2%nat
  /\ BusinessTracker.scenes_generated (Server.tracker state) = 0%Z
  /\ BusinessTracker.wf (Server.tracker state)
  /\ exists result,
       (generate_scene_after (Server.tracker state) first.1 2 request).1
       = Ok result.
Proof.
  cbv zeta.
  match goal with |- reachable _ ?s /\ _ => set (state := s) end.
  assert (R : reachable Json.loads state).
  { eapply ReachStep; [ eapply ReachStep; [ eapply ReachStep | ] | ].
    - apply ReachStart.
    - apply (StepAnalyze Json.loads _ _ _ Example.unreachable
               (Example.request "a knight" "gaming")).
    - apply (StepSuspend Json.loads _ _ _
               "3f2b8c1a-9d4e-4c6b-8a57-0e1f2a3b4c5d").
    - apply (StepSuspend Json.loads _ _ _
               "7c1d2e3f-0000-4000-8000-000000000000"). }
  split; [ exact R | ].
  destruct (reachable_counters Json.loads state R) as (_ & W & _ & A & _).
  split; [ vm_compute; reflexivity | ].
  split; [ vm_compute; reflexivity | ].
  split; [ exact W | apply A ].
Defined.

(** [analyze_generate_commute] on the tracker [__init__] builds. *)
Lemma analyze_generate_commute_witness :
  let scene :=
    ThreeDGenerationRequest.mk
      (Example.story Example.crowd Example.hoard 7) "realistic" "high" in
  let uuid := "3f2b8c1a-9d4e-4c6b-8a57-0e1f2a3b4c5d" in
  let story := Example.request "a knight" "gaming" in
  BusinessTracker.wf BusinessTracker.__init__
  /\ (generate_scene ThreeDGenerator.__init__
        (analyze_story Json.loads BusinessTracker.__init__
           Example.unreachable story).2 uuid 2 scene).2
     = (analyze_story Json.loads
          (generate_scene ThreeDGenerator.__init__ BusinessTracker.__init__
             uuid 2 scene).2 Example.unreachable story).2.
Proof.
  cbv zeta.
  assert (W : BusinessTracker.wf BusinessTracker.__init__)
    by (split; vm_compute; eauto).
  split; [ exact W | ].
  apply (analyze_generate_commute Json.loads ThreeDGenerator.__init__
           BusinessTracker.__init__ Example.unreachable
           (Example.request "a knight" "gaming")
           "3f2b8c1a-9d4e-4c6b-8a57-0e1f2a3b4c5d" 2
           (ThreeDGenerationRequest.mk
              (Example.story Example.crowd Example.hoard 7)
              "realistic" "high") W).
Defined.

(** [fallback_scene_elements] on an unreachable model, for education. *)
Lemma fallback_scene_elements_witness :
  exists response,
    (analyze_story Json.loads BusinessTracker.__init__ Example.unreachable
       (Example.request "a knight" "education")).1 = Ok response
    /\ AnalysisResponse.engine response = "fallback"
    /\ length
         (SceneComposition.elements
            (ThreeDGenerator.generate_scene_composition
               ThreeDGenerator.__init__ "3f2b8c1a-9d4e-4c6b-8a57-0e1f2a3b4c5d"
               (AnalysisResponse.analysis response)).1) = 7%nat.
Proof.
  destruct (analyze_story Json.loads BusinessTracker.__init__
              Example.unreachable (Example.request "a knight" "education")).1
    as [ response | e ] eqn:E; [ | vm_compute in E; discriminate ].
  assert (F : AnalysisResponse.engine response = "fallback").
  { pose proof E as E2. vm_compute in E2. injection E2 as R.
    rewrite <- R. reflexivity. }
  exists response. split; [ reflexivity | ]. split; [ exact F | ].
  apply (fallback_scene_elements Json.loads ThreeDGenerator.__init__
           BusinessTracker.__init__ Example.unreachable
           (Example.request "a knight" "education") response
           "3f2b8c1a-9d4e-4c6b-8a57-0e1f2a3b4c5d" E F).
Defined.
